(** * Job Application Autopilot: a shallow embedding of the scoring,
      diffing, confirmation and token logic, with the properties of its
      specification.

    The Python sources are embedded module by module:
    - [PyStr]          the [str] methods the code relies on;
    - [TailorTokens]   src/tools/tailor_resume.py and src/tools/export_resume.py;
    - [Database]       src/storage/database.py;
    - [ApplyAgent]     src/agents/apply_agent.py;
    - [FormatterCheck], [KeywordScorer], [IntegrityCheck]   src/ats/;
    - [DiffViewer], [DiffSections]   src/agents/diff_viewer.py;
    - [ApplyJob]       src/tools/apply_job.py;
    - [ATSReport], [ATSChecker]   src/ats/report.py and
                       src/agents/ats_checker.py;
    - [Queries], [TrackerAgent], [Dashboard]   the queries of
                       src/storage/database.py and src/agents/tracker_agent.py;
    - [Lifecycle], [TokenTraffic]   the predicates and call sequences the
                       properties of the records and tokens are stated with.

    Python [str] values are byte strings here (UTF-8); integers are [Z].
    Of SQLite the model has what the statements of database.py meet: row
    ids, the unique index on the active applications and the affinity of
    the columns; a parameter is taken to fit in 64 bits where a property
    says so. *)

From Stdlib Require Import ZArith QArith String Ascii List Lia Bool.
From stdpp Require Import gmap strings list pretty sorting.

Local Open Scope string_scope.
Local Open Scope Z_scope.
Local Open Scope list_scope.

(** ** Python string methods *)

Module PyStr.

(** [str.lower] on the ASCII range; bytes of non-ASCII characters are
    left as they are. *)
Definition lower_ascii (a : ascii) : ascii :=
  let n := nat_of_ascii a in
  if ((65 <=? n) && (n <=? 90))%nat then ascii_of_nat (n + 32) else a.

Fixpoint lower (s : string) : string :=
  match s with
  | EmptyString => EmptyString
  | String a s' => String (lower_ascii a) (lower s')
  end.

(** [sub in s] *)
Fixpoint contains (sub s : string) : bool :=
  String.prefix sub s ||
  match s with
  | EmptyString => false
  | String _ s' => contains sub s'
  end.

(** ASCII whitespace as [str.split] and [str.strip] see it. *)
Definition is_space (a : ascii) : bool :=
  let n := nat_of_ascii a in
  (((9 <=? n) && (n <=? 13)) || ((28 <=? n) && (n <=? 32)))%nat.

(** [s.split()] : maximal runs of non-whitespace.  [cur] is the word
    being read, in reverse. *)
Fixpoint split_go (s : string) (cur : list ascii) : list string :=
  let flush (rest : list string) :=
    match cur with
    | [] => rest
    | _ => string_of_list_ascii (rev cur) :: rest
    end in
  match s with
  | EmptyString => flush []
  | String a s' =>
      if is_space a then flush (split_go s' [])
      else split_go s' (a :: cur)
  end.

Definition split (s : string) : list string := split_go s [].

(** [s.count(sub)] for a non-empty [sub]: occurrences from left to
    right that do not overlap.  [skip] is the number of characters still
    covered by the last occurrence. *)
Fixpoint count_go (sub s : string) (skip : nat) : nat :=
  match s with
  | EmptyString => 0%nat
  | String _ s' =>
      match skip with
      | S k => count_go sub s' k
      | O =>
          if String.prefix sub s
          then S (count_go sub s' (String.length sub - 1))
          else count_go sub s' 0%nat
      end
  end.

Definition count (sub s : string) : nat := count_go sub s 0%nat.

(** [sep.join(parts)] *)
Fixpoint join (sep : string) (parts : list string) : string :=
  match parts with
  | [] => ""
  | [p] => p
  | p :: rest => p +:+ sep +:+ join sep rest
  end.

(** [collections.Counter(words).get(w, 0)] *)
Definition occurrences (w : string) (words : list string) : nat :=
  length (filter (λ x, x = w) words).

(** [s.strip()] *)
Fixpoint lstrip (s : string) : string :=
  match s with
  | EmptyString => EmptyString
  | String a s' => if is_space a then lstrip s' else s
  end.

Definition rev_string (s : string) : string :=
  string_of_list_ascii (rev (list_ascii_of_string s)).

Definition strip (s : string) : string :=
  rev_string (lstrip (rev_string (lstrip s))).

(** [s[:n]] *)
Definition take (n : nat) (s : string) : string := String.substring 0 n s.

(** Line boundaries of [str.splitlines] in the ASCII range:
    LF, VT, FF, CR, FS, GS, RS (CR LF counts as one). *)
Definition is_linebreak (a : ascii) : bool :=
  let n := nat_of_ascii a in
  (((10 <=? n) && (n <=? 13)) || ((28 <=? n) && (n <=? 30)))%nat.

(** [s.splitlines(keepends=True)]; [cur] is the line being read, in
    reverse. *)
Fixpoint splitlines_go (s : string) (cur : list ascii) : list string :=
  match s with
  | EmptyString =>
      match cur with
      | [] => []
      | _ => [string_of_list_ascii (rev cur)]
      end
  | String a s' =>
      if is_linebreak a then
        match s' with
        | String b s'' =>
            if ((nat_of_ascii a =? 13) && (nat_of_ascii b =? 10))%nat
            then string_of_list_ascii (rev (b :: a :: cur)) :: splitlines_go s'' []
            else string_of_list_ascii (rev (a :: cur)) :: splitlines_go s' []
        | EmptyString => [string_of_list_ascii (rev (a :: cur))]
        end
      else splitlines_go s' (a :: cur)
  end.

Definition splitlines (s : string) : list string := splitlines_go s [].

End PyStr.

(** ** Tailor tokens: src/tools/tailor_resume.py, src/tools/export_resume.py *)

Module TailorTokens.

(** An entry of [_TAILOR_TOKENS]: [{"text": ..., "expires": ...}].
    Readings of [time.time()] are numbers of seconds. *)
Record token_entry := TokenEntry { text : string; expires : Z }.

Definition _TOKEN_TTL_SECONDS : Z := 1800.

(** [_cleanup_tokens]: [now] is its reading of the clock. *)
Definition _cleanup_tokens (now : Z) (tokens : gmap string token_entry)
  : gmap string token_entry :=
  filter (λ kv, ¬ (expires kv.2 < now)) tokens.

(** [validate_tailor_token]: [now1] is the clock read by the sweep,
    [now2] the clock read by the expiry test.  Returns the result and the
    new content of [_TAILOR_TOKENS]. *)
Definition validate_tailor_token (token : string) (now1 now2 : Z)
    (tokens : gmap string token_entry)
  : option string * gmap string token_entry :=
  let swept := _cleanup_tokens now1 tokens in
  let entry := swept !! token in
  let tokens' := delete token swept in
  match entry with
  | Some e =>
      if bool_decide (expires e > now2) then (Some (text e), tokens')
      else (None, tokens')
  | None => (None, tokens')
  end.

(** What [TailorAgent.tailor] hands back, as far as [tailor_resume]
    looks at it: the value under "tailored_text" when the key is there,
    and whether "error" holds a true value. *)
Record tailor_result := TailorResult {
  tailored_text : option string;
  error : bool;
  tailor_token : option string;
  token_expires_in_minutes : option Z
}.

(** [tailor_resume], after the call of the agent has produced [result]:
    [fresh] is the value of [secrets.token_urlsafe(16)], [now_sweep] and
    [now_mint] the two readings of the clock. *)
Definition tailor_resume (result : tailor_result) (fresh : string)
    (now_sweep now_mint : Z) (tokens : gmap string token_entry)
  : tailor_result * gmap string token_entry :=
  match tailored_text result with
  | Some txt =>
      if negb (error result) then
        let swept := _cleanup_tokens now_sweep tokens in
        let tokens' :=
          <[fresh := TokenEntry txt (now_mint + _TOKEN_TTL_SECONDS)]> swept in
        (TailorResult (tailored_text result) (error result) (Some fresh)
           (Some (_TOKEN_TTL_SECONDS / 60)),
         tokens')
      else (result, tokens)
  | None => (result, tokens)
  end.

(** The arguments of [DocExporter.export] other than the text. *)
Record export_options := ExportOptions {
  contact : option (list (string * string));
  sections : option (list (string * list string));
  filename : option string;
  job_title : option string;
  company : option string
}.

(** The document [DocExporter.export] saves, by the builder that wrote
    its paragraphs and what the builder was given: [_build_structured]
    reads the contact and the sections, [_build_from_text] the text.  Both
    write through python-docx and read nothing else. *)
Inductive document :=
| Structured (contact : list (string * string))
    (sections : list (string * list string))
| FromText (text : string).

(** The process state [export_resume] works on: the token table and the
    documents saved so far, each with its path. *)
Record state := State {
  tokens : gmap string token_entry;
  exported : list (string * document)
}.

(** The dict [export_resume] returns. *)
Inductive export_result :=
| ExportError (message : string)
| ExportDone (file_path : string) (message : string).

(** [if sections and contact]: both are given and not empty. *)
Definition structured (opts : export_options)
    : option (list (string * string) * list (string * list string)) :=
  match sections opts, contact opts with
  | Some (s :: ss), Some (c :: cs) => Some (c :: cs, s :: ss)
  | _, _ => None
  end.

(** The document [export] builds. *)
Definition build (resume_text : string) (opts : export_options) : document :=
  match structured opts with
  | Some (c, s) => Structured c s
  | None => FromText resume_text
  end.

Section ExportResume.

(** [_generate_filename(contact, job_title, company)]; it reads the
    date. *)
Variable _generate_filename :
  option (list (string * string)) -> option string -> option string -> string.

(** [str((self._output_dir / filename).resolve())] *)
Variable resolve : string -> string.

(** The path [export] saves to: [filename] is generated when it is
    [None] or empty. *)
Definition output_path (opts : export_options) : string :=
  let generated :=
    _generate_filename (contact opts) (job_title opts) (company opts) in
  resolve match filename opts with
          | Some f => if String.eqb f "" then generated else f
          | None => generated
          end.

(** [DocExporter.export] *)
Definition exporter_export (resume_text : string) (opts : export_options)
    (st : state) : string * state :=
  let doc := build resume_text opts in
  let path := output_path opts in
  (path, State (tokens st) (exported st ++ [(path, doc)])).

(** [export_resume]; the clock readings are used only when a token is
    given. *)
Definition export_resume (resume_text : string) (opts : export_options)
    (tailor_token : option string) (now1 now2 : Z) (st : state)
  : export_result * state :=
  match tailor_token with
  | Some token =>
      let '(validated_text, tokens') :=
        validate_tailor_token token now1 now2 (tokens st) in
      let st' := State tokens' (exported st) in
      match validated_text with
      | None =>
          (ExportError
             "Invalid or expired tailor token. Please re-run tailor_resume first.",
           st')
      | Some txt =>
          let '(path, st'') := exporter_export txt opts st' in
          (ExportDone path ("Resume exported to " +:+ path), st'')
      end
  | None =>
      let '(path, st') := exporter_export resume_text opts st in
      (ExportDone path ("Resume exported to " +:+ path), st')
  end.

End ExportResume.

(** Calls that touch the token table, for reasoning about sequences. *)
Inductive call :=
| CallTailor (result : tailor_result) (fresh : string) (now_sweep now_mint : Z)
| CallValidate (token : string) (now1 now2 : Z).

Definition run_call (c : call) (tk : gmap string token_entry)
  : gmap string token_entry :=
  match c with
  | CallTailor r fresh n1 n2 => (tailor_resume r fresh n1 n2 tk).2
  | CallValidate t n1 n2 => (validate_tailor_token t n1 n2 tk).2
  end.

(** [c] is a [tailor_resume] call that mints [token]. *)
Definition mints (token : string) (c : call) : bool :=
  match c with
  | CallTailor r fresh _ _ =>
      bool_decide (fresh = token) && bool_decide (is_Some (tailored_text r))
      && negb (error r)
  | CallValidate _ _ _ => false
  end.

(** The validations of [token] in a sequence of calls, in order, each
    with the clock of its expiry test and its result. *)
Fixpoint validations (token : string) (cs : list call)
    (tk : gmap string token_entry) : list (Z * option string) :=
  match cs with
  | [] => []
  | c :: cs' =>
      let rest := validations token cs' (run_call c tk) in
      match c with
      | CallValidate t n1 n2 =>
          if bool_decide (t = token)
          then (n2, (validate_tailor_token t n1 n2 tk).1) :: rest
          else rest
      | _ => rest
      end
  end.

End TailorTokens.

(** ** The tracker database: src/storage/database.py *)

Module Database.

(** Python values that are passed to the database or returned in the
    dicts of the agents. *)
#[warnings="-register-all"]
Inductive pyval :=
| PNone
| PBool (b : bool)
| PInt (n : Z)
| PStr (s : string)
| PDict (d : list (string * pyval)).

(** A Python dict with string keys, in insertion order. *)
Definition pydict := list (string * pyval).

(** [d.get(k)] for a dict, [None] when the key is absent. *)
Fixpoint dict_get (d : pydict) (k : string) : option pyval :=
  match d with
  | [] => None
  | (k', v) :: d' => if String.eqb k' k then Some v else dict_get d' k
  end.

(** [k in d] *)
Definition has_key (d : pydict) (k : string) : bool :=
  match dict_get d k with Some _ => true | None => false end.

(** What SQLite stores in a column. *)
Inductive sqlval :=
| Null
| Int (n : Z)
| Text (s : string).

#[global] Instance sqlval_eq_dec : EqDecision sqlval.
Proof. solve_decision. Defined.

(** A row other than its [id], and the row as [dict(row)] shows it. *)
Abbreviation row := (gmap string sqlval).

(** A table with [id INTEGER PRIMARY KEY AUTOINCREMENT]: the rows by id,
    and the largest id ever given out (SQLite's [sqlite_sequence]). *)
Record table := Table { rows : gmap Z row; seq : Z }.

(** The database and the clock that [datetime('now')] and
    [datetime.now()] read: [clock n] is the text of the [n]-th reading. *)
Record world := World {
  resumes : table;
  jobs : table;
  applications : table;
  action_log : table;
  clock : nat -> string;
  ticks : nat
}.

Definition with_applications (t : table) (w : world) : world :=
  World (resumes w) (jobs w) t (action_log w) (clock w) (ticks w).

Definition with_action_log (t : table) (w : world) : world :=
  World (resumes w) (jobs w) (applications w) t (clock w) (ticks w).

(** Exceptions the database layer raises: the [ValueError] of
    [update_application], and [sqlite3.IntegrityError] with its message. *)
Inductive exn :=
| ValueError (invalid_keys : list string) (allowed : list string)
| IntegrityError (message : string).

Inductive result (A : Type) :=
| Ok (a : A)
| Raise (e : exn).
Arguments Ok {A} a.
Arguments Raise {A} e.

(** Computations over the world that return or raise. *)
Definition M (A : Type) := world -> result A * world.

Definition ret {A} (a : A) : M A := fun w => (Ok a, w).

Definition raise {A} (e : exn) : M A := fun w => (Raise e, w).

Definition bind {A B} (c : M A) (k : A -> M B) : M B :=
  fun w =>
    match c w with
    | (Ok a, w') => k a w'
    | (Raise e, w') => (Raise e, w')
    end.

Notation "'let!' x ':=' c 'in' k" := (bind c (fun x => k))
  (at level 10, x name, c at level 100, k at level 200).

(** One reading of the clock. *)
Definition now : M string :=
  fun w =>
    (Ok (clock w (ticks w)),
     World (resumes w) (jobs w) (applications w) (action_log w) (clock w)
       (S (ticks w))).

(** The largest id in use, 0 for an empty table. *)
Definition max_rowid (t : table) : Z :=
  map_fold (fun k _ acc => Z.max k acc) 0 (rows t).

(** The id of the next [INSERT]: one more than the largest id that ever
    was in the table. *)
Definition next_id (t : table) : Z := Z.max (seq t) (max_rowid t) + 1.

Definition insert_row (cols : row) (t : table) : Z * table :=
  (next_id t, Table (<[next_id t := cols]> (rows t)) (next_id t)).

(** [SELECT * ... WHERE id = ?], as [dict(row)]. *)
Definition select_by_id (t : table) (id : Z) : option row :=
  (fun r => <["id" := Int id]> r) <$> rows t !! id.

(** [row[k]] and [row.get(k)]: every column of a fetched row is a key. *)
Definition col (r : row) (k : string) : sqlval := default Null (r !! k).

(** [row.get(k, d)] with a text default. *)
Definition col_or (r : row) (k d : string) : sqlval := default (Text d) (r !! k).

Definition of_sql (v : sqlval) : pyval :=
  match v with
  | Null => PNone
  | Int n => PInt n
  | Text s => PStr s
  end.

(** [str(v)], as an f-string shows a column. *)
Definition py_str (v : sqlval) : string :=
  match v with
  | Null => "None"
  | Int n => pretty n
  | Text s => s
  end.

(** Truth value of a column in a condition. *)
Definition truthy (v : sqlval) : bool :=
  match v with
  | Null => false
  | Int n => negb (n =? 0)
  | Text s => negb (String.eqb s "")
  end.

Definition opt_int (o : option Z) : sqlval :=
  match o with Some n => Int n | None => Null end.

Definition _APPLICATION_UPDATABLE_COLUMNS : list string :=
  ["status"; "ats_score"; "ats_report"; "tailored_text";
   "cover_letter"; "applied_at"; "platform"; "notes"].

(** [sorted(_APPLICATION_UPDATABLE_COLUMNS)] *)
Definition sorted_columns : list string :=
  ["applied_at"; "ats_report"; "ats_score"; "cover_letter";
   "notes"; "platform"; "status"; "tailored_text"].

Definition get_resume (resume_id : Z) : M (option row) :=
  fun w => (Ok (select_by_id (resumes w) resume_id), w).

Definition get_job (job_db_id : Z) : M (option row) :=
  fun w => (Ok (select_by_id (jobs w) job_db_id), w).

Definition get_application (app_id : Z) : M (option row) :=
  fun w => (Ok (select_by_id (applications w) app_id), w).

(** [status != 'cancelled'] in SQL: never true of a NULL. *)
Definition sql_not_cancelled (r : row) : bool :=
  match r !! "status" with
  | Some (Text s) => negb (String.eqb s "cancelled")
  | Some (Int _) => true
  | _ => false
  end.

(** The [WHERE] clause of [find_application]. *)
Definition matches (resume_id job_id : Z) (r : row) : bool :=
  bool_decide (r !! "resume_id" = Some (Int resume_id))
  && bool_decide (r !! "job_id" = Some (Int job_id))
  && sql_not_cancelled r.

(** SQLite's order on stored values: NULL, then numbers, then text. *)
Definition sql_ltb (a b : sqlval) : bool :=
  match a, b with
  | Null, Null => false
  | Null, _ => true
  | Int x, Int y => x <? y
  | Int _, Text _ => true
  | Text x, Text y => String.ltb x y
  | _, _ => false
  end.

(** [ORDER BY created_at DESC LIMIT 1]: a row none of the others is
    created after.  Among rows created at the same time SQL leaves the
    choice open; here the first one met is kept. *)
Fixpoint latest (best : option (Z * row)) (l : list (Z * row)) : option (Z * row) :=
  match l with
  | [] => best
  | (id, r) :: l' =>
      match best with
      | None => latest (Some (id, r)) l'
      | Some (_, b) =>
          if sql_ltb (col b "created_at") (col r "created_at")
          then latest (Some (id, r)) l'
          else latest best l'
      end
  end.

Definition find_application (resume_id job_id : Z) : M (option row) :=
  fun w =>
    let hits := filter (fun p => matches resume_id job_id p.2)
                  (map_to_list (rows (applications w))) in
    (Ok ((fun p => <["id" := Int p.1]> p.2) <$> latest None hits), w).

(** *** The schema of [applications]

    [_init_schema] finds no schema.sql beside database.py and runs its
    inline statements.  Of these the declared column types and the index
    [idx_app_resume_job] bear on what the statements of this class do. *)

(** The integers SQLite stores.  Python's sqlite3 raises [OverflowError]
    when it is handed an [int] outside this range as a parameter; the
    operations below are modelled for parameters inside it. *)
Definition int64 (n : Z) : Prop := -2 ^ 63 <= n < 2 ^ 63.

Definition int64b (n : Z) : bool := (-2 ^ 63 <=? n) && (n <? 2 ^ 63).

(** A parameter the driver can bind. *)
Definition bindable (v : pyval) : Prop :=
  match v with
  | PInt n => int64 n
  | _ => True
  end.

(** The affinity of a column of [applications]. *)
Inductive affinity := INTEGER | TEXT.

Definition column_affinity (column : string) : affinity :=
  if bool_decide (column ∈ ["id"; "resume_id"; "job_id"; "ats_score"])
  then INTEGER else TEXT.

(** White space as SQLite skips it around a number. *)
Definition sql_space (c : ascii) : bool :=
  let n := nat_of_ascii c in
  ((9 <=? n)%nat && (n <=? 13)%nat) || (n =? 32)%nat.

Fixpoint skip_spaces (s : string) : string :=
  match s with
  | String c s' => if sql_space c then skip_spaces s' else s
  | EmptyString => EmptyString
  end.

Definition digit_value (c : ascii) : option Z :=
  let n := nat_of_ascii c in
  if ((48 <=? n)%nat && (n <=? 57)%nat) then Some (Z.of_nat n - 48) else None.

(** The digits [s] starts with, read as a number after the digits already
    read ([acc], [seen]), and what follows them. *)
Fixpoint read_digits (s : string) (acc : Z) (seen : bool) : option (Z * string) :=
  match s with
  | String c s' =>
      match digit_value c with
      | Some d => read_digits s' (10 * acc + d) true
      | None => if seen then Some (acc, s) else None
      end
  | EmptyString => if seen then Some (acc, EmptyString) else None
  end.

(** Text that reads as a decimal integer of 64 bits: white space, a sign,
    digits, white space. *)
Definition integer_text (s : string) : option Z :=
  let s1 := skip_spaces s in
  let '(negative, s2) :=
    match s1 with
    | String "-" r => (true, r)
    | String "+" r => (false, r)
    | _ => (false, s1)
    end in
  match read_digits s2 0 false with
  | Some (n, rest) =>
      let v := if negative then - n else n in
      match skip_spaces rest with
      | EmptyString => if int64b v then Some v else None
      | String _ _ => None
      end
  | None => None
  end.

(** What a column keeps of a value assigned to it.  A [TEXT] column turns
    a number into its decimal text.  An [INTEGER] column turns text that
    reads as an integer into that integer and keeps other text.  (Text that
    reads as a number in another way, such as 71.5 or 7.1e1, would be stored
    as a [REAL] or as the integer it equals; the stored values here have no
    [REAL], such text is kept as it is, and the properties of
    [update_application] leave it out.) *)
Definition store (column : string) (v : sqlval) : sqlval :=
  match column_affinity column, v with
  | TEXT, Int n => Text (pretty n)
  | INTEGER, Text s =>
      match integer_text s with
      | Some n => Int n
      | None => Text s
      end
  | _, _ => v
  end.

(** The entry of a row in [idx_app_resume_job], the [UNIQUE INDEX ON
    applications(resume_id, job_id) WHERE status != 'cancelled']: the key
    of the row when the [WHERE] clause holds of it. *)
Definition idx_app_resume_job (r : row) : option (sqlval * sqlval) :=
  if sql_not_cancelled r then Some (col r "resume_id", col r "job_id") else None.

(** Two keys of a [UNIQUE] index collide when they are equal and hold no
    NULL. *)
Definition same_key (k k' : sqlval * sqlval) : bool :=
  bool_decide (k = k')
  && negb (bool_decide (k.1 = Null)) && negb (bool_decide (k.2 = Null)).

(** A row other than [id] holds the key [k] in the index. *)
Definition taken (k : sqlval * sqlval) (id : Z) (t : table) : bool :=
  existsb (fun p : Z * row =>
             negb (p.1 =? id)
             && match idx_app_resume_job p.2 with
                | Some k' => same_key k k'
                | None => false
                end)
    (map_to_list (rows t)).

(** Whether writing [new] as the row [id] fails on the index.  In an
    [UPDATE], [old] is the row that is replaced: a row that stays in the
    index under its key meets its own entry there and is written; a row that
    enters the index, as every inserted row does, must find its key free. *)
Definition breaks_index (old : option row) (new : row) (id : Z) (t : table)
    : bool :=
  match idx_app_resume_job new with
  | Some k =>
      if bool_decide (old ≫= idx_app_resume_job = Some k) then false
      else taken k id t
  | None => false
  end.

Definition unique_failed : exn :=
  IntegrityError
    "UNIQUE constraint failed: applications.resume_id, applications.job_id".

Section Json.

(** [json.dumps(value, default=str)] *)
Variable json_dumps : pyval -> string.

(** A parameter of a statement as the driver binds it; a dict goes
    through [json.dumps] first. *)
Definition to_sql (v : pyval) : sqlval :=
  match v with
  | PNone => Null
  | PBool b => Int (if b then 1 else 0)
  | PInt n => Int n
  | PStr s => Text s
  | PDict d => Text (json_dumps (PDict d))
  end.

(** [json.dumps(d, default=str) if d else None] *)
Definition dumps_or_null (d : option pydict) : sqlval :=
  match d with
  | Some (kv :: rest) => Text (json_dumps (PDict (kv :: rest)))
  | _ => Null
  end.

(** The row [create_application] inserts: the columns not named in the
    [INSERT] take the defaults of the schema; [t] is [datetime('now')]. *)
Definition application_cols (resume_id job_id : Z) (ats_score : option Z)
    (ats_report : option pydict) (t : string) : row :=
  list_to_map
    [("resume_id", Int resume_id); ("job_id", Int job_id);
     ("status", Text "draft");
     ("ats_score", opt_int ats_score);
     ("ats_report", dumps_or_null ats_report);
     ("tailored_text", Null); ("cover_letter", Null);
     ("applied_at", Null); ("platform", Null); ("notes", Null);
     ("created_at", Text t); ("updated_at", Text t)].

(** [create_application]: the [INSERT] fails, and nothing is written,
    when the pair has a record in the index. *)
Definition create_application (resume_id job_id : Z) (ats_score : option Z)
    (ats_report : option pydict) : M Z :=
  let! t := now in
  fun w =>
    let cols := application_cols resume_id job_id ats_score ats_report t in
    if breaks_index None cols (next_id (applications w)) (applications w)
    then (Raise unique_failed, w)
    else
      let '(id, tbl) := insert_row cols (applications w) in
      (Ok id, with_applications tbl w).

(** The [SET] clause: the columns of [kwargs] in order, each keeping of
    its parameter what its affinity makes of it. *)
Definition set_columns (kwargs : pydict) (r : row) : row :=
  foldl (fun r kv => <[kv.1 := store kv.1 (to_sql kv.2)]> r) r kwargs.

(** The row an [UPDATE] of [update_application] leaves in place of [r]. *)
Definition updated_row (kwargs : pydict) (t : string) (r : row) : row :=
  <["updated_at" := Text t]> (set_columns kwargs r).

(** Whether the [UPDATE] of the row [app_id] fails on the index; it
    cannot when there is no such row. *)
Definition update_fails (app_id : Z) (kwargs : pydict) (t : string)
    (tbl : table) : bool :=
  match rows tbl !! app_id with
  | Some old => breaks_index (Some old) (updated_row kwargs t old) app_id tbl
  | None => false
  end.

(** [update_application(app_id, **kwargs)]; returns [None].  The
    [UPDATE] fails, and nothing is written, when it would put the row into
    the index beside another row of its pair. *)
Definition update_application (app_id : Z) (kwargs : pydict) : M pyval :=
  let invalid_keys :=
    filter (fun k => k ∉ _APPLICATION_UPDATABLE_COLUMNS) kwargs.*1 in
  match invalid_keys with
  | _ :: _ => raise (ValueError invalid_keys sorted_columns)
  | [] =>
      match kwargs with
      | [] => ret PNone
      | _ :: _ =>
          let! t := now in
          fun w =>
            let tbl := applications w in
            if update_fails app_id kwargs t tbl then (Raise unique_failed, w)
            else
              let rows' := alter (updated_row kwargs t) app_id (rows tbl) in
              (Ok PNone, with_applications (Table rows' (seq tbl)) w)
      end
  end.

(** The row [log_action] inserts. *)
Definition log_cols (action : string) (details : option pydict)
    (application_id : option Z) (confirmed : bool) (t : string) : row :=
  list_to_map
    [("action", Text action);
     ("details", dumps_or_null details);
     ("application_id", opt_int application_id);
     ("confirmed", Int (if confirmed then 1 else 0));
     ("timestamp", Text t)].

(** [log_action] *)
Definition log_action (action : string) (details : option pydict)
    (application_id : option Z) (confirmed : bool) : M Z :=
  let! t := now in
  fun w =>
    let '(id, tbl) :=
      insert_row (log_cols action details application_id confirmed t)
        (action_log w) in
    (Ok id, with_action_log tbl w).

End Json.

End Database.

(** ** The confirmation gate: src/agents/apply_agent.py *)

Module ApplyAgent.
Import Database.

(** ["═" * 30] *)
Definition rule30 : string :=
  "══════════════════════════════".

(** [_build_confirmation_message] *)
Definition _build_confirmation_message (resume job : row)
    (ats_score : option Z) (tailored_text cover_letter : option string) : string :=
  let nonempty (o : option string) :=
    match o with Some s => negb (String.eqb s "") | None => false end in
  let lines :=
    ["═══ Application Summary ═══";
     "Candidate:  " +:+ py_str (col_or resume "name" "Unknown");
     "Position:   " +:+ py_str (col_or job "title" "Unknown");
     "Company:    " +:+ py_str (col_or job "company" "Unknown")]
    ++ (if truthy (col job "url")
        then ["Job URL:    " +:+ py_str (col job "url")] else [])
    ++ match ats_score with
       | Some n => ["ATS Score:  " +:+ pretty n +:+ "/100"]
       | None => []
       end
    ++ ["Resume:     " +:+ (if nonempty tailored_text then "✅ Tailored" else "📄 Original");
        "Cover Letter: " +:+ (if nonempty cover_letter then "✅ Generated" else "❌ Not included");
        "";
        "⚠️  Do you want to proceed with this application?";
        "    Reply 'yes' to confirm or 'no' to cancel.";
        rule30] in
  PyStr.join (String (ascii_of_nat 10) "") lines.

Definition opt_pyint (o : option Z) : pyval :=
  match o with Some n => PInt n | None => PNone end.

(** The value a keyword argument contributes to [updates]: only a
    non-empty string is kept. *)
Definition update_entry (k : string) (o : option string) : pydict :=
  match o with
  | Some s => if String.eqb s "" then [] else [(k, PStr s)]
  | None => []
  end.

(** The dict of guard rail #2, for the record [existing]. *)
Definition duplicate_error (existing : row) : pydict :=
  [("error",
    PStr "An application already exists for this resume + job combination.");
   ("existing_application",
    PDict [("app_id", of_sql (col existing "id"));
           ("status", of_sql (col existing "status"));
           ("created_at", of_sql (col existing "created_at"))]);
   ("suggestion", PStr "Use the existing application or cancel it first.")].

Definition is_some {A} (o : option A) : bool :=
  match o with Some _ => true | None => false end.

Section Agent.

Variable json_dumps : pyval -> string.

(** [MIN_ATS_SCORE], read from the environment when the module loads
    (60 when the variable is not set). *)
Variable MIN_ATS_SCORE : Z.

(** Guard rail #1: [ats_score is not None and ats_score < MIN_ATS_SCORE
    and not force]. *)
Definition below_minimum (ats_score : option Z) (force : bool) : bool :=
  match ats_score with
  | Some n => (n <? MIN_ATS_SCORE) && negb force
  | None => false
  end.

(** [prepare_application] *)
Definition prepare_application (resume_id job_db_id : Z)
    (tailored_text cover_letter : option string) (ats_score : option Z)
    (ats_report : option pydict) (force : bool) : M pydict :=
  if below_minimum ats_score force then
    ret [("error",
          PStr ("ATS score " +:+ py_str (opt_int ats_score)
                +:+ "/100 is below the minimum threshold ("
                +:+ pretty MIN_ATS_SCORE +:+ ")."));
         ("suggestion",
          PStr ("Tailor your resume first to improve ATS compatibility, "
                +:+ "or pass force=True to override this check."));
         ("ats_score", opt_pyint ats_score);
         ("min_required", PInt MIN_ATS_SCORE)]
  else
  let! resume := get_resume resume_id in
  match resume with
  | None => ret [("error", PStr ("Resume " +:+ pretty resume_id +:+ " not found"))]
  | Some resume =>
  let! job := get_job job_db_id in
  match job with
  | None => ret [("error", PStr ("Job " +:+ pretty job_db_id +:+ " not found"))]
  | Some job =>
  let! existing := find_application resume_id job_db_id in
  let duplicate :=
    match existing with
    | Some ex =>
        if bool_decide (col ex "status" = Text "cancelled") then None else Some ex
    | None => None
    end in
  match duplicate with
  | Some ex => ret (duplicate_error ex)
  | None =>
  let! app_id := create_application json_dumps resume_id job_db_id ats_score ats_report in
  let updates :=
    update_entry "tailored_text" tailored_text
    ++ update_entry "cover_letter" cover_letter in
  let! _ := match updates with
            | [] => ret PNone
            | _ :: _ => update_application json_dumps app_id updates
            end in
  let! _ := log_action json_dumps "prepare_application"
              (Some [("app_id", PInt app_id);
                     ("resume_name", of_sql (col resume "name"));
                     ("job_title", of_sql (col job "title"));
                     ("company", of_sql (col job "company"));
                     ("ats_score", opt_pyint ats_score)])
              (Some app_id) false in
  ret [("application_id", PInt app_id);
       ("status", PStr "draft");
       ("requires_confirmation", PBool true);
       ("summary",
        PDict [("candidate", of_sql (col_or resume "name" "Unknown"));
               ("position", of_sql (col_or job "title" "Unknown"));
               ("company", of_sql (col_or job "company" "Unknown"));
               ("platform", of_sql (col job "platform"));
               ("url", of_sql (col job "url"));
               ("ats_score", opt_pyint ats_score);
               ("has_tailored_resume", PBool (is_some tailored_text));
               ("has_cover_letter", PBool (is_some cover_letter))]);
       ("confirmation_message",
        PStr (_build_confirmation_message resume job ats_score
                tailored_text cover_letter))]
  end end end.

(** [confirm_apply] *)
Definition confirm_apply (app_id : Z) : M pydict :=
  let! app := get_application app_id in
  match app with
  | None => ret [("error", PStr ("Application " +:+ pretty app_id +:+ " not found"))]
  | Some app =>
      if negb (bool_decide (col app "status" = Text "draft")
               || bool_decide (col app "status" = Text "ready"))
      then
        ret [("error",
              PStr ("Application " +:+ pretty app_id +:+ " is in '"
                    +:+ py_str (col app "status") +:+ "' state — cannot submit"));
             ("suggestion",
              PStr "Only 'draft' or 'ready' applications can be submitted")]
      else
        let! t := now in
        let! _ := update_application json_dumps app_id
                    [("status", PStr "submitted"); ("applied_at", PStr t)] in
        let! _ := log_action json_dumps "confirm_apply"
                    (Some [("app_id", PInt app_id); ("confirmed_at", PStr t)])
                    (Some app_id) true in
        ret [("application_id", PInt app_id);
             ("status", PStr "submitted");
             ("applied_at", PStr t);
             ("message", PStr "Application marked as submitted! Good luck! 🎯")]
  end.

(** [cancel_application] *)
Definition cancel_application (app_id : Z) (reason : string) : M pydict :=
  let! app := get_application app_id in
  match app with
  | None => ret [("error", PStr ("Application " +:+ pretty app_id +:+ " not found"))]
  | Some app =>
      let! _ := update_application json_dumps app_id
                  [("status", PStr "cancelled");
                   ("notes",
                    PStr (if String.eqb reason "" then "Cancelled by user"
                          else "Cancelled: " +:+ reason))] in
      let! _ := log_action json_dumps "cancel_application"
                  (Some [("app_id", PInt app_id); ("reason", PStr reason)])
                  (Some app_id) false in
      ret [("application_id", PInt app_id);
           ("status", PStr "cancelled");
           ("message", PStr "Application cancelled. You can re-apply later.")]
  end.

(** The calls of the agent, and a sequence of them run on a world. *)
Inductive call :=
| Prepare (resume_id job_db_id : Z) (tailored_text cover_letter : option string)
    (ats_score : option Z) (ats_report : option pydict) (force : bool)
| Confirm (app_id : Z)
| Cancel (app_id : Z) (reason : string).

Definition run_call (c : call) : M pydict :=
  match c with
  | Prepare r j t cl s rep f => prepare_application r j t cl s rep f
  | Confirm a => confirm_apply a
  | Cancel a reason => cancel_application a reason
  end.

Fixpoint run_calls (cs : list call) (w : world) : world :=
  match cs with
  | [] => w
  | c :: cs' => run_calls cs' (run_call c w).2
  end.

End Agent.

(** The invariant of the application table: two rows that are not
    cancelled and belong to the same resume and job are one row. *)
Definition not_cancelled (r : row) : Prop := r !! "status" ≠ Some (Text "cancelled").

Definition one_active_per_pair (t : table) : Prop :=
  forall i j ri rj,
    rows t !! i = Some ri -> rows t !! j = Some rj ->
    not_cancelled ri -> not_cancelled rj ->
    ri !! "resume_id" = rj !! "resume_id" ->
    ri !! "job_id" = rj !! "job_id" ->
    i = j.

(** No record has a NULL status. *)
Definition status_set (t : table) : Prop :=
  forall i r, rows t !! i = Some r -> exists s, r !! "status" = Some (Text s).

Definition consistent (t : table) : Prop :=
  one_active_per_pair t /\ status_set t.

(** The name under which a call is logged, and whether its log row is
    marked confirmed. *)
Definition action_name (c : call) : string :=
  match c with
  | Prepare _ _ _ _ _ _ _ => "prepare_application"
  | Confirm _ => "confirm_apply"
  | Cancel _ _ => "cancel_application"
  end.

Definition logged_confirmed (c : call) : bool :=
  match c with
  | Confirm _ => true
  | _ => false
  end.

(** The application a call works on when it is accepted in the world
    [w]: the record to be created, or the one named. *)
Definition target (c : call) (w : world) : Z :=
  match c with
  | Prepare _ _ _ _ _ _ _ => next_id (applications w)
  | Confirm a => a
  | Cancel a _ => a
  end.

(** [c] cancels the application [app_id]. *)
Definition cancels (app_id : Z) (c : call) : bool :=
  match c with
  | Cancel a _ => bool_decide (a = app_id)
  | _ => false
  end.

End ApplyAgent.

(** ** The ATS layers: src/ats/ *)

Module Ats.

(** An entry of an [issues] list.  [count] and [keywords] are the extra
    keys some entries of layer 2 carry. *)
Record issue := Issue {
  check : string;
  severity : string;
  message : string;
  suggestion : option string;
  count : option nat;
  keywords : option (list string)
}.

(** A double quote, for the messages that show one. *)
Definition dq : string := String (ascii_of_nat 34) EmptyString.

(** [sum(1 for i in issues if i["severity"] == s)] *)
Definition count_severity (s : string) (issues : list issue) : nat :=
  length (filter (fun i => severity i = s) issues).

(** The "summary" of layers 1 and 3. *)
Record summary := Summary {
  errors : nat;
  warnings : nat;
  infos : nat;
  passed : bool
}.

(** The result dict of layers 1 and 3. *)
Record layer_result := LayerResult {
  layer : Z;
  name : string;
  score : Z;
  max_score : Z;
  issues : list issue;
  result_summary : summary
}.

End Ats.

(** ** Layer 1, formatting: src/ats/formatter_check.py *)

Module FormatterCheck.
Import Ats.

Definition MAX_SCORE : Z := 20.

(** [PROBLEMATIC_BULLETS], in the order the set is written. *)
Definition PROBLEMATIC_BULLETS : list string :=
  ["→"; "➤"; "➜"; "►"; "★"; "✦"; "✓"; "✔"; "⬤"; "◆"; "◇"; "▪"; "▸"].

(** An entry of "section_headers"; [is_standard] is the truth value of
    the key. *)
Record header := Header {
  original : string;
  canonical : option string;
  is_standard : bool
}.

(** A bounding box: its keys with their coordinates (in points). *)
Definition bbox := list (string * Z).

(** The Docling tree as far as it is walked: a dict with its "prov"
    entries (each with its "bbox", if any), "text" and "children"; a list;
    or any other value. *)
#[warnings="-register-all"]
Inductive node :=
| NDict (prov : list (option bbox)) (text : string) (children : list node)
| NList (items : list node)
| NOther.

(** The part of [resume_data] the checks read, defaults applied:
    [file_type] is [file_info.type] or "unknown", [body] is
    [raw_document.body] when both keys are there. *)
Record resume_data := ResumeData {
  file_type : string;
  section_headers : list header;
  metadata_warnings : list string;
  body : option node;
  raw_text : string
}.

(** An element of the list [_collect_items_with_bbox] builds. *)
Record item := Item { x : option Z; item_text : string }.

Fixpoint assoc (k : string) (d : list (string * Z)) : option Z :=
  match d with
  | [] => None
  | (k', v) :: d' => if String.eqb k' k then Some v else assoc k d'
  end.

(** [_collect_items_with_bbox] *)
Fixpoint _collect_items_with_bbox (n : node) : list item :=
  match n with
  | NDict prov text children =>
      flat_map
        (fun p : option bbox =>
           match p with
           | Some (kv :: rest) =>
               let b := kv :: rest in
               [Item (match assoc "l" b with
                      | Some v => Some v
                      | None => assoc "x" b
                      end) text]
           | _ => []
           end) prov
      ++ flat_map _collect_items_with_bbox children
  | NList items => flat_map _collect_items_with_bbox items
  | NOther => []
  end.

(** [[xs[i + 1] - xs[i] for i in range(len(xs) - 1)]] *)
Fixpoint gaps (xs : list Z) : list Z :=
  match xs with
  | a :: (b :: _) as rest => (b - a) :: gaps rest
  | _ => []
  end.

(** [_detect_columns]; an absent or empty body gives [False]. *)
Definition _detect_columns (body : option node) : bool :=
  match body with
  | None => false
  | Some b =>
      let items := _collect_items_with_bbox b in
      if (length items <? 4)%nat then false
      else
        let x_positions :=
          merge_sort Z.le (remove_dups (omap x items)) in
        (2 <=? length x_positions)%nat
        && existsb (fun gap => 200 <? gap) (gaps x_positions)
  end.

(** [_check_file_type] *)
Definition _check_file_type (r : resume_data) : option issue :=
  if String.eqb (file_type r) "pdf" || String.eqb (file_type r) "docx" then None
  else
    Some (Issue "file_type" "error"
            ("File type ." +:+ file_type r
             +:+ " not accepted — only .pdf and .docx are ATS-compatible")
            (Some "Convert your resume to PDF or DOCX format") None None).

Definition is_lower_letter (a : ascii) : bool :=
  let n := nat_of_ascii a in ((97 <=? n) && (n <=? 122))%nat.

Definition is_upper_letter (a : ascii) : bool :=
  let n := nat_of_ascii a in ((65 <=? n) && (n <=? 90))%nat.

(** [str.title] on the ASCII range: a letter after a non-letter is made
    upper case, every other letter lower case. *)
Fixpoint title_go (s : string) (after_letter : bool) : string :=
  match s with
  | EmptyString => EmptyString
  | String a s' =>
      let letter := is_lower_letter a || is_upper_letter a in
      let a' :=
        if letter then
          if after_letter then PyStr.lower_ascii a
          else if is_lower_letter a then ascii_of_nat (nat_of_ascii a - 32) else a
        else a in
      String a' (title_go s' letter)
  end.

Definition title (s : string) : string := title_go s false.

(** What one header adds in [_check_section_headers]. *)
Definition header_issue (h : header) : list issue * Z :=
  if is_standard h then ([], 0)
  else
    let canon := default "other" (canonical h) in
    if negb (String.eqb canon "other") then
      ([Issue "section_header" "warning"
          ("Section header " +:+ dq +:+ original h +:+ dq +:+ " is non-standard")
          (Some ("Rename to " +:+ dq +:+ title canon +:+ dq
                 +:+ " for better ATS parsing")) None None],
       1)
    else
      ([Issue "section_header" "info"
          ("Unrecognised section header: " +:+ dq +:+ original h +:+ dq)
          (Some "Consider using a standard header name") None None],
       0).

Definition sum_Z (l : list Z) : Z := foldr Z.add 0 l.

(** [_check_section_headers] *)
Definition _check_section_headers (r : resume_data) : list issue * Z :=
  let per_header := map header_issue (section_headers r) in
  (flat_map fst per_header, Z.min (sum_Z (map snd per_header)) 3).

(** [_check_contact_placement] *)
Definition _check_contact_placement (r : resume_data) : list issue * Z :=
  let hits :=
    filter (fun w => PyStr.contains "header" (PyStr.lower w) = true
                     \/ PyStr.contains "footer" (PyStr.lower w) = true)
      (metadata_warnings r) in
  (map (fun w =>
          Issue "contact_placement" "warning" w
            (Some "Move contact information to the main body of the resume")
            None None) hits,
   Z.min (Z.of_nat (length hits)) 2).

(** [_check_layout] *)
Definition _check_layout (r : resume_data) : list issue * Z :=
  if _detect_columns (body r) then
    ([Issue "layout" "warning"
        "Multi-column layout detected — may cause text jumbling in ATS parsers"
        (Some "Use a single-column layout for best ATS compatibility") None None],
     2)
  else ([], 0).

(** [_check_bullets] *)
Definition _check_bullets (r : resume_data) : list issue * Z :=
  let found :=
    filter (fun c => PyStr.contains c (raw_text r) = true) PROBLEMATIC_BULLETS in
  match found with
  | [] => ([], 0)
  | _ :: _ =>
      ([Issue "bullet_style" "info"
          ("Non-standard bullet characters found: "
           +:+ PyStr.join ", " (map (fun c => dq +:+ c +:+ dq) found))
          (Some ("Replace with standard bullets: " +:+ dq +:+ "•" +:+ dq
                 +:+ " or " +:+ dq +:+ "-" +:+ dq)) None None],
       1)
  end.

(** [_build_result] *)
Definition _build_result (score : Z) (issues : list issue) : layer_result :=
  LayerResult 1 "Formatting & Structure" score MAX_SCORE issues
    (Summary (count_severity "error" issues) (count_severity "warning" issues)
       (count_severity "info" issues)
       (match issues with [] => true | _ => false end)).

(** [check] *)
Definition check_resume (r : resume_data) : layer_result :=
  let score := MAX_SCORE in
  match _check_file_type r with
  | Some file_check =>
      (* its severity is "error": the hard block *)
      _build_result (Z.max (score - 20) 0) [file_check]
  | None =>
      let '(header_issues, header_penalty) := _check_section_headers r in
      let score := score - header_penalty in
      let '(contact_issues, contact_penalty) := _check_contact_placement r in
      let score := score - contact_penalty in
      let '(layout_issues, layout_penalty) := _check_layout r in
      let score := score - layout_penalty in
      let '(bullet_issues, bullet_penalty) := _check_bullets r in
      let score := score - bullet_penalty in
      _build_result (Z.max score 0)
        (header_issues ++ contact_issues ++ layout_issues ++ bullet_issues)
  end.

End FormatterCheck.

(** ** Layer 2, keywords: src/ats/keyword_scorer.py *)

Module KeywordScorer.
Import Ats.

Definition MAX_SCORE : Z := 60.

Definition EXACT_MATCH_POINTS : Z := 3.
Definition INFERRED_MATCH_POINTS : Z := 2.
Definition ACRONYM_BONUS : Z := 1.
Definition PLACEMENT_TITLE : Z := 5.
Definition PLACEMENT_EXPERIENCE : Z := 3.
Definition PLACEMENT_SKILLS : Z := 1.

(** The density thresholds.  Densities are exact fractions here; the code
    computes them in binary floating point, which orders [count / total]
    against these constants the same way for every resume of fewer than
    2^50 words. *)
Definition KEYWORD_DENSITY_OPTIMAL_MIN : Q := 1 # 100.
Definition KEYWORD_DENSITY_OPTIMAL_MAX : Q := 3 # 100.
Definition KEYWORD_DENSITY_STUFFING : Q := 5 # 100.

(** The keys of the JD extract the scorer reads ([.get] with an empty
    default). *)
Record jd_extract := JdExtract {
  required_hard_skills : list string;
  preferred_hard_skills : list string;
  domain_keywords : list string;
  tools_and_frameworks : list string;
  acronyms : list (string * string)
}.

(** An element of "inferred_skills": a dict, with its "skill" when it has
    one, or anything else, with its [str()]. *)
Inductive inferred_item :=
| InferredDict (skill : option string)
| InferredOther (shown : string).

Record resume_extract := ResumeExtract {
  hard_skills : list string;
  inferred_skills : list inferred_item
}.

(** [resume_sections]: section name to text blocks. *)
Definition sections := list (string * list string).

Fixpoint section_get (s : sections) (name : string) : list string :=
  match s with
  | [] => []
  | (n, blocks) :: s' => if String.eqb n name then blocks else section_get s' name
  end.

Record result := Result {
  score : Z;
  max_score : Z;
  match_percentage : Q;
  matched_keywords : list string;
  inferred_matches : list string;
  missing_keywords : list string;
  total_jd_keywords : nat;
  total_matched : nat;
  issues : list issue
}.

(** [x in l] for a list of strings *)
Definition mem (x : string) (l : list string) : bool := bool_decide (x ∈ l).

(** [n / d] rounded to the nearest integer, a tie going to the even
    neighbour, for [d > 0]. *)
Definition round_div (n d : Z) : Z :=
  let q := n / d in
  let r := n mod d in
  if 2 * r <? d then q
  else if d <? 2 * r then q + 1
  else if Z.even q then q else q + 1.

(** [round(matched / total * 100, 1) if total > 0 else 0], on the exact
    quotient: a number of tenths over ten. *)
Definition match_pct (matched total : nat) : Q :=
  match total with
  | O => 0
  | S _ => round_div (Z.of_nat matched * 1000) (Z.of_nat total) # 10
  end.

(** [count / total_words] *)
Definition density (count total_words : nat) : Q :=
  Z.of_nat count # Pos.of_nat total_words.

(** [_check_acronyms] *)
Definition _check_acronyms (jd_acronyms : list (string * string))
    (resume_text : string) : list issue :=
  flat_map
    (fun p : string * string =>
       let '(short_form, long_form) := p in
       let has_short := PyStr.contains (PyStr.lower short_form) (PyStr.lower resume_text) in
       let has_long := PyStr.contains (PyStr.lower long_form) (PyStr.lower resume_text) in
       if has_short && has_long then
         [Issue "acronym" "pass"
            ("Both " +:+ dq +:+ short_form +:+ dq +:+ " and "
             +:+ dq +:+ long_form +:+ dq +:+ " found")
            None None None]
       else if has_short then
         [Issue "acronym" "warning"
            (dq +:+ short_form +:+ dq +:+ " found but not "
             +:+ dq +:+ long_form +:+ dq +:+ " — include both")
            (Some ("Add " +:+ dq +:+ long_form +:+ " (" +:+ short_form +:+ ")"
                   +:+ dq +:+ " to your resume"))
            None None]
       else if has_long then
         [Issue "acronym" "warning"
            (dq +:+ long_form +:+ dq +:+ " found but not "
             +:+ dq +:+ short_form +:+ dq +:+ " — include both")
            (Some ("Add " +:+ dq +:+ short_form +:+ dq +:+ " alongside the full form"))
            None None]
       else [])
    jd_acronyms.

Section Scorer.

(** [f"{density:.1%}"]: Python's formatting of a float as a percentage. *)
Variable format_percent : Q -> string.

(** [list(set(l))]: the distinct elements of [l] in the order the set
    yields them, which Python leaves open. *)
Variable list_of_set : list string -> list string.

(** What one keyword contributes in [_check_density]: the warning, if
    any, and the bonus point. *)
Definition density_of_keyword (resume_text : string) (words : list string)
    (keyword : string) : list issue * Z :=
  let keyword_lower := PyStr.lower keyword in
  let total_words := length words in
  let count :=
    if PyStr.contains " " keyword_lower
    then PyStr.count keyword_lower (PyStr.lower resume_text)
    else PyStr.occurrences keyword_lower words in
  if (0 <? count)%nat then
    let d := density count total_words in
    if negb (Qle_bool d KEYWORD_DENSITY_STUFFING) then
      ([Issue "keyword_density" "warning"
          (dq +:+ keyword +:+ dq +:+ " mentioned " +:+ pretty count
           +:+ "× — density too high (" +:+ format_percent d +:+ ")")
          (Some ("Aim for 2–3 mentions, currently at " +:+ pretty count))
          None None],
       0)
    else if (2 <=? count)%nat && Qle_bool d KEYWORD_DENSITY_OPTIMAL_MAX then
      ([], 1)
    else ([], 0)
  else ([], 0).

(** [_check_density] *)
Definition _check_density (jd_keywords : list string) (resume_text : string)
    : list issue * Z :=
  let words := PyStr.split (PyStr.lower resume_text) in
  match words with
  | [] => ([], 0)
  | _ :: _ =>
      let per_keyword := map (density_of_keyword resume_text words) jd_keywords in
      let bonus := foldr Z.add 0 (map snd per_keyword) in
      (flat_map fst per_keyword, Z.min bonus 5)
  end.

(** [_score_placement] *)
Definition _score_placement (required_keywords : list string)
    (s : sections) : Z :=
  let skills_text := PyStr.lower (PyStr.join " " (section_get s "skills")) in
  let experience_text := PyStr.lower (PyStr.join " " (section_get s "experience")) in
  let summary_text := PyStr.lower (PyStr.join " " (section_get s "summary")) in
  foldr Z.add 0
    (map (fun keyword =>
            let kw_lower := PyStr.lower keyword in
            if PyStr.contains kw_lower summary_text then PLACEMENT_TITLE
            else if PyStr.contains kw_lower experience_text then PLACEMENT_EXPERIENCE
            else if PyStr.contains kw_lower skills_text then PLACEMENT_SKILLS
            else 0)
         (take 10 required_keywords)).

Definition inferred_name (item : inferred_item) : string :=
  match item with
  | InferredDict (Some skill) => PyStr.lower skill
  | InferredDict None => ""
  | InferredOther shown => PyStr.lower shown
  end.

(** The three lists of the matching loop, for the keywords in the order
    given. *)
Definition classify (resume_hard resume_inferred jd_all : list string)
    : list string * list string * list string :=
  (filter (fun k => mem k resume_hard = true) jd_all,
   filter (fun k => mem k resume_hard = false /\ mem k resume_inferred = true) jd_all,
   filter (fun k => mem k resume_hard = false /\ mem k resume_inferred = false) jd_all).

Definition nonempty_issue {A} (l : list A) (i : issue) : list issue :=
  match l with [] => [] | _ :: _ => [i] end.

(** [score] *)
Definition score_resume (jd : jd_extract) (resume : resume_extract)
    (resume_text : string) (resume_sections : option sections) : result :=
  let jd_required := map PyStr.lower (required_hard_skills jd) in
  let jd_preferred := map PyStr.lower (preferred_hard_skills jd) in
  let jd_domains := map PyStr.lower (domain_keywords jd) in
  let jd_tools := map PyStr.lower (tools_and_frameworks jd) in
  let jd_all := list_of_set (jd_required ++ jd_preferred ++ jd_domains ++ jd_tools) in
  let resume_hard := map PyStr.lower (hard_skills resume) in
  let resume_inferred := map inferred_name (inferred_skills resume) in
  let '(matched, inferred, missing) := classify resume_hard resume_inferred jd_all in
  let exact_score := Z.min (Z.of_nat (length matched) * EXACT_MATCH_POINTS) 30 in
  let inferred_score := Z.min (Z.of_nat (length inferred) * INFERRED_MATCH_POINTS) 10 in
  let match_issues :=
    nonempty_issue matched
      (Issue "keyword_match" "pass"
         ("Found: " +:+ PyStr.join ", " (take 15 matched))
         None (Some (length matched)) None)
    ++ nonempty_issue inferred
      (Issue "inferred_match" "pass"
         ("Inferred skills matched: " +:+ PyStr.join ", " (take 10 inferred))
         None (Some (length inferred)) None)
    ++ nonempty_issue missing
      (Issue "missing_keywords" "warning"
         ("Missing: " +:+ PyStr.join ", " (take 15 missing))
         (Some "Add these keywords to your resume if you have the experience")
         None (Some missing)) in
  let total_jd := length jd_all in
  let total := (length matched + length inferred)%nat in
  let pct := match_pct total total_jd in
  let acronym_issues := _check_acronyms (acronyms jd) resume_text in
  let acronym_score :=
    Z.min (Z.of_nat (length (filter (fun i => severity i = "pass") acronym_issues))
           * ACRONYM_BONUS) 5 in
  let '(density_issues, density_bonus) := _check_density jd_all resume_text in
  let placement :=
    match resume_sections with
    | Some (sec :: rest) => Z.min (_score_placement jd_required (sec :: rest)) 10
    | _ => 0
    end in
  let total_score :=
    exact_score + inferred_score + acronym_score + density_bonus + placement in
  Result (Z.min total_score MAX_SCORE) MAX_SCORE pct matched inferred missing
    total_jd total
    (match_issues ++ acronym_issues ++ density_issues).

End Scorer.

End KeywordScorer.

(** ** Layer 3, integrity: src/ats/integrity_check.py *)

Module IntegrityCheck.
Import Ats.

Definition MAX_SCORE : Z := 20.
Definition DEFAULT_GAP_THRESHOLD_MONTHS : Z := 6.

(** [MONTH_MAP], in the order it is written. *)
Definition MONTH_MAP : list (string * Z) :=
  [("january", 1); ("february", 2); ("march", 3); ("april", 4);
   ("may", 5); ("june", 6); ("july", 7); ("august", 8);
   ("september", 9); ("october", 10); ("november", 11); ("december", 12);
   ("jan", 1); ("feb", 2); ("mar", 3); ("apr", 4);
   ("jun", 6); ("jul", 7); ("aug", 8); ("sep", 9);
   ("oct", 10); ("nov", 11); ("dec", 12)].

(** A [datetime] as far as the checks use it: year and month. *)
Record date := Date { year : Z; month : Z }.

(** A value or the [ValueError] of the [datetime] constructor. *)
Inductive result (A : Type) :=
| Ok (a : A)
| ValueError.
Arguments Ok {A} a.
Arguments ValueError {A}.

(** [datetime(year, month, 1)]: the year must be in 1..9999 and the month
    in 1..12. *)
Definition datetime (y m : Z) : result date :=
  if (1 <=? y) && (y <=? 9999) && (1 <=? m) && (m <=? 12) then Ok (Date y m)
  else ValueError.

Definition is_digit (a : ascii) : bool :=
  let n := nat_of_ascii a in ((48 <=? n) && (n <=? 57))%nat.

Definition digit_value (a : ascii) : Z := Z.of_nat (nat_of_ascii a - 48).

(** [int(s)] for the first [n] characters of [s] when they are digits. *)
Fixpoint digits (n : nat) (s : string) (acc : Z) : option (Z * string) :=
  match n with
  | O => Some (acc, s)
  | S n' =>
      match s with
      | String a s' =>
          if is_digit a then digits n' s' (10 * acc + digit_value a) else None
      | EmptyString => None
      end
  end.

Definition is_separator (a : ascii) : bool :=
  (nat_of_ascii a =? 47)%nat || (nat_of_ascii a =? 45)%nat.

(** After the month digits: a separator and four digits. *)
Definition separator_year (s : string) : option Z :=
  match s with
  | String a s' => if is_separator a then fst <$> digits 4 s' 0 else None
  | EmptyString => None
  end.

(** [re.match(r"(\d{1,2})[/\-](\d{4})", s)]: month and year. *)
Definition match_month_year (s : string) : option (Z * Z) :=
  let two :=
    match digits 2 s 0 with
    | Some (m, rest) => (fun y => (m, y)) <$> separator_year rest
    | None => None
    end in
  match two with
  | Some r => Some r
  | None =>
      match digits 1 s 0 with
      | Some (m, rest) => (fun y => (m, y)) <$> separator_year rest
      | None => None
      end
  end.

(** [re.match(r"(\d{4})", s)] *)
Definition match_year (s : string) : option Z := fst <$> digits 4 s 0.

(** [re.search(r"(\d{4})", s)] *)
Fixpoint search_year (s : string) : option Z :=
  match match_year s with
  | Some y => Some y
  | None =>
      match s with
      | String _ s' => search_year s'
      | EmptyString => None
      end
  end.

(** [_parse_date_str]; [None] stands for an absent or empty string. *)
Definition _parse_date_str (date_str : option string) : result (option date) :=
  match date_str with
  | None | Some EmptyString => Ok None
  | Some s =>
      let low := PyStr.lower s in
      if String.eqb low "present" || String.eqb low "current" || String.eqb low "now"
      then Ok None
      else
        match match_month_year s with
        | Some (m, y) =>
            match datetime y m with Ok d => Ok (Some d) | ValueError => ValueError end
        | None =>
            let named :=
              match filter (fun p : string * Z => PyStr.contains p.1 low = true) MONTH_MAP,
                    search_year s with
              | (_, month_num) :: _, Some y => Some (y, month_num)
              | _, _ => None
              end in
            match named with
            | Some (y, month_num) =>
                match datetime y month_num with
                | Ok d => Ok (Some d)
                | ValueError => ValueError
                end
            | None =>
                match match_year s with
                | Some y =>
                    match datetime y 1 with
                    | Ok d => Ok (Some d)
                    | ValueError => ValueError
                    end
                | None => Ok None
                end
            end
        end
  end.

(** An entry of "job_titles". *)
Record job := Job {
  job_title : option string;
  job_company : option string;
  start_date : option string;
  end_date : option string
}.

(** An entry of [dated_jobs]. *)
Record dated_job := DatedJob {
  dj_title : string;
  dj_company : string;
  dj_start : date;
  dj_end : date
}.

Definition date_ltb (a b : date) : bool :=
  (year a <? year b) || ((year a =? year b) && (month a <? month b)).

(** [dated_jobs.sort(key=start, reverse=True)]: stable, latest start
    first. *)
Fixpoint insert_by_start (j : dated_job) (l : list dated_job) : list dated_job :=
  match l with
  | [] => [j]
  | k :: l' =>
      if date_ltb (dj_start j) (dj_start k) then k :: insert_by_start j l'
      else j :: l
  end.

Definition sort_by_start (l : list dated_job) : list dated_job :=
  foldr insert_by_start [] l.

Definition month_abbr (m : Z) : string :=
  nth (Z.to_nat (m - 1))
    ["Jan"; "Feb"; "Mar"; "Apr"; "May"; "Jun";
     "Jul"; "Aug"; "Sep"; "Oct"; "Nov"; "Dec"] "".

(** [d.strftime("%b %Y")], for a year of four digits *)
Definition strftime_b_Y (d : date) : string :=
  month_abbr (month d) +:+ " " +:+ pretty (year d).

(** An entry of "education". *)
Record education := Education { degree : option string }.

(** The part of the extracts the checks read. *)
Record resume_extract := ResumeExtract {
  job_titles : list job;
  total_experience_years : Q;
  educations : list education
}.

Record jd_extract := JdExtract {
  experience_required_years : option Q;
  education_required : option string
}.

(** [degree_levels], in the order it is written. *)
Definition degree_levels : list (string * Z) :=
  [("phd", 4); ("doctorate", 4); ("ph.d", 4);
   ("master", 3); ("mtech", 3); ("mba", 3); ("m.tech", 3); ("m.s", 3); ("ms", 3);
   ("bachelor", 2); ("btech", 2); ("b.tech", 2); ("b.s", 2); ("bs", 2);
   ("b.e", 2); ("be", 2);
   ("diploma", 1)].

Section Checks.

(** [re.findall] for the compiled patterns of the module: the matches, or
    the groups of each match. *)
Variable EMAIL_REGEX : string -> list string.
Variable PHONE_REGEX_IN : string -> list string.
Variable PHONE_REGEX_INTL : string -> list string.
Variable DATE_MM_YYYY : string -> list (string * string).
Variable DATE_MONTH_YYYY : string -> list (string * string).
Variable DATE_FUZZY : string -> list (string * string).
Variable DATE_BARE_YEAR : string -> list string.

(** [datetime.now()] read for the [n]-th job of the list. *)
Variable now : nat -> date.

(** [f"{x}"] for a number of years. *)
Variable format_years : Q -> string.

(** [_check_contact] *)
Definition _check_contact (raw_text : string) : list issue * Z :=
  let emails := EMAIL_REGEX raw_text in
  let '(email_issue, email_penalty) :=
    match emails with
    | e :: _ =>
        (Issue "contact_email" "pass" ("Email found: " +:+ e) None None None, 0)
    | [] =>
        (Issue "contact_email" "error" "No email address found in resume"
           (Some "Add your email address to the resume body") None None, 3)
    end in
  let phones_in := PHONE_REGEX_IN raw_text in
  let phones_intl := PHONE_REGEX_INTL raw_text in
  let '(phone_issue, phone_penalty) :=
    match phones_in, phones_intl with
    | p :: _, _ | [], p :: _ =>
        (Issue "contact_phone" "pass" ("Phone number found: " +:+ p) None None None, 0)
    | [], [] =>
        (Issue "contact_phone" "warning" "No phone number found in resume"
           (Some "Add your phone number in +91-XXXXX-XXXXX format") None None, 2)
    end in
  ([email_issue; phone_issue], email_penalty + phone_penalty).

(** [_check_dates] *)
Definition _check_dates (text : string) : list issue * Z :=
  let fuzzy_dates := DATE_FUZZY text in
  let '(fuzzy_issues, penalty) :=
    match fuzzy_dates with
    | [] => ([], 0)
    | _ :: _ =>
        ([Issue "date_format" "warning"
            ("Fuzzy dates found: "
             +:+ PyStr.join ", "
                   (map (fun p : string * string => p.1 +:+ " " +:+ p.2)
                      (take 3 fuzzy_dates)))
            (Some "Use MM/YYYY or 'Month YYYY' format instead") None None],
         1)
    end in
  let mm_yyyy := DATE_MM_YYYY text in
  let month_yyyy := DATE_MONTH_YYYY text in
  let standard_issues :=
    match mm_yyyy, month_yyyy with
    | [], [] =>
        match fuzzy_dates, DATE_BARE_YEAR text with
        | [], _ :: _ =>
            [Issue "date_format" "info"
               "Only bare years found (e.g., '2023') — consider using 'Month YYYY' format"
               None None None]
        | _, _ => []
        end
    | _, _ =>
        [Issue "date_format" "pass"
           (pretty (length mm_yyyy + length month_yyyy)%nat
            +:+ " dates in standard format found")
           None None None]
    end in
  (fuzzy_issues ++ standard_issues, penalty).

(** The loop that builds [dated_jobs]; [n] is the position of the first
    job of [jobs] in the whole list. *)
Fixpoint dated_jobs_from (n : nat) (jobs : list job) : result (list dated_job) :=
  match jobs with
  | [] => Ok []
  | j :: jobs' =>
      match _parse_date_str (start_date j) with
      | ValueError => ValueError
      | Ok start =>
          match _parse_date_str (end_date j) with
          | ValueError => ValueError
          | Ok stop =>
              match dated_jobs_from (S n) jobs' with
              | ValueError => ValueError
              | Ok rest =>
                  match start with
                  | Some s =>
                      Ok (DatedJob (default "Unknown" (job_title j))
                            (default "Unknown" (job_company j)) s
                            (default (now n) stop)
                          :: rest)
                  | None => Ok rest
                  end
              end
          end
      end
  end.

(** The gaps between neighbours of the sorted list: an issue and two
    points for each gap over the threshold. *)
Fixpoint gap_issues (threshold_months : Z) (l : list dated_job) : list issue :=
  match l with
  | cur :: (prev :: _) as rest =>
      let current_start := dj_start cur in
      let previous_end := dj_end prev in
      let gap_months :=
        (year current_start - year previous_end) * 12
        + (month current_start - month previous_end) in
      (if threshold_months <? gap_months then
         [Issue "employment_gap" "warning"
            (pretty gap_months +:+ "-month gap (" +:+ strftime_b_Y previous_end
             +:+ " – " +:+ strftime_b_Y current_start +:+ ")")
            (Some "Consider adding context (freelance, education, sabbatical)")
            None None]
       else [])
      ++ gap_issues threshold_months rest
  | _ => []
  end.

(** [_check_gaps] *)
Definition _check_gaps (jobs : list job) (threshold_months : Z)
    : result (list issue * Z) :=
  if (length jobs <? 2)%nat then Ok ([], 0)
  else
    match dated_jobs_from 0 jobs with
    | ValueError => ValueError
    | Ok dated =>
        let found := gap_issues threshold_months (sort_by_start dated) in
        Ok (found, Z.min (2 * Z.of_nat (length found)) 4)
    end.

(** [_check_experience] *)
Definition _check_experience (total_years : Q) (required_years : option Q)
    : list issue * Z :=
  match required_years with
  | None => ([], 0)
  | Some required =>
      if Qle_bool required total_years then
        ([Issue "experience_years" "pass"
            (format_years total_years +:+ " years experience (JD requires "
             +:+ format_years required +:+ "+)") None None None], 0)
      else if Qle_bool (required - total_years) 1 then
        ([Issue "experience_years" "info"
            (format_years total_years +:+ " years detected (JD requires "
             +:+ format_years required +:+ "+) — close enough, worth applying")
            None None None], 0)
      else
        ([Issue "experience_years" "warning"
            (format_years total_years +:+ " years detected but JD requires "
             +:+ format_years required +:+ "+ years")
            (Some "Consider highlighting project experience or freelance work")
            None None], 2)
  end.

(** The scan of one degree against [degree_levels]: the best level so far
    and the degree it came from. *)
Definition scan_degree (best : Z * string) (e : education) : Z * string :=
  let shown := default "" (degree e) in
  let low := PyStr.lower shown in
  foldl (fun (b : Z * string) (kl : string * Z) =>
           if PyStr.contains kl.1 low && (b.1 <? kl.2) then (kl.2, shown) else b)
    best degree_levels.

(** [_check_education] *)
Definition _check_education (edu : list education) (required : option string)
    : list issue * Z :=
  match required with
  | None | Some EmptyString => ([], 0)
  | Some req =>
      let '(highest_level, highest_degree) := foldl scan_degree (0, "None") edu in
      let required_lower := PyStr.lower req in
      let required_level :=
        match filter (fun kl : string * Z => PyStr.contains kl.1 required_lower = true)
                degree_levels with
        | (_, level) :: _ => level
        | [] => 0
        end in
      if required_level <=? highest_level then
        ([Issue "education" "pass"
            ("Education: " +:+ highest_degree +:+ " (meets requirement)")
            None None None], 0)
      else if 0 <? highest_level then
        ([Issue "education" "info"
            ("Education: " +:+ highest_degree +:+ " — JD prefers " +:+ req)
            (Some "Relevant experience may compensate; worth applying") None None], 0)
      else ([], 0)
  end.

(** [check]; [jd] is [None] for an absent or empty JD extract. *)
Definition check_resume (raw_text : string) (resume : resume_extract)
    (jd : option jd_extract) (gap_threshold_months : Z) : result layer_result :=
  let score := MAX_SCORE in
  let '(contact_issues, contact_penalty) := _check_contact raw_text in
  let score := score - contact_penalty in
  let '(date_issues, date_penalty) := _check_dates raw_text in
  let score := score - date_penalty in
  match _check_gaps (job_titles resume) gap_threshold_months with
  | ValueError => ValueError
  | Ok (gap_found, gap_penalty) =>
      let score := score - gap_penalty in
      let '(jd_issues, jd_penalty) :=
        match jd with
        | Some j =>
            let '(exp_issues, exp_penalty) :=
              _check_experience (total_experience_years resume)
                (experience_required_years j) in
            let '(edu_issues, edu_penalty) :=
              _check_education (educations resume) (education_required j) in
            (exp_issues ++ edu_issues, exp_penalty + edu_penalty)
        | None => ([], 0)
        end in
      let score := score - jd_penalty in
      let all := contact_issues ++ date_issues ++ gap_found ++ jd_issues in
      Ok (LayerResult 3 "Data Integrity" (Z.max score 0) MAX_SCORE all
            (Summary (count_severity "error" all) (count_severity "warning" all)
               (count_severity "info" all)
               (forallb (fun i => negb (String.eqb (severity i) "error")) all)))
  end.

End Checks.

(** The dates of the jobs can all be built: none of them makes
    [datetime] raise. *)
Definition parses (s : option string) : Prop :=
  exists d, _parse_date_str s = Ok d.

Definition dates_constructible (jobs : list job) : Prop :=
  Forall (fun j => parses (start_date j) /\ parses (end_date j)) jobs.

(** [s.isascii()] *)
Definition isascii (s : string) : bool :=
  forallb (fun a => (nat_of_ascii a <? 128)%nat) (list_ascii_of_string s).

(** The dates of the jobs are written in ASCII.  The digits the parser
    above reads are the ASCII digits; the pattern [\d] and [int()] of the
    code read the decimal digits of every script, so the parser is the
    code's on such dates only. *)
Definition ascii_dates (jobs : list job) : Prop :=
  Forall (fun j => forall s, start_date j = Some s \/ end_date j = Some s ->
                             isascii s = true) jobs.

End IntegrityCheck.

(** ** The diff of two resume versions: src/agents/diff_viewer.py *)

Module DiffViewer.

(** The tags of [SequenceMatcher.get_opcodes]. *)
Inductive tag := Equal | Replace | Insert | Delete.

(** An opcode [(tag, i1, i2, j1, j2)]. *)
Record opcode := Opcode { op_tag : tag; i1 : nat; i2 : nat; j1 : nat; j2 : nat }.

(** A change record; a key that is not set is [None]. *)
Record change := Change {
  type : tag;
  original_range : nat * nat;
  modified_range : nat * nat;
  original_text : option string;
  modified_text : option string;
  description : string
}.

Record statistics := Statistics {
  additions : nat;
  deletions : nat;
  total_changes : nat;
  original_lines : nat;
  modified_lines : nat
}.

(** The dict [diff] returns. *)
Record diff_result := DiffResult {
  diff_text : string;
  stats : statistics;
  changes : list change;
  formatted : string;
  has_changes : bool
}.

(** The calls [diff] makes into [difflib], in order. *)
Inductive difflib_call :=
| UnifiedDiff (a b : list string) (fromfile tofile : string) (n : Z)
| GetOpcodes (a b : list string).

(** [l[i:j]] *)
Definition slice {A} (i j : nat) (l : list A) : list A := take (j - i) (drop i l).

Definition newline : string := String (ascii_of_nat 10) EmptyString.

Definition tag_name (t : tag) : string :=
  match t with
  | Equal => "equal" | Replace => "replace" | Insert => "insert" | Delete => "delete"
  end.

(** The change record of one opcode that is not [equal]. *)
Definition change_of (original_lines modified_lines : list string) (o : opcode)
    : list change :=
  let original := PyStr.strip (PyStr.join "" (slice (i1 o) (i2 o) original_lines)) in
  let modified := PyStr.strip (PyStr.join "" (slice (j1 o) (j2 o) modified_lines)) in
  let ranges := Change (op_tag o) (S (i1 o), i2 o) (S (j1 o), j2 o) in
  match op_tag o with
  | Equal => []
  | Replace =>
      [ranges (Some original) (Some modified)
         ("Lines " +:+ pretty (S (i1 o)) +:+ "–" +:+ pretty (i2 o) +:+ " modified")]
  | Insert =>
      [ranges None (Some modified)
         ("New content added after line " +:+ pretty (i1 o))]
  | Delete =>
      [ranges (Some original) None
         ("Lines " +:+ pretty (S (i1 o)) +:+ "–" +:+ pretty (i2 o) +:+ " removed")]
  end.

Definition icon (t : tag) : string :=
  match t with
  | Replace => "✏️" | Insert => "➕" | Delete => "➖" | Equal => "•"
  end.

(** The lines [_format_changes] adds for the [i]-th change. *)
Definition format_change (i : nat) (c : change) : list string :=
  [icon (type c) +:+ " Change " +:+ pretty i +:+ ": " +:+ description c]
  ++ match original_text c with
     | Some t => ["  Original: " +:+ Ats.dq +:+ PyStr.take 100 t +:+ Ats.dq]
     | None => []
     end
  ++ match modified_text c with
     | Some t => ["  Modified: " +:+ Ats.dq +:+ PyStr.take 100 t +:+ Ats.dq]
     | None => []
     end
  ++ [""].

(** [_format_changes] *)
Definition _format_changes (cs : list change) : string :=
  match cs with
  | [] => "No changes detected."
  | _ :: _ =>
      PyStr.join newline
        (("Found " +:+ pretty (length cs) +:+ " change(s):" +:+ newline)
         :: concat (imap (fun i c => format_change (S i) c) cs))
  end.

(** [sum(1 for line in diff_lines if line.startswith(m) and not
    line.startswith(m * 3))] *)
Definition count_marked (m : string) (diff_lines : list string) : nat :=
  length (filter (fun line => String.prefix m line = true
                              /\ String.prefix (m +:+ m +:+ m) line = false)
            diff_lines).

Section Diff.

(** [list(difflib.unified_diff(a, b, fromfile=..., tofile=..., n=...))] *)
Variable unified_diff :
  list string -> list string -> string -> string -> Z -> list string.

(** [difflib.SequenceMatcher(None, a, b).get_opcodes()] *)
Variable get_opcodes : list string -> list string -> list opcode.

(** [_extract_changes] *)
Definition _extract_changes (original_lines modified_lines : list string)
    : list change :=
  flat_map (change_of original_lines modified_lines)
    (get_opcodes original_lines modified_lines).

(** [diff]: the dict returned and the calls made into [difflib]. *)
Definition diff (original_text modified_text : string) (context_lines : Z)
    : diff_result * list difflib_call :=
  let original_lines := PyStr.splitlines original_text in
  let modified_lines := PyStr.splitlines modified_text in
  if String.eqb original_text modified_text then
    (DiffResult ""
       (Statistics 0 0 0 (length original_lines) (length modified_lines))
       [] "No changes detected." false,
     [])
  else
    let diff_lines :=
      unified_diff original_lines modified_lines
        "Original Resume" "Tailored Resume" context_lines in
    let additions := count_marked "+" diff_lines in
    let deletions := count_marked "-" diff_lines in
    let changes := _extract_changes original_lines modified_lines in
    (DiffResult (PyStr.join "" diff_lines)
       (Statistics additions deletions (additions + deletions)
          (length original_lines) (length modified_lines))
       changes (_format_changes changes)
       (0 <? additions + deletions)%nat,
     [UnifiedDiff original_lines modified_lines
        "Original Resume" "Tailored Resume" context_lines;
      GetOpcodes original_lines modified_lines]).

End Diff.

(** *** The runs of [diff] against a library that is only specified

    [difflib] is not part of the sources.  Here a call into it is known
    only by the answers it may give: a call may have several answers, or
    none when it raises or does not return.  [returns a b n r] holds when
    [diff(a, b, n)] can return the dict [r]; its two rules are the two
    [return] statements of [diff]. *)
Section Runs.

Variable unified_diff_answers :
  list string -> list string -> string -> string -> Z -> list string -> Prop.

Variable get_opcodes_answers : list string -> list string -> list opcode -> Prop.

(** The dict of the first [return]. *)
Definition no_changes (original_text modified_text : string) : diff_result :=
  DiffResult ""
    (Statistics 0 0 0 (length (PyStr.splitlines original_text))
       (length (PyStr.splitlines modified_text)))
    [] "No changes detected." false.

(** The dict of the second [return], from the answers of the library. *)
Definition changes_found (original_text modified_text : string)
    (diff_lines : list string) (opcodes : list opcode) : diff_result :=
  let original_lines := PyStr.splitlines original_text in
  let modified_lines := PyStr.splitlines modified_text in
  let additions := count_marked "+" diff_lines in
  let deletions := count_marked "-" diff_lines in
  let changes := flat_map (change_of original_lines modified_lines) opcodes in
  DiffResult (PyStr.join "" diff_lines)
    (Statistics additions deletions (additions + deletions)
       (length original_lines) (length modified_lines))
    changes (_format_changes changes)
    (0 <? additions + deletions)%nat.

Inductive returns (original_text modified_text : string) (context_lines : Z)
    : diff_result -> Prop :=
| returns_fast_path :
    original_text = modified_text ->
    returns original_text modified_text context_lines
      (no_changes original_text modified_text)
| returns_diff (diff_lines : list string) (opcodes : list opcode) :
    original_text <> modified_text ->
    unified_diff_answers (PyStr.splitlines original_text)
      (PyStr.splitlines modified_text)
      "Original Resume" "Tailored Resume" context_lines diff_lines ->
    get_opcodes_answers (PyStr.splitlines original_text)
      (PyStr.splitlines modified_text) opcodes ->
    returns original_text modified_text context_lines
      (changes_found original_text modified_text diff_lines opcodes).

End Runs.

End DiffViewer.

(** ** The life of an application record under the calls of the agent *)

Module Lifecycle.
Import Database.

(** The columns a call of the agent may rewrite in a record that
    exists. *)
Definition rewritten : list string :=
  ["status"; "applied_at"; "notes"; "updated_at"].

(** A record that can still be submitted. *)
Definition open (r : row) : Prop :=
  r !! "status" = Some (Text "draft") \/ r !! "status" = Some (Text "ready").

(** How a record [r] can differ from what it is later, [r']: it has the
    status and submission time it had; or it was open and is submitted; or
    it is cancelled, with the submission time it had unless it was still
    open. *)
Definition moved (r r' : row) : Prop :=
  (r' !! "status" = r !! "status" /\ r' !! "applied_at" = r !! "applied_at") \/
  (open r /\ r' !! "status" = Some (Text "submitted")) \/
  (r' !! "status" = Some (Text "cancelled") /\
   (~ open r -> r' !! "applied_at" = r !! "applied_at")).

End Lifecycle.

(** ** The apply_job tool: src/tools/apply_job.py *)

Module ApplyJob.
Import Database.

(** The dict returned when [confirm] is set and [app_id] is missing. *)
Definition missing_app_id : pydict :=
  [("error", PStr "Confirmation requires app_id from a prior prepare step");
   ("hint",
    PStr ("First call apply_job with resume_id + job_db_id to get an app_id, "
          +:+ "then call again with confirm=True and that app_id."))].

Section Tool.

Variable json_dumps : pyval -> string.
Variable MIN_ATS_SCORE : Z.

(** [apply_job]; [not app_id] holds for [None] and for 0. *)
Definition apply_job (resume_id job_db_id : Z)
    (tailored_text cover_letter : option string) (ats_score : option Z)
    (ats_report : option pydict) (confirm : bool) (app_id : option Z)
    : M pydict :=
  if confirm then
    match app_id with
    | Some a =>
        if a =? 0 then ret missing_app_id
        else ApplyAgent.confirm_apply json_dumps a
    | None => ret missing_app_id
    end
  else
    ApplyAgent.prepare_application json_dumps MIN_ATS_SCORE resume_id job_db_id
      tailored_text cover_letter ats_score ats_report false.

End Tool.

End ApplyJob.

(** ** Sequences of calls on the token table *)

Module TokenTraffic.
Import TailorTokens.

(** A sequence of [tailor_resume] and [validate_tailor_token] calls run
    on the token table. *)
Definition run_calls (cs : list call) (tk : gmap string token_entry)
    : gmap string token_entry :=
  foldl (fun tk c => run_call c tk) tk cs.

(** The clock a call reads for its sweep of the table. *)
Definition sweep_clock (c : call) : Z :=
  match c with
  | CallTailor _ _ now_sweep _ => now_sweep
  | CallValidate _ now1 _ => now1
  end.

(** [c] validates [token]. *)
Definition validates (token : string) (c : call) : bool :=
  match c with
  | CallValidate t _ _ => bool_decide (t = token)
  | CallTailor _ _ _ _ => false
  end.

(** One call of [export_resume] with its arguments and clock readings. *)
Record export_call := ExportCall {
  ec_text : string;
  ec_opts : export_options;
  ec_token : option string;
  ec_now1 : Z;
  ec_now2 : Z
}.

Section Exports.

Variable _generate_filename :
  option (list (string * string)) -> option string -> option string -> string.
Variable resolve : string -> string.

Definition run_export (c : export_call) (st : state) : export_result * state :=
  export_resume _generate_filename resolve (ec_text c) (ec_opts c) (ec_token c)
    (ec_now1 c) (ec_now2 c) st.

(** A sequence of [export_resume] calls. *)
Definition run_exports (cs : list export_call) (st : state) : state :=
  foldl (fun st c => (run_export c st).2) st cs.

End Exports.

End TokenTraffic.

(** ** The report: src/ats/report.py *)

Module ATSReport.
Import Ats.

(** [GRADE_THRESHOLDS], in the order it is written. *)
Definition GRADE_THRESHOLDS : list (Z * (string * string)) :=
  [(90, ("🟢", "Excellent"));
   (75, ("🟡", "Good"));
   (60, ("🟠", "Needs Improvement"));
   (0, ("🔴", "Significant Issues"))].

(** [_get_grade]: the first threshold the score reaches, in the order of
    the dict. *)
Definition _get_grade (score : Z) : string * string :=
  match List.find (fun p : Z * (string * string) => p.1 <=? score)
          GRADE_THRESHOLDS with
  | Some (_, grade) => grade
  | None => ("🔴", "Significant Issues")
  end.

(** [icon_map.get(severity, ...)] *)
Definition severity_icon (s : string) : string :=
  if String.eqb s "pass" then "✅"
  else if String.eqb s "error" then "❌"
  else if String.eqb s "warning" then "⚠️"
  else "ℹ️".

Definition issue_line (i : issue) : string :=
  "  " +:+ severity_icon (severity i) +:+ " " +:+ message i.

(** ["━" * 50] *)
Definition rule50 : string :=
  "━━━━━━━━━━━━━━━━━━━━━━━━━━━━━━━━━━━━━━━━━━━━━━━━━━".

(** The last but one line of the text. *)
Definition recommendation (overall : Z) : string :=
  if 90 <=? overall then
    "Recommendation: Resume is well-optimised. Ready to apply!"
  else if 75 <=? overall then
    "Recommendation: Minor improvements possible. Consider tailoring."
  else if 60 <=? overall then
    "Recommendation: Tailor resume to fix the above before applying."
  else "Recommendation: Significant changes needed before applying.".

(** The dict [format] returns. *)
Record report := Report {
  job_title : string;
  company : string;
  overall_score : Z;
  max_score : Z;
  grade : string;
  grade_icon : string;
  formatting : layer_result;
  keywords : KeywordScorer.result;
  integrity : layer_result;
  match_percentage : Q;
  matched_keywords : list string;
  missing_keywords : list string;
  formatted_text : string
}.

Section Format.

(** [f"{match_pct}"] for the float the scorer has rounded to one decimal
    (with no JD keyword the scorer leaves the int 0, shown as 0). *)
Variable format_float : Q -> string.

Definition show_match (layer2 : KeywordScorer.result) : string :=
  match KeywordScorer.total_jd_keywords layer2 with
  | O => "0"
  | S _ => format_float (KeywordScorer.match_percentage layer2)
  end.

(** The lines [_render_text] joins. *)
Definition _render_lines (layer1 : layer_result) (layer2 : KeywordScorer.result)
    (layer3 : layer_result) (overall max_score : Z) (icon label : string)
    (job_title company : string) : list string :=
  ["ATS Report — " +:+ company +:+ " " +:+ job_title;
   rule50;
   "Overall Score:       " +:+ pretty overall +:+ " / " +:+ pretty max_score
   +:+ "   " +:+ icon +:+ "  " +:+ label;
   ""]
  ++ ["Layer 1 — Formatting:   " +:+ pretty (Ats.score layer1) +:+ " / "
      +:+ pretty (Ats.max_score layer1)]
  ++ map issue_line (Ats.issues layer1)
  ++ [""]
  ++ ["Layer 2 — Keywords:     " +:+ pretty (KeywordScorer.score layer2) +:+ " / "
      +:+ pretty (KeywordScorer.max_score layer2);
      "  Match: " +:+ show_match layer2 +:+ "% ("
      +:+ pretty (KeywordScorer.total_matched layer2) +:+ "/"
      +:+ pretty (KeywordScorer.total_jd_keywords layer2) +:+ " JD keywords found)"]
  ++ map issue_line (KeywordScorer.issues layer2)
  ++ [""]
  ++ ["Layer 3 — Integrity:    " +:+ pretty (Ats.score layer3) +:+ " / "
      +:+ pretty (Ats.max_score layer3)]
  ++ map issue_line (Ats.issues layer3)
  ++ [""]
  ++ [recommendation overall; rule50].

(** [_render_text] *)
Definition _render_text (layer1 : layer_result) (layer2 : KeywordScorer.result)
    (layer3 : layer_result) (overall max_score : Z) (icon label : string)
    (job_title company : string) : string :=
  PyStr.join (String (ascii_of_nat 10) "")
    (_render_lines layer1 layer2 layer3 overall max_score icon label
       job_title company).

(** [format] *)
Definition format (layer1 : layer_result) (layer2 : KeywordScorer.result)
    (layer3 : layer_result) (job_title company : string) : report :=
  let overall_score :=
    Ats.score layer1 + KeywordScorer.score layer2 + Ats.score layer3 in
  let max_score :=
    Ats.max_score layer1 + KeywordScorer.max_score layer2 + Ats.max_score layer3 in
  let '(grade_icon, grade_label) := _get_grade overall_score in
  Report job_title company overall_score max_score grade_label grade_icon
    layer1 layer2 layer3
    (KeywordScorer.match_percentage layer2)
    (KeywordScorer.matched_keywords layer2)
    (KeywordScorer.missing_keywords layer2)
    (_render_text layer1 layer2 layer3 overall_score max_score
       grade_icon grade_label job_title company).

End Format.

End ATSReport.

(** ** The checker: src/agents/ats_checker.py *)

Module ATSChecker.

Section Checker.

(** What the layers and the report take from outside. *)
Variable format_percent : Q -> string.
Variable list_of_set : list string -> list string.
Variable EMAIL_REGEX PHONE_REGEX_IN PHONE_REGEX_INTL : string -> list string.
Variable DATE_MM_YYYY DATE_MONTH_YYYY DATE_FUZZY : string -> list (string * string).
Variable DATE_BARE_YEAR : string -> list string.
Variable now : nat -> IntegrityCheck.date.
Variable format_years : Q -> string.
Variable format_float : Q -> string.

(** [check_with_extracts].  [resume_data] is given as the part layer 1
    reads, with its "raw_text", and its "sections"; each extract is given
    as the part layer 2 reads and the part layer 3 reads ([jd3] is [None]
    for an empty dict).  A [ValueError] of layer 3 ends the call. *)
Definition check_with_extracts (resume_data : FormatterCheck.resume_data)
    (sections : option KeywordScorer.sections)
    (jd2 : KeywordScorer.jd_extract) (jd3 : option IntegrityCheck.jd_extract)
    (resume2 : KeywordScorer.resume_extract)
    (resume3 : IntegrityCheck.resume_extract)
    (job_title company : string) : IntegrityCheck.result ATSReport.report :=
  let layer1 := FormatterCheck.check_resume resume_data in
  let layer2 :=
    KeywordScorer.score_resume format_percent list_of_set jd2 resume2
      (FormatterCheck.raw_text resume_data) sections in
  match IntegrityCheck.check_resume EMAIL_REGEX PHONE_REGEX_IN PHONE_REGEX_INTL
          DATE_MM_YYYY DATE_MONTH_YYYY DATE_FUZZY DATE_BARE_YEAR now format_years
          (FormatterCheck.raw_text resume_data) resume3 jd3 6 with
  | IntegrityCheck.ValueError => IntegrityCheck.ValueError
  | IntegrityCheck.Ok layer3 =>
      IntegrityCheck.Ok
        (ATSReport.format format_float layer1 layer2 layer3 job_title company)
  end.

End Checker.

End ATSChecker.

(** ** Queries over the tables: src/storage/database.py,
       src/agents/tracker_agent.py *)

Module Queries.
Import Database.

(** [ORDER BY created_at DESC] and [ORDER BY timestamp ASC] on the rows
    of a table.  Among rows with the same value SQL leaves the order open;
    here it is the one the merge sort gives. *)
Definition created_desc (p q : Z * row) : Prop :=
  sql_ltb (col p.2 "created_at") (col q.2 "created_at") = false.

Definition timestamp_asc (p q : Z * row) : Prop :=
  sql_ltb (col q.2 "timestamp") (col p.2 "timestamp") = false.

#[global] Instance created_desc_dec p q : Decision (created_desc p q).
Proof. unfold created_desc. apply _. Defined.

#[global] Instance timestamp_asc_dec p q : Decision (timestamp_asc p q).
Proof. unfold timestamp_asc. apply _. Defined.

(** A row of [list_applications]: the columns selected from the
    application [a] with id [id] and its job [j]. *)
Definition listed (id : Z) (a j : row) : row :=
  list_to_map
    [("id", Int id); ("title", col j "title"); ("company", col j "company");
     ("status", col a "status"); ("ats_score", col a "ats_score");
     ("created_at", col a "created_at")].

(** [JOIN jobs j ON a.job_id = j.id]: the row for an application whose
    [job_id] is the id of a job, nothing for any other. *)
Definition joined (w : world) (p : Z * row) : option row :=
  match p.2 !! "job_id" with
  | Some (Int jid) => listed p.1 p.2 <$> rows (jobs w) !! jid
  | _ => None
  end.

(** [list_applications(status)]; [WHERE a.status = ?] is applied only for
    a status that is a non-empty string. *)
Definition list_applications (status : option string) : M (list row) :=
  fun w =>
    let all := merge_sort created_desc (map_to_list (rows (applications w))) in
    let selected :=
      match status with
      | Some s =>
          if String.eqb s "" then all
          else filter (fun p : Z * row => p.2 !! "status" = Some (Text s)) all
      | None => all
      end in
    (Ok (omap (joined w) selected), w).

(** [SELECT * FROM action_log WHERE application_id = ? ORDER BY timestamp
    ASC], each row as [dict(row)]. *)
Definition history_rows (app_id : Z) (w : world) : list row :=
  (fun p : Z * row => <["id" := Int p.1]> p.2)
  <$> merge_sort timestamp_asc
        (filter (fun p : Z * row => p.2 !! "application_id" = Some (Int app_id))
           (map_to_list (rows (action_log w)))).

End Queries.

(** ** The tracker: src/agents/tracker_agent.py *)

Module TrackerAgent.
Import Database.



(** What [get_application_history] returns. *)
Inductive history_result :=
| HistoryError (d : pydict)
| History (application : row) (history : list row).

Definition not_found (app_id : Z) : pydict :=
  [("error", PStr ("Application " +:+ pretty app_id +:+ " not found"))].

Section Tracker.

Variable json_dumps : pyval -> string.

(** The elements of a set of strings in the order Python yields them. *)
Variable list_of_set : list string -> list string.


(** [get_application_history] *)
Definition get_application_history (app_id : Z) : M history_result :=
  let! app := get_application app_id in
  match app with
  | None => ret (HistoryError (not_found app_id))
  | Some r => fun w => (Ok (History r (Queries.history_rows app_id w)), w)
  end.

End Tracker.

End TrackerAgent.

(** ** The dashboard of the tracker: src/agents/tracker_agent.py *)

Module Dashboard.
Import Database.

(** The exceptions that can leave [get_dashboard]. *)
Inductive py_error := TypeError | AttributeError.

Inductive outcome (A : Type) :=
| Returns (a : A)
| Raises (e : py_error).
Arguments Returns {A} a.
Arguments Raises {A} e.

(** The dict [get_dashboard] returns; "status_breakdown" is a dict in
    insertion order whose keys are the values of the status column. *)
Record dashboard := MkDashboard {
  total_applications : nat;
  status_breakdown : list (sqlval * nat);
  average_ats_score : option Q;
  recent_applications : list row;
  formatted : string
}.

(** [status_counts[status] = status_counts.get(status, 0) + 1] *)
Fixpoint bump (k : sqlval) (d : list (sqlval * nat)) : list (sqlval * nat) :=
  match d with
  | [] => [(k, 1%nat)]
  | (k', n) :: d' =>
      if decide (k' = k) then (k', S n) :: d' else (k', n) :: bump k d'
  end.

(** The count a breakdown holds for a key. *)
Fixpoint tally (k : sqlval) (d : list (sqlval * nat)) : nat :=
  match d with
  | [] => 0%nat
  | (k', n) :: d' => if decide (k' = k) then (n + tally k d')%nat else tally k d'
  end.

(** The counting loop. *)
Definition count_statuses (apps : list row) : list (sqlval * nat) :=
  foldl (fun d app => bump (col app "status") d) [] apps.

(** [total_ats] and [ats_count] of the loop; adding a text to the int
    raises [TypeError]. *)
Fixpoint sum_ats (apps : list row) (total : Z) (count : nat)
    : outcome (Z * nat) :=
  match apps with
  | [] => Returns (total, count)
  | app :: rest =>
      match col app "ats_score" with
      | Null => sum_ats rest total count
      | Int n => sum_ats rest (total + n) (S count)
      | Text _ => Raises TypeError
      end
  end.

(** [round(total_ats / ats_count, 1) if ats_count > 0 else None], on the
    exact quotient. *)
Definition average (total : Z) (count : nat) : option Q :=
  match count with
  | O => None
  | S _ => Some (KeywordScorer.round_div (total * 10) (Z.of_nat count) # 10)
  end.

(** [status_icons], in the order it is written. *)
Definition status_icons : list (string * string) :=
  [("draft", "ğŸ“");
   ("ready", "âœ…");
   ("submitted", "ğŸ“¤");
   ("rejected", "âŒ");
   ("interview", "ğŸ¯");
   ("offer", "ğŸ‰")].

Definition icon_of (status : string) : string :=
  match List.find (fun p : string * string => String.eqb p.1 status) status_icons with
  | Some (_, icon) => icon
  | None => "â€¢"
  end.

(** The string of the source times 40. *)
Definition rule40 : string :=
  "â”â”â”â”â”â”â”â”â”â”â”â”â”â”â”â”â”â”â”â”â”â”â”â”â”â”â”â”â”â”â”â”â”â”â”â”â”â”â”â”".

Definition text_key (p : sqlval * nat) : option (string * nat) :=
  match p.1 with
  | Text s => Some (s, p.2)
  | _ => None
  end.

Definition kind (v : sqlval) : nat :=
  match v with Null => 0 | Int _ => 1 | Text _ => 2 end.

Definition key_le (p q : string * nat) : Prop := String.ltb q.1 p.1 = false.

#[global] Instance key_le_dec p q : Decision (key_le p q).
Proof. unfold key_le. apply _. Defined.

(** The lines of the status breakdown: [sorted(status_counts.items())]
    raises [TypeError] when two keys are not of one type (a NULL status
    beside a text, say), and [status.title()] raises [AttributeError] for a
    key that is not a string. *)
Definition breakdown_lines (counts : list (sqlval * nat)) : outcome (list string) :=
  let texts := omap text_key counts in
  if (length texts =? length counts)%nat then
    Returns
      (map (fun p : string * nat =>
              "  " +:+ icon_of p.1 +:+ " " +:+ FormatterCheck.title p.1 +:+ ": "
              +:+ pretty p.2)
         (merge_sort key_le texts))
  else
    match counts with
    | (k0, _) :: _ =>
        if forallb (fun p : sqlval * nat => (kind p.1 =? kind k0)%nat) counts
        then Raises AttributeError
        else Raises TypeError
    | [] => Returns []
    end.

(** A line of "Recent Applications". *)
Definition recent_line (app : row) : string :=
  "  â€¢ " +:+ py_str (col app "title") +:+ " @ "
  +:+ py_str (col app "company") +:+ " â€” " +:+ py_str (col app "status")
  +:+ " (ATS: " +:+ py_str (col app "ats_score") +:+ ")".

Section Format.

(** [f"{avg_ats}"] for the rounded float. *)
Variable format_float : Q -> string.

(** [_format_dashboard] *)
Definition _format_dashboard (apps : list row) (status_counts : list (sqlval * nat))
    (avg_ats : option Q) : outcome string :=
  match breakdown_lines status_counts with
  | Raises e => Raises e
  | Returns breakdown =>
      let lines :=
        ["Job Application Tracker"; rule40;
         "Total Applications: " +:+ pretty (length apps)]
        ++ match avg_ats with
           | Some avg => ["Average ATS Score:  " +:+ format_float avg]
           | None => []
           end
        ++ [""; "Status Breakdown:"]
        ++ breakdown
        ++ match apps with
           | [] => []
           | _ :: _ => [""; "Recent Applications:"] ++ map recent_line (take 5 apps)
           end
        ++ [rule40] in
      Returns (PyStr.join (String (ascii_of_nat 10) "") lines)
  end.

(** [get_dashboard] *)
Definition get_dashboard : M (outcome dashboard) :=
  let! apps := Queries.list_applications None in
  ret (match sum_ats apps 0 0 with
       | Raises e => Raises e
       | Returns (total_ats, ats_count) =>
           let status_counts := count_statuses apps in
           let avg_ats := average total_ats ats_count in
           match _format_dashboard apps status_counts avg_ats with
           | Raises e => Raises e
           | Returns text =>
               Returns (MkDashboard (length apps) status_counts avg_ats
                          (take 10 apps) text)
           end
       end).

End Format.

End Dashboard.

(** ** The diff by sections: src/agents/diff_viewer.py *)

Module DiffSections.
Import DiffViewer.

(** The value of a section in "section_diffs": the dict of [diff], or
    the short dict of a section whose content has not changed. *)
Inductive section_diff :=
| Compared (r : diff_result)
| Same.

(** [d.get("has_changes")] *)
Definition changed (d : section_diff) : bool :=
  match d with
  | Compared r => has_changes r
  | Same => false
  end.

(** The dict [diff_sections] returns. *)
Record sections_result := SectionsResult {
  section_diffs : list (string * section_diff);
  changed_sections : list string;
  unchanged_sections : list string
}.

(** ["\n".join(sections.get(section, []))] *)
Definition content (sections : KeywordScorer.sections) (section : string) : string :=
  PyStr.join newline (KeywordScorer.section_get sections section).

Section Sections.

Variable unified_diff :
  list string -> list string -> string -> string -> Z -> list string.
Variable get_opcodes : list string -> list string -> list opcode.

(** The elements of a set of strings in the order Python yields them. *)
Variable list_of_set : list string -> list string.

(** What the loop does for one section: its entry and the calls made
    into [difflib]. *)
Definition diff_section (original_sections modified_sections : KeywordScorer.sections)
    (section : string) : (string * section_diff) * list difflib_call :=
  let orig_content := content original_sections section in
  let mod_content := content modified_sections section in
  if negb (String.eqb orig_content mod_content) then
    let '(r, calls) := diff unified_diff get_opcodes orig_content mod_content 3 in
    ((section, Compared r), calls)
  else ((section, Same), []).

(** [diff_sections], with the calls made into [difflib]. *)
Definition diff_sections (original_sections modified_sections : KeywordScorer.sections)
    : sections_result * list difflib_call :=
  let all_section_keys := list_of_set (original_sections.*1 ++ modified_sections.*1) in
  let per_section :=
    map (diff_section original_sections modified_sections) all_section_keys in
  let section_diffs := map fst per_section in
  (SectionsResult section_diffs
     (map fst (filter (fun p : string * section_diff => changed p.2 = true)
                 section_diffs))
     (map fst (filter (fun p : string * section_diff => changed p.2 = false)
                 section_diffs)),
   concat (map snd per_section)).

End Sections.

End DiffSections.

(** ** Data for the worked examples *)

Module Demo.
Import Database.

(** A stand-in for [json.dumps] in the examples: a dict is shown by its
    keys. *)
Definition dumps_keys (v : pyval) : string :=
  match v with
  | PDict d => "{" +:+ PyStr.join ", " d.*1 +:+ "}"
  | PStr s => s
  | PInt n => pretty n
  | PBool true => "true"
  | PBool false => "false"
  | PNone => "null"
  end.

(** One resume, one job, a draft application (1) and a cancelled one (2),
    an empty log; the [n]-th reading of the clock is ["t<n>"]. *)
Definition world1 : world :=
  World
    (Table {[ 1 := {[ "name" := Text "Ada" ]} ]} 1)
    (Table {[ 1 := {[ "title" := Text "Engineer"; "company" := Text "Acme" ]} ]} 1)
    (Table {[ 1 := {[ "resume_id" := Int 1; "job_id" := Int 1;
                      "status" := Text "draft"; "created_at" := Text "t" ]};
              2 := {[ "resume_id" := Int 1; "job_id" := Int 2;
                      "status" := Text "cancelled"; "created_at" := Text "t" ]} ]} 2)
    (Table ∅ 0)
    (fun n => "t" +:+ pretty n) 0.

(** The same with no application yet. *)
Definition world0 : world :=
  World (resumes world1) (jobs world1) (Table ∅ 0) (Table ∅ 0) (clock world1) 0.

(** The answers of [difflib] for the lines [["a\n"]] and [["b\n"]]. *)
Definition unified_diff_a_b : list string :=
  ["--- Original Resume" +:+ DiffViewer.newline;
   "+++ Tailored Resume" +:+ DiffViewer.newline;
   "@@ -1 +1 @@" +:+ DiffViewer.newline;
   "-a" +:+ DiffViewer.newline;
   "+b" +:+ DiffViewer.newline].

Definition opcodes_a_b : list DiffViewer.opcode :=
  [DiffViewer.Opcode DiffViewer.Replace 0 1 0 1].

End Demo.

(** * Properties *)

Example lower_example : PyStr.lower "PyThon 3!" = "python 3!".
Proof. reflexivity. Qed.

Example split_example : PyStr.split "  a bc
 d " = ["a"; "bc"; "d"].
Proof. reflexivity. Qed.

Example count_example : PyStr.count "aa" "aaaaa" = 2%nat.
Proof. reflexivity. Qed.

Example contains_example :
  PyStr.contains "header" "page header" = true /\ PyStr.contains "x" "" = false.
Proof. split; reflexivity. Qed.

Example strip_example : PyStr.strip "  a b
" = "a b".
Proof. reflexivity. Qed.

(** ** Tailor tokens *)

Section TailorTokenFacts.
Import TailorTokens.

Implicit Types (tk : gmap string token_entry) (token : string).

Lemma cleanup_lookup_Some now tk token e :
  _cleanup_tokens now tk !! token = Some e <->
  tk !! token = Some e /\ ¬ (expires e < now).
Proof. unfold _cleanup_tokens. by rewrite map_lookup_filter_Some. Qed.

Lemma cleanup_lookup_None now tk token :
  tk !! token = None -> _cleanup_tokens now tk !! token = None.
Proof.
  intros H. destruct (_cleanup_tokens now tk !! token) as [e|] eqn:E; [|done].
  apply cleanup_lookup_Some in E as [E _]. congruence.
Qed.

(** A validation always leaves the token out of the table. *)
Lemma validate_consumes token now1 now2 tk :
  (validate_tailor_token token now1 now2 tk).2 !! token = None.
Proof.
  unfold validate_tailor_token.
  destruct (_cleanup_tokens now1 tk !! token) as [e|];
    [case_bool_decide|]; simpl; apply lookup_delete_eq.
Qed.

Lemma validate_unknown token now1 now2 tk :
  tk !! token = None -> (validate_tailor_token token now1 now2 tk).1 = None.
Proof.
  intros H. unfold validate_tailor_token.
  by rewrite (cleanup_lookup_None _ _ _ H).
Qed.

(** The result of a validation, read off the table it starts from. *)
Lemma validate_Some token now1 now2 tk txt :
  (validate_tailor_token token now1 now2 tk).1 = Some txt <->
  exists e, tk !! token = Some e /\ text e = txt /\
            now1 <= expires e /\ now2 < expires e.
Proof.
  unfold validate_tailor_token.
  destruct (_cleanup_tokens now1 tk !! token) as [e|] eqn:E.
  - apply cleanup_lookup_Some in E as [E Hn].
    case_bool_decide; simpl; split.
    + intros [= <-]. exists e. repeat split; [done|lia|lia].
    + intros (e' & He' & <- & _). congruence.
    + done.
    + intros (e' & He' & _ & _ & ?). assert (e' = e) by congruence. subst. lia.
  - simpl. split; [done|]. intros (e & He & _ & Hn & _).
    assert (_cleanup_tokens now1 tk !! token = Some e) as E'
      by (apply cleanup_lookup_Some; split; [done|lia]).
    congruence.
Qed.

(** Other tokens are not given back by a validation, and an entry that
    stays is the entry that was there. *)
Lemma validate_keeps token' token now1 now2 tk e :
  (validate_tailor_token token' now1 now2 tk).2 !! token = Some e ->
  tk !! token = Some e.
Proof.
  unfold validate_tailor_token.
  assert (delete token' (_cleanup_tokens now1 tk) !! token = Some e ->
          tk !! token = Some e) as H.
  { intros H. apply lookup_delete_Some in H as [_ H].
    by apply cleanup_lookup_Some in H as [H _]. }
  destruct (_cleanup_tokens now1 tk !! token'); [case_bool_decide|]; exact H.
Qed.

Lemma run_call_keeps c token tk e :
  mints token c = false ->
  run_call c tk !! token = Some e -> tk !! token = Some e.
Proof.
  destruct c as [r fresh n1 n2 | t n1 n2]; simpl.
  - unfold tailor_resume. intros Hm.
    destruct (tailored_text r) as [txt|] eqn:Ht; [|done].
    destruct (error r) eqn:He; simpl; [done|].
    simpl in Hm.
    assert (fresh ≠ token) as Hne.
    { intros ->. rewrite ?andb_true_r in Hm.
      by apply bool_decide_eq_false in Hm. }
    rewrite lookup_insert_ne by done.
    intros H. by apply cleanup_lookup_Some in H as [H _].
  - intros _. apply validate_keeps.
Qed.

Lemma run_call_absent c token tk :
  mints token c = false -> tk !! token = None ->
  run_call c tk !! token = None.
Proof.
  intros Hm Hn. destruct (run_call c tk !! token) as [e|] eqn:E; [|done].
  apply run_call_keeps in E; [congruence|done].
Qed.

(** Once a token is out of the table and is not minted again, every
    validation of it fails. *)
Lemma validations_absent token cs : forall tk,
  tk !! token = None ->
  Forall (λ c, mints token c = false) cs ->
  Forall (λ p, p.2 = None) (validations token cs tk).
Proof.
  induction cs as [|c cs IH]; intros tk Hn Hcs; simpl; [constructor|].
  inversion Hcs as [|? ? Hc Hcs']; subst.
  specialize (IH (run_call c tk) (run_call_absent _ _ _ Hc Hn) Hcs').
  destruct c as [r fresh n1 n2 | t n1 n2]; [done|].
  case_bool_decide; [|done]. subst.
  constructor; [|done]. simpl. by apply validate_unknown.
Qed.

(** While the entry of a token is in the table, at most one validation
    in any sequence of calls succeeds, and it does so before the expiry
    and with the bound text. *)
Lemma validations_bound token e cs : forall tk,
  tk !! token = Some e ->
  Forall (λ c, mints token c = false) cs ->
  (length (filter (λ p, is_Some p.2) (validations token cs tk)) <= 1)%nat /\
  Forall (λ p, p.2 = None \/ (p.2 = Some (text e) /\ p.1 < expires e))
         (validations token cs tk).
Proof.
  induction cs as [|c cs IH]; intros tk He Hcs; simpl.
  { split; [lia|constructor]. }
  inversion Hcs as [|? ? Hc Hcs']; subst.
  destruct (run_call c tk !! token) as [e'|] eqn:E.
  - (* the entry is still there: this call was not a successful
       validation of the token *)
    pose proof (run_call_keeps _ _ _ _ Hc E) as E'.
    assert (e' = e) by congruence. subst e'.
    specialize (IH _ E Hcs').
    destruct c as [r fresh n1 n2 | t n1 n2]; [done|].
    case_bool_decide; [|done]. subst t.
    simpl in E. rewrite validate_consumes in E. done.
  - pose proof (validations_absent token cs _ E Hcs') as Hrest.
    assert (filter (λ p : Z * option string, is_Some p.2)
              (validations token cs (run_call c tk)) = []) as Hnil.
    { induction Hrest as [|p l Hp _ IHl]; [done|].
      rewrite filter_cons_False; [done|]. rewrite Hp. by intros [? ?]. }
    assert (Forall (λ p : Z * option string,
              p.2 = None \/ (p.2 = Some (text e) /\ p.1 < expires e))
              (validations token cs (run_call c tk))) as Hrest'.
    { eapply Forall_impl; [exact Hrest|]. simpl. auto. }
    destruct c as [r fresh n1 n2 | t n1 n2].
    { rewrite Hnil. split; [simpl; lia|done]. }
    case_bool_decide as Ht.
    + subst t. split.
      * destruct (decide (is_Some (n2, (validate_tailor_token token n1 n2 tk).1).2)).
        -- rewrite filter_cons_True by done. rewrite Hnil. simpl. lia.
        -- rewrite filter_cons_False by done. rewrite Hnil. simpl. lia.
      * constructor; [|done]. simpl.
        destruct (validate_tailor_token token n1 n2 tk).1 as [txt|] eqn:V;
          [|by left].
        apply validate_Some in V as (e' & He' & <- & _ & Hlt).
        assert (e' = e) by congruence. subst. right. done.
    + rewrite Hnil. split; [simpl; lia|done].
Qed.

(** After [tailor_resume] has minted a token, a validation made in time
    gives the bound text. *)
Lemma tailor_then_validate r fresh now_sweep now_mint tk txt now1 now2 :
  tailored_text r = Some txt -> error r = false ->
  now1 <= now_mint + 1800 -> now2 < now_mint + 1800 ->
  (validate_tailor_token fresh now1 now2
     (tailor_resume r fresh now_sweep now_mint tk).2).1 = Some txt.
Proof.
  intros Ht He H1 H2. apply validate_Some.
  unfold tailor_resume. rewrite Ht, He. simpl.
  eexists. rewrite lookup_insert_eq. split; [done|].
  unfold _TOKEN_TTL_SECONDS. simpl. repeat split; lia.
Qed.

End TailorTokenFacts.

(** C1.  A token minted by [tailor_resume] for the text [txt] gives that
    text back at most once.  In every sequence of later calls that does not
    mint the same token again, at most one validation of the token
    succeeds; a validation that succeeds returns [txt] and made its expiry
    test before the 30 minutes (1800 seconds) were over.  A validation
    takes the token out of the table whatever its result, so the next
    validation of the same token returns [None]; and a validation whose
    expiry test is made at or after the expiry returns [None]. *)
Theorem tailor_token_consumed_once
    (r : TailorTokens.tailor_result) (fresh txt : string)
    (now_sweep now_mint : Z)
    (tk : gmap string TailorTokens.token_entry)
    (cs : list TailorTokens.call) :
  TailorTokens.tailored_text r = Some txt ->
  TailorTokens.error r = false ->
  Forall (λ c, TailorTokens.mints fresh c = false) cs ->
  let tk0 := (TailorTokens.tailor_resume r fresh now_sweep now_mint tk).2 in
  let vs := TailorTokens.validations fresh cs tk0 in
  (length (filter (λ p, is_Some p.2) vs) <= 1)%nat /\
  Forall (λ p, p.2 = None \/ (p.2 = Some txt /\ p.1 < now_mint + 1800)) vs /\
  (forall tk' now1 now2 now3 now4,
     (TailorTokens.validate_tailor_token fresh now3 now4
        (TailorTokens.validate_tailor_token fresh now1 now2 tk').2).1 = None) /\
  (forall now1 now2, now_mint + 1800 <= now2 ->
     (TailorTokens.validate_tailor_token fresh now1 now2 tk0).1 = None).
Proof.
  intros Ht He Hcs tk0 vs.
  assert (tk0 !! fresh
          = Some (TailorTokens.TokenEntry txt (now_mint + 1800))) as Hin.
  { subst tk0. unfold TailorTokens.tailor_resume. rewrite Ht, He. simpl.
    by rewrite lookup_insert_eq. }
  destruct (validations_bound fresh _ cs tk0 Hin Hcs) as [Hone Hall].
  repeat split; [exact Hone|exact Hall| |].
  - intros tk' now1 now2 now3 now4.
    apply validate_unknown, validate_consumes.
  - intros now1 now2 Hlate.
    destruct (TailorTokens.validate_tailor_token fresh now1 now2 tk0).1
      as [t|] eqn:V; [|done].
    apply validate_Some in V as (e & He' & _ & _ & Hlt).
    rewrite Hin in He'. injection He' as <-. simpl in Hlt. lia.
Qed.

Lemma tailor_token_consumed_once_witness :
  let r := TailorTokens.TailorResult (Some "tailored text") false None None in
  let cs := [TailorTokens.CallValidate "tok" 10 11;
             TailorTokens.CallTailor r "other" 20 21;
             TailorTokens.CallValidate "tok" 30 31] in
  let tk0 := (TailorTokens.tailor_resume r "tok" 0 1 ∅).2 in
  TailorTokens.validations "tok" cs tk0 = [(11, Some "tailored text"); (31, None)] /\
  (length (filter (λ p, is_Some p.2) (TailorTokens.validations "tok" cs tk0)) <= 1)%nat.
Proof.
  intros r cs tk0. split; [vm_compute; reflexivity|].
  apply (tailor_token_consumed_once r "tok" "tailored text" 0 1 ∅ cs).
  - reflexivity.
  - reflexivity.
  - repeat constructor.
Defined.

(** C10, as the code has it.  [export_resume] and the token argument.
    Without a token the token table is not touched and the text handed to
    [DocExporter.export] is the caller's; with a token that validates it is
    the text bound to the token, whatever text the caller passed; with a
    token that is unknown or expired the result is the error dict and no
    document is saved.  The document saved is built from the text handed
    over only when the contact or the sections are missing or empty: when
    both are given it is built from them, and the text, the caller's or the
    token's, is not read. *)
Theorem export_resume_token_gate
    (_generate_filename :
       option (list (string * string)) -> option string -> option string -> string)
    (resolve : string -> string)
    (resume_text : string) (opts : TailorTokens.export_options)
    (st : TailorTokens.state) :
  let export_resume :=
    TailorTokens.export_resume _generate_filename resolve resume_text opts in
  let path := TailorTokens.output_path _generate_filename resolve opts in
  let document text :=
    match TailorTokens.sections opts, TailorTokens.contact opts with
    | Some (s :: ss), Some (c :: cs) => TailorTokens.Structured (c :: cs) (s :: ss)
    | _, _ => TailorTokens.FromText text
    end in
  (forall now1 now2,
     export_resume None now1 now2 st
     = (TailorTokens.ExportDone path ("Resume exported to " +:+ path),
        TailorTokens.State (TailorTokens.tokens st)
          (TailorTokens.exported st ++ [(path, document resume_text)]))) /\
  (forall token e now1 now2,
     TailorTokens.tokens st !! token = Some e ->
     now1 <= TailorTokens.expires e -> now2 < TailorTokens.expires e ->
     export_resume (Some token) now1 now2 st
     = (TailorTokens.ExportDone path ("Resume exported to " +:+ path),
        TailorTokens.State
          (delete token (TailorTokens._cleanup_tokens now1 (TailorTokens.tokens st)))
          (TailorTokens.exported st ++ [(path, document (TailorTokens.text e))]))) /\
  (forall token now1 now2,
     (TailorTokens.tokens st !! token = None \/
      exists e, TailorTokens.tokens st !! token = Some e /\
                (TailorTokens.expires e < now1 \/ TailorTokens.expires e <= now2)) ->
     export_resume (Some token) now1 now2 st
     = (TailorTokens.ExportError
          "Invalid or expired tailor token. Please re-run tailor_resume first.",
        TailorTokens.State
          (delete token (TailorTokens._cleanup_tokens now1 (TailorTokens.tokens st)))
          (TailorTokens.exported st))).
Proof.
  intros export_resume path document.
  assert (forall text, TailorTokens.build text opts = document text) as Hbuild.
  { intros text. unfold TailorTokens.build, TailorTokens.structured. subst document.
    simpl. destruct (TailorTokens.sections opts) as [[|s ss]|];
      destruct (TailorTokens.contact opts) as [[|c cs]|]; reflexivity. }
  subst export_resume path. repeat split.
  - intros now1 now2. unfold TailorTokens.export_resume, TailorTokens.exporter_export.
    by rewrite Hbuild.
  - intros token e now1 now2 He H1 H2.
    unfold TailorTokens.export_resume, TailorTokens.validate_tailor_token.
    assert (TailorTokens._cleanup_tokens now1 (TailorTokens.tokens st) !! token
            = Some e) as ->
      by (apply cleanup_lookup_Some; split; [done|lia]).
    rewrite bool_decide_eq_true_2 by lia.
    unfold TailorTokens.exporter_export. by rewrite Hbuild.
  - intros token now1 now2 Hbad.
    unfold TailorTokens.export_resume, TailorTokens.validate_tailor_token.
    destruct (TailorTokens._cleanup_tokens now1 (TailorTokens.tokens st) !! token)
      as [e|] eqn:E; [|reflexivity].
    apply cleanup_lookup_Some in E as [E Hn].
    destruct Hbad as [Hnone | (e' & He' & Hexp)]; [congruence|].
    assert (e' = e) by congruence. subst e'.
    rewrite bool_decide_eq_false_2 by lia. reflexivity.
Qed.

Lemma export_resume_token_gate_witness :
  let opts := TailorTokens.ExportOptions None None (Some "cv.docx") None None in
  let gen := λ (_ : option (list (string * string))) (_ _ : option string),
               "resume.docx" in
  let resolve := λ f : string, "outputs/" +:+ f in
  let st := TailorTokens.State
              {[ "tok" := TailorTokens.TokenEntry "approved text" 1800 ]} [] in
  TailorTokens.export_resume gen resolve "caller text" opts (Some "tok") 5 6 st
  = (TailorTokens.ExportDone "outputs/cv.docx" "Resume exported to outputs/cv.docx",
     TailorTokens.State (delete "tok" (TailorTokens._cleanup_tokens 5 {[ "tok" := TailorTokens.TokenEntry "approved text" 1800 ]}))
       [("outputs/cv.docx", TailorTokens.FromText "approved text")]) /\
  TailorTokens.export_resume gen resolve "caller text" opts (Some "tok") 1801 1802 st
  = (TailorTokens.ExportError
       "Invalid or expired tailor token. Please re-run tailor_resume first.",
     TailorTokens.State (delete "tok" (TailorTokens._cleanup_tokens 1801 {[ "tok" := TailorTokens.TokenEntry "approved text" 1800 ]})) []).
Proof.
  intros opts gen resolve st.
  pose proof (export_resume_token_gate gen resolve "caller text" opts st)
    as (_ & Hok & Hbad).
  split.
  - apply (Hok "tok" (TailorTokens.TokenEntry "approved text" 1800) 5 6);
      [reflexivity | simpl; lia | simpl; lia].
  - apply (Hbad "tok" 1801 1802). right.
    exists (TailorTokens.TokenEntry "approved text" 1800).
    split; [reflexivity | simpl; lia].
Defined.

(** C10 as stated fails: with a contact and sections the caller's text is
    not what is exported.  Two calls without a token that differ only in
    the text save the same document, and a call with a valid token saves a
    document that does not hold the text bound to the token. *)
Lemma export_resume_ignores_text :
  let opts :=
    TailorTokens.ExportOptions (Some [("name", "Ada")])
      (Some [("skills", ["Rocq"])]) (Some "cv.docx") None None in
  let gen := λ (_ : option (list (string * string))) (_ _ : option string),
               "resume.docx" in
  let resolve := λ f : string, "outputs/" +:+ f in
  let st := TailorTokens.State
              {[ "tok" := TailorTokens.TokenEntry "approved text" 1800 ]} [] in
  let document := TailorTokens.Structured [("name", "Ada")] [("skills", ["Rocq"])] in
  TailorTokens.export_resume gen resolve "caller text" opts None 5 6 st
  = TailorTokens.export_resume gen resolve "another text" opts None 5 6 st /\
  TailorTokens.exported
    (TailorTokens.export_resume gen resolve "caller text" opts None 5 6 st).2
  = [("outputs/cv.docx", document)] /\
  TailorTokens.exported
    (TailorTokens.export_resume gen resolve "caller text" opts (Some "tok") 5 6 st).2
  = [("outputs/cv.docx", document)].
Proof. cbv zeta. repeat split; vm_compute; reflexivity. Qed.

(** ** The database *)

Section DatabaseFacts.
Import Database.

Lemma max_rowid_bound (t : table) k r :
  rows t !! k = Some r -> k <= max_rowid t.
Proof.
  unfold max_rowid. revert k r.
  apply (map_fold_weak_ind
           (fun acc (m : gmap Z row) => forall k r, m !! k = Some r -> k <= acc)).
  - intros k r H. by rewrite lookup_empty in H.
  - intros i x m acc Hi IH k r Hk.
    destruct (decide (i = k)) as [->|Hne].
    + lia.
    + rewrite lookup_insert_ne in Hk by done. specialize (IH _ _ Hk). lia.
Qed.

(** The id an [INSERT] gives out is not in use. *)
Lemma next_id_fresh (t : table) : rows t !! next_id t = None.
Proof.
  unfold next_id.
  destruct (rows t !! (Z.max (seq t) (max_rowid t) + 1)) as [r|] eqn:E; [|done].
  apply max_rowid_bound in E. lia.
Qed.

End DatabaseFacts.

(** Reads a column off a row built by a chain of updates. *)
Ltac lookup_columns :=
  repeat first [ rewrite lookup_insert_eq | rewrite lookup_insert_ne by done ].

(** An equation between closed terms, settled by evaluation. *)
Ltac by_evaluation :=
  lazymatch goal with |- _ = ?b => vm_cast_no_check (eq_refl b) end.

(** ** Runs of the database operations *)

Section DatabaseRuns.
Import Database.

Variable json_dumps : pyval -> string.

(** What the index holds. *)
Lemma taken_spec k id (t : table) :
  taken k id t = true <->
  exists j r, j <> id /\ rows t !! j = Some r /\
              idx_app_resume_job r = Some k /\ k.1 <> Null /\ k.2 <> Null.
Proof.
  unfold taken. rewrite existsb_exists. split.
  - intros ([j r] & Hin & H). simpl in H.
    apply list_elem_of_In, elem_of_map_to_list in Hin.
    apply andb_true_iff in H as [Hj H].
    destruct (idx_app_resume_job r) as [k'|] eqn:E; [|done].
    unfold same_key in H. rewrite !andb_true_iff, !negb_true_iff in H.
    destruct H as [[H1 H2] H3].
    apply bool_decide_eq_true in H1. subst k'.
    apply bool_decide_eq_false in H2, H3.
    exists j, r. repeat split; try done.
    apply negb_true_iff, Z.eqb_neq in Hj. done.
  - intros (j & r & Hj & Hr & Hk & H1 & H2). exists (j, r). split.
    + by apply list_elem_of_In, elem_of_map_to_list.
    + simpl. rewrite Hk. unfold same_key.
      rewrite bool_decide_eq_true_2 by done.
      rewrite !bool_decide_eq_false_2 by done.
      rewrite andb_true_r. simpl. apply negb_true_iff, Z.eqb_neq. done.
Qed.

Lemma taken_free k id (t : table) :
  (forall j r, j <> id -> rows t !! j = Some r -> idx_app_resume_job r <> Some k) ->
  taken k id t = false.
Proof.
  intros H. destruct (taken k id t) eqn:E; [|done].
  apply taken_spec in E as (j & r & Hj & Hr & Hk & _). by destruct (H j r).
Qed.

(** The entry of a row depends on its status, resume and job only. *)
Lemma idx_app_resume_job_ext (r r' : row) :
  r' !! "status" = r !! "status" ->
  r' !! "resume_id" = r !! "resume_id" ->
  r' !! "job_id" = r !! "job_id" ->
  idx_app_resume_job r' = idx_app_resume_job r.
Proof.
  intros Hs Hr Hj. unfold idx_app_resume_job, sql_not_cancelled, col.
  by rewrite Hs, Hr, Hj.
Qed.

Lemma idx_app_resume_job_cancelled (r : row) :
  r !! "status" = Some (Text "cancelled") -> idx_app_resume_job r = None.
Proof. intros H. unfold idx_app_resume_job, sql_not_cancelled. by rewrite H. Qed.

(** The entry of a row whose status is a text other than 'cancelled'. *)
Lemma idx_app_resume_job_active (r : row) st :
  r !! "status" = Some (Text st) -> st <> "cancelled" ->
  idx_app_resume_job r = Some (col r "resume_id", col r "job_id").
Proof.
  intros H Hst. unfold idx_app_resume_job, sql_not_cancelled. rewrite H.
  by rewrite (proj2 (String.eqb_neq st "cancelled") Hst).
Qed.

(** A row that keeps its entry, or leaves the index, is written. *)
Lemma breaks_index_same (old new : row) id t :
  idx_app_resume_job new = idx_app_resume_job old ->
  breaks_index (Some old) new id t = false.
Proof.
  intros H. unfold breaks_index. simpl. rewrite H.
  destruct (idx_app_resume_job old); [|done]. by rewrite bool_decide_eq_true_2.
Qed.

Lemma breaks_index_out old (new : row) id t :
  idx_app_resume_job new = None -> breaks_index old new id t = false.
Proof. intros H. unfold breaks_index. by rewrite H. Qed.

Lemma application_cols_idx rid jid s rep t :
  idx_app_resume_job (application_cols json_dumps rid jid s rep t)
  = Some (Int rid, Int jid).
Proof. reflexivity. Qed.

(** The [INSERT] of [create_application] fails exactly when a record of
    the pair is in the index. *)
Lemma create_application_breaks rid jid s rep t id (apps : table) :
  breaks_index None (application_cols json_dumps rid jid s rep t) id apps
  = taken (Int rid, Int jid) id apps.
Proof. unfold breaks_index. by rewrite application_cols_idx. Qed.

Lemma create_application_run rid jid s rep res jbs apps log clk tk :
  taken (Int rid, Int jid) (next_id apps) apps = false ->
  create_application json_dumps rid jid s rep (World res jbs apps log clk tk)
  = (Ok (next_id apps),
     World res jbs
       (Table (<[next_id apps := application_cols json_dumps rid jid s rep (clk tk)]>
                 (rows apps))
          (next_id apps))
       log clk (S tk)).
Proof.
  intros H. unfold create_application, bind, now. cbn [clock ticks applications].
  by rewrite create_application_breaks, H.
Qed.

Lemma create_application_fails rid jid s rep res jbs apps log clk tk :
  taken (Int rid, Int jid) (next_id apps) apps = true ->
  create_application json_dumps rid jid s rep (World res jbs apps log clk tk)
  = (Raise unique_failed, World res jbs apps log clk (S tk)).
Proof.
  intros H. unfold create_application, bind, now. cbn [clock ticks applications].
  by rewrite create_application_breaks, H.
Qed.

Lemma log_action_run action details app_id confirmed res jbs apps log clk tk :
  log_action json_dumps action details app_id confirmed
    (World res jbs apps log clk tk)
  = (Ok (next_id log),
     World res jbs apps
       (Table (<[next_id log := log_cols json_dumps action details app_id confirmed (clk tk)]>
                 (rows log))
          (next_id log))
       clk (S tk)).
Proof. reflexivity. Qed.

Lemma invalid_keys_nil (keys : list string) :
  Forall (fun k => k ∈ _APPLICATION_UPDATABLE_COLUMNS) keys ->
  filter (fun k => k ∉ _APPLICATION_UPDATABLE_COLUMNS) keys = [].
Proof.
  induction 1 as [|k keys Hk _ IH]; [done|].
  by rewrite filter_cons_False by (intros H; by apply H).
Qed.

Lemma update_application_run app_id kv kwargs res jbs apps log clk tk :
  Forall (fun k => k ∈ _APPLICATION_UPDATABLE_COLUMNS) (kv :: kwargs).*1 ->
  update_fails json_dumps app_id (kv :: kwargs) (clk tk) apps = false ->
  update_application json_dumps app_id (kv :: kwargs) (World res jbs apps log clk tk)
  = (Ok PNone,
     World res jbs
       (Table (alter (updated_row json_dumps (kv :: kwargs) (clk tk)) app_id (rows apps))
          (seq apps))
       log clk (S tk)).
Proof.
  intros H Hf. unfold update_application. rewrite (invalid_keys_nil _ H).
  unfold bind, now. cbn [clock ticks applications]. by rewrite Hf.
Qed.

Lemma update_application_fails app_id kv kwargs res jbs apps log clk tk :
  Forall (fun k => k ∈ _APPLICATION_UPDATABLE_COLUMNS) (kv :: kwargs).*1 ->
  update_fails json_dumps app_id (kv :: kwargs) (clk tk) apps = true ->
  update_application json_dumps app_id (kv :: kwargs) (World res jbs apps log clk tk)
  = (Raise unique_failed, World res jbs apps log clk (S tk)).
Proof.
  intros H Hf. unfold update_application. rewrite (invalid_keys_nil _ H).
  unfold bind, now. cbn [clock ticks applications]. by rewrite Hf.
Qed.

(** A key outside the whitelist: [ValueError], and nothing is touched. *)
Lemma update_application_invalid app_id kwargs w k :
  k ∈ kwargs.*1 -> k ∉ _APPLICATION_UPDATABLE_COLUMNS ->
  update_application json_dumps app_id kwargs w
  = (Raise (ValueError
              (filter (fun k => k ∉ _APPLICATION_UPDATABLE_COLUMNS) kwargs.*1)
              sorted_columns), w).
Proof.
  intros Hin Hout. unfold update_application.
  assert (k ∈ filter (fun k => k ∉ _APPLICATION_UPDATABLE_COLUMNS) kwargs.*1) as Hf
    by (by apply list_elem_of_filter).
  destruct (filter _ kwargs.*1) as [|k' l]; [by apply elem_of_nil in Hf|done].
Qed.

(** Columns that are not assigned keep their value. *)
Lemma set_columns_other kwargs : forall (r : row) k,
  k ∉ kwargs.*1 -> set_columns json_dumps kwargs r !! k = r !! k.
Proof.
  unfold set_columns.
  induction kwargs as [|[k' v] kwargs IH]; intros r k Hk; simpl; [done|].
  rewrite IH by (intros H; apply Hk; by right).
  apply lookup_insert_ne. intros ->. apply Hk. left.
Qed.

Lemma updated_row_other kwargs t (r : row) k :
  k ≠ "updated_at" -> k ∉ kwargs.*1 ->
  updated_row json_dumps kwargs t r !! k = r !! k.
Proof.
  intros H1 H2. unfold updated_row. rewrite lookup_insert_ne by done.
  by apply set_columns_other.
Qed.

Lemma application_cols_status rid jid s rep t :
  application_cols json_dumps rid jid s rep t !! "status" = Some (Text "draft").
Proof. reflexivity. Qed.

Lemma application_cols_resume_id rid jid s rep t :
  application_cols json_dumps rid jid s rep t !! "resume_id" = Some (Int rid).
Proof. reflexivity. Qed.

Lemma application_cols_job_id rid jid s rep t :
  application_cols json_dumps rid jid s rep t !! "job_id" = Some (Int jid).
Proof. reflexivity. Qed.

(** An [UPDATE] that assigns neither the status nor the pair keeps the
    entry of the row. *)
Lemma update_fails_other app_id kwargs t (apps : table) :
  "status" ∉ kwargs.*1 -> "resume_id" ∉ kwargs.*1 -> "job_id" ∉ kwargs.*1 ->
  update_fails json_dumps app_id kwargs t apps = false.
Proof.
  intros Hs Hr Hj. unfold update_fails.
  destruct (rows apps !! app_id) as [old|]; [|done].
  apply breaks_index_same, idx_app_resume_job_ext; by apply updated_row_other.
Qed.


Lemma status_kwargs_allowed (st : string) (k : string) (v : pyval) :
  k ∈ _APPLICATION_UPDATABLE_COLUMNS ->
  Forall (fun k => k ∈ _APPLICATION_UPDATABLE_COLUMNS)
    [("status", PStr st); (k, v)].*1.
Proof.
  intros Hk. simpl. constructor; [|constructor; [done|constructor]].
  unfold _APPLICATION_UPDATABLE_COLUMNS. rewrite !elem_of_cons. tauto.
Qed.

Lemma updated_row_status st k v t (r : row) :
  k ≠ "status" ->
  updated_row json_dumps [("status", PStr st); (k, v)] t r !! "status"
  = Some (Text st).
Proof.
  intros Hk. unfold updated_row, set_columns. cbn [foldl fst snd to_sql].
  change (store "status" (Text st)) with (Text st).
  rewrite lookup_insert_ne by done. rewrite lookup_insert_ne by done.
  apply lookup_insert_eq.
Qed.

Lemma updated_row_pair st k v t (r : row) c :
  c = "resume_id" \/ c = "job_id" ->
  k = "applied_at" \/ k = "notes" ->
  updated_row json_dumps [("status", PStr st); (k, v)] t r !! c = r !! c.
Proof.
  intros Hc Hk. apply updated_row_other.
  - by destruct Hc as [-> | ->].
  - simpl. rewrite !elem_of_cons, elem_of_nil.
    destruct Hc as [-> | ->], Hk as [-> | ->]; intros [?|[?|[]]]; done.
Qed.

(** The [UPDATE]s of the agent and of the tracker that set a status:
    the row is written when it leaves the index or was in it. *)
Lemma update_fails_status app_id st k v t (apps : table) :
  k = "applied_at" \/ k = "notes" ->
  (forall old, rows apps !! app_id = Some old ->
     st = "cancelled" \/ sql_not_cancelled old = true) ->
  update_fails json_dumps app_id [("status", PStr st); (k, v)] t apps = false.
Proof.
  intros Hk Hold. unfold update_fails.
  destruct (rows apps !! app_id) as [old|]; [|done].
  assert (k <> "status") as Hks by (by destruct Hk as [-> | ->]).
  destruct (decide (st = "cancelled")) as [->|Hst].
  - apply breaks_index_out, idx_app_resume_job_cancelled.
    by apply updated_row_status.
  - destruct (Hold old eq_refl) as [?|Hact]; [done|].
    apply breaks_index_same.
    rewrite (idx_app_resume_job_active _ st) by (by rewrite ?updated_row_status).
    unfold idx_app_resume_job. rewrite Hact. unfold col.
    by rewrite !updated_row_pair by auto.
Qed.

End DatabaseRuns.

(** ** The confirmation gate *)

(** C4.  [confirm_apply] on an existing record.  In a state other than
    'draft' and 'ready' it returns the error dict whose message names the
    state the record is in, and nothing changes (no clock is read, no row
    and no log entry is written).  In 'draft' or 'ready' it reads the clock
    once; that one reading [t] is the "applied_at" of the returned dict, the
    [applied_at] column of the record, whose [status] becomes 'submitted',
    and the "confirmed_at" of the one log entry it adds, which is marked
    confirmed.  No other record changes, and of the confirmed record only
    [status], [applied_at] and [updated_at]. *)
Theorem confirm_apply_state_gate
    (json_dumps : Database.pyval -> string) (app_id : Z)
    (w : Database.world) (app : Database.row) :
  Database.select_by_id (Database.applications w) app_id = Some app ->
  let status := Database.col app "status" in
  let t := Database.clock w (Database.ticks w) in
  (status <> Database.Text "draft" -> status <> Database.Text "ready" ->
   ApplyAgent.confirm_apply json_dumps app_id w
   = (Database.Ok
        [("error",
          Database.PStr ("Application " +:+ pretty app_id +:+ " is in '"
                         +:+ Database.py_str status +:+ "' state — cannot submit"));
         ("suggestion",
          Database.PStr "Only 'draft' or 'ready' applications can be submitted")],
      w)) /\
  (status = Database.Text "draft" \/ status = Database.Text "ready" ->
   exists w',
     ApplyAgent.confirm_apply json_dumps app_id w
     = (Database.Ok
          [("application_id", Database.PInt app_id);
           ("status", Database.PStr "submitted");
           ("applied_at", Database.PStr t);
           ("message", Database.PStr "Application marked as submitted! Good luck! 🎯")],
        w') /\
     (exists app',
        Database.select_by_id (Database.applications w') app_id = Some app' /\
        app' !! "status" = Some (Database.Text "submitted") /\
        app' !! "applied_at" = Some (Database.Text t) /\
        forall k, k <> "status" -> k <> "applied_at" -> k <> "updated_at" ->
                  app' !! k = app !! k) /\
     (forall other, other <> app_id ->
        Database.rows (Database.applications w') !! other
        = Database.rows (Database.applications w) !! other) /\
     (exists id entry,
        Database.rows (Database.action_log w) !! id = None /\
        Database.rows (Database.action_log w')
        = <[id := entry]> (Database.rows (Database.action_log w)) /\
        entry !! "action" = Some (Database.Text "confirm_apply") /\
        entry !! "details"
        = Some (Database.Text
                  (json_dumps
                     (Database.PDict [("app_id", Database.PInt app_id);
                                      ("confirmed_at", Database.PStr t)]))) /\
        entry !! "application_id" = Some (Database.Int app_id) /\
        entry !! "confirmed" = Some (Database.Int 1))).
Proof.
  intros Hsel status t. split.
  - intros Hd Hr. unfold ApplyAgent.confirm_apply, Database.bind, Database.get_application.
    rewrite Hsel. fold status.
    rewrite (bool_decide_eq_false_2 _ Hd), (bool_decide_eq_false_2 _ Hr). reflexivity.
  - intros Hst.
    destruct w as [res jbs apps log clk tk].
    unfold Database.select_by_id in Hsel. cbn [Database.applications] in Hsel.
    destruct (Database.rows apps !! app_id) as [r|] eqn:Hr; [|done].
    simpl in Hsel. injection Hsel as <-.
    assert (r !! "status" = Some (Database.Text "draft")
            \/ r !! "status" = Some (Database.Text "ready")) as Hst'.
    { subst status. unfold Database.col in Hst.
      rewrite lookup_insert_ne in Hst by done.
      destruct (r !! "status") as [v|]; simpl in Hst;
        destruct Hst as [H|H]; try discriminate H; rewrite H; auto. }
    assert (Database.sql_not_cancelled r = true) as Hact.
    { unfold Database.sql_not_cancelled. by destruct Hst' as [-> | ->]. }
    assert ("applied_at" ∈ Database._APPLICATION_UPDATABLE_COLUMNS) as Hcol
      by (unfold Database._APPLICATION_UPDATABLE_COLUMNS; rewrite !elem_of_cons; tauto).
    unfold ApplyAgent.confirm_apply, Database.bind, Database.get_application,
      Database.select_by_id.
    cbn [Database.applications]. rewrite Hr. cbn [fmap option_fmap option_map].
    fold status.
    assert (bool_decide (status = Database.Text "draft")
            || bool_decide (status = Database.Text "ready") = true) as ->.
    { destruct Hst as [-> | ->]; reflexivity. }
    cbn [negb]. unfold Database.now at 1. cbn [Database.clock Database.ticks
      Database.resumes Database.jobs Database.applications Database.action_log].
    rewrite (update_application_run json_dumps app_id _ _ res jbs apps log clk (S tk)
               (status_kwargs_allowed json_dumps "submitted" "applied_at" _ Hcol)).
    2:{ apply update_fails_status; [by left|]. intros old Hold. right. congruence. }
    rewrite log_action_run. subst t. cbn [Database.clock Database.ticks].
    eexists. split; [reflexivity|].
    repeat split.
    + unfold Database.select_by_id. cbn [Database.applications Database.rows].
      rewrite lookup_alter_eq, Hr. cbn [fmap option_fmap option_map].
      eexists. split; [reflexivity|].
      split; [by rewrite lookup_insert_ne, updated_row_status|].
      split.
      { rewrite lookup_insert_ne by done. unfold Database.updated_row, Database.set_columns.
        cbn [foldl fst snd Database.to_sql]. by lookup_columns. }
      intros k H1 H2 H3.
      destruct (decide (k = "id")) as [->|Hid].
      * by rewrite !lookup_insert_eq.
      * rewrite !lookup_insert_ne by done. apply updated_row_other; [done|].
        simpl. rewrite !elem_of_cons, elem_of_nil. intros [?|[?|[]]]; done.
    + intros other Hne. cbn [Database.applications Database.rows].
      by rewrite lookup_alter_ne.
    + eexists _, _.
      split; [|split; [reflexivity|repeat split; reflexivity]].
      apply next_id_fresh.
Qed.

Section ApplyAgentFacts.
Import Database ApplyAgent.

Variable json_dumps : pyval -> string.
Variable MIN_ATS_SCORE : Z.

Lemma latest_not_None b l : latest (Some b) l <> None.
Proof.
  revert b. induction l as [|[i r] l IH]; intros [j b]; simpl; [done|].
  destruct (sql_ltb _ _); apply IH.
Qed.

Lemma latest_None l : latest None l = None -> l = [].
Proof.
  destruct l as [|[i r] l]; [done|]. simpl. intros H.
  by apply latest_not_None in H.
Qed.

Lemma latest_elem best l x :
  latest best l = Some x -> best = Some x \/ x ∈ l.
Proof.
  revert best. induction l as [|[i r] l IH]; intros best; simpl; [auto|].
  destruct best as [[j b]|].
  - destruct (sql_ltb _ _); intros H; apply IH in H as [H|H].
    + injection H as <-. right. left.
    + right. by right.
    + by left.
    + right. by right.
  - intros H. apply IH in H as [H|H].
    + injection H as <-. right. left.
    + right. by right.
Qed.

(** What [find_application] returns is a row of the table that the
    [WHERE] clause accepts; it returns nothing only when there is none. *)
Lemma find_application_Some rid jid w ex :
  (find_application rid jid w).1 = Ok (Some ex) ->
  exists i r, rows (applications w) !! i = Some r /\
              matches rid jid r = true /\ ex = <["id" := Int i]> r.
Proof.
  unfold find_application. simpl.
  destruct (latest None _) as [[i r]|] eqn:E; simpl; [|done].
  intros [= <-]. apply latest_elem in E as [E|E]; [done|].
  apply list_elem_of_filter in E as [Hm Hin].
  apply elem_of_map_to_list in Hin. simpl in *.
  exists i, r. repeat split; [done|]. by destruct (matches rid jid r).
Qed.

Lemma find_application_None rid jid w i r :
  (find_application rid jid w).1 = Ok None ->
  rows (applications w) !! i = Some r -> matches rid jid r = false.
Proof.
  unfold find_application. simpl.
  destruct (latest None _) as [[j b]|] eqn:E; simpl; [done|].
  intros _ Hr. apply latest_None in E.
  destruct (matches rid jid r) eqn:Hm; [|done].
  assert ((i, r) ∈ filter (λ p : Z * row, matches rid jid p.2)
            (map_to_list (rows (applications w)))) as Hin.
  { apply list_elem_of_filter. split; [simpl; by rewrite Hm|].
    by apply elem_of_map_to_list. }
  rewrite E in Hin. by apply elem_of_nil in Hin.
Qed.

Lemma find_application_world rid jid w : (find_application rid jid w).2 = w.
Proof. reflexivity. Qed.

Lemma matches_spec rid jid r :
  matches rid jid r = true <->
  r !! "resume_id" = Some (Int rid) /\ r !! "job_id" = Some (Int jid) /\
  sql_not_cancelled r = true.
Proof.
  unfold matches. rewrite !andb_true_iff, !bool_decide_eq_true. tauto.
Qed.

Lemma sql_not_cancelled_text r s :
  r !! "status" = Some (Text s) ->
  sql_not_cancelled r = true <-> not_cancelled r.
Proof.
  intros H. unfold sql_not_cancelled, not_cancelled. rewrite H.
  rewrite negb_true_iff. split.
  - intros Hs [= ->]. by rewrite String.eqb_refl in Hs.
  - intros Hs. apply String.eqb_neq. congruence.
Qed.

(** The rows [find_application] looks for are the rows the index holds
    under the key of the pair. *)
Lemma idx_matches rid jid (r : row) :
  idx_app_resume_job r = Some (Int rid, Int jid) <-> matches rid jid r = true.
Proof.
  rewrite matches_spec. unfold idx_app_resume_job, col.
  destruct (sql_not_cancelled r); split.
  - intros [= H1 H2]. repeat split.
    + destruct (r !! "resume_id"); simpl in H1; congruence.
    + destruct (r !! "job_id"); simpl in H2; congruence.
  - intros (-> & -> & _). reflexivity.
  - done.
  - intros (_ & _ & ?). done.
Qed.

(** No row matches when none of the listed rows does. *)
Lemma no_match_by_list rid jid (t : table) :
  forallb (fun p : Z * row => negb (matches rid jid p.2)) (map_to_list (rows t))
  = true ->
  forall i r, rows t !! i = Some r -> matches rid jid r = false.
Proof.
  rewrite forallb_forall. intros H i r Hr.
  specialize (H (i, r)). simpl in H. apply negb_true_iff, H.
  by apply list_elem_of_In, elem_of_map_to_list.
Qed.

(** When [find_application] would find nothing the key of the pair is
    free. *)
Lemma find_none_free rid jid id (apps : table) :
  (forall i r, rows apps !! i = Some r -> matches rid jid r = false) ->
  taken (Int rid, Int jid) id apps = false.
Proof.
  intros H. apply taken_free. intros j r _ Hr Hk.
  apply idx_matches in Hk. rewrite (H j r Hr) in Hk. done.
Qed.

End ApplyAgentFacts.

(** ** Effects of the calls of the agent *)

Section ApplyAgentEffects.
Import Database ApplyAgent.

Variable json_dumps : pyval -> string.
Variable MIN_ATS_SCORE : Z.

Lemma col_id_status (r : row) (i : Z) :
  col (<["id" := Int i]> r) "status" = default Null (r !! "status").
Proof. unfold col. by rewrite lookup_insert_ne. Qed.

Lemma matches_status_not_cancelled rid jid r i :
  matches rid jid r = true ->
  bool_decide (col (<["id" := Int i]> r) "status" = Text "cancelled") = false.
Proof.
  intros H. apply matches_spec in H as (_ & _ & H).
  apply bool_decide_eq_false. rewrite col_id_status.
  unfold sql_not_cancelled in H.
  destruct (r !! "status") as [[| |s]|]; simpl; try done.
  intros [= ->]. done.
Qed.

Lemma update_entries_allowed tt cl :
  Forall (fun k => k ∈ _APPLICATION_UPDATABLE_COLUMNS)
    (update_entry "tailored_text" tt ++ update_entry "cover_letter" cl).*1.
Proof.
  assert ("tailored_text" ∈ _APPLICATION_UPDATABLE_COLUMNS) as H1
    by (unfold _APPLICATION_UPDATABLE_COLUMNS; rewrite !elem_of_cons; tauto).
  assert ("cover_letter" ∈ _APPLICATION_UPDATABLE_COLUMNS) as H2
    by (unfold _APPLICATION_UPDATABLE_COLUMNS; rewrite !elem_of_cons; tauto).
  destruct tt as [[|c1 tt]|], cl as [[|c2 cl]|]; simpl; repeat constructor; done.
Qed.

Lemma update_entries_keys tt cl k :
  k ∈ (update_entry "tailored_text" tt ++ update_entry "cover_letter" cl).*1 ->
  k = "tailored_text" \/ k = "cover_letter".
Proof.
  destruct tt as [[|c1 tt]|], cl as [[|c2 cl]|]; simpl;
    rewrite ?elem_of_cons, elem_of_nil; tauto.
Qed.

(** [prepare_application]: either an error dict and the world as it was,
    or no record of the pair is found by [find_application] and a new
    'draft' record and one log row are written. *)
Lemma prepare_application_effect rid jid tt cl s rep f w :
  exists d w',
    prepare_application json_dumps MIN_ATS_SCORE rid jid tt cl s rep f w = (Ok d, w') /\
    ((has_key d "error" = true /\ dict_get d "application_id" = None /\ w' = w) \/
     (has_key d "error" = false /\
      dict_get d "application_id" = Some (PInt (next_id (applications w))) /\
      (forall i r, rows (applications w) !! i = Some r -> matches rid jid r = false) /\
      below_minimum MIN_ATS_SCORE s f = false /\
      is_Some (select_by_id (resumes w) rid) /\
      is_Some (select_by_id (jobs w) jid) /\
      exists newrow details t,
        applications w'
        = Table (<[next_id (applications w) := newrow]> (rows (applications w)))
            (next_id (applications w)) /\
        newrow !! "status" = Some (Text "draft") /\
        newrow !! "resume_id" = Some (Int rid) /\
        newrow !! "job_id" = Some (Int jid) /\
        action_log w'
        = Table (<[next_id (action_log w) :=
                     log_cols json_dumps "prepare_application" (Some details)
                       (Some (next_id (applications w))) false t]>
                   (rows (action_log w)))
            (next_id (action_log w)) /\
        resumes w' = resumes w /\ jobs w' = jobs w /\ clock w' = clock w)).
Proof.
  destruct w as [res jbs apps log clk tk].
  unfold prepare_application.
  destruct (below_minimum MIN_ATS_SCORE s f) eqn:Hgate.
  { eexists _, _. split; [reflexivity|]. left. repeat split. }
  unfold bind at 1. unfold get_resume at 1. cbn [resumes].
  destruct (select_by_id res rid) as [resume|] eqn:Hresume.
  2:{ eexists _, _. split; [reflexivity|]. left. repeat split. }
  unfold bind at 1. unfold get_job at 1. cbn [jobs].
  destruct (select_by_id jbs jid) as [job|] eqn:Hjob.
  2:{ eexists _, _. split; [reflexivity|]. left. repeat split. }
  unfold bind at 1.
  set (w := World res jbs apps log clk tk).
  assert (exists o, find_application rid jid w = (Ok o, w)) as [o Hfind]
    by (eexists; reflexivity).
  pose proof (find_application_Some rid jid w) as HSome.
  pose proof (find_application_None rid jid w) as HNone.
  rewrite Hfind in HSome, HNone |- *. simpl in HSome, HNone.
  destruct o as [ex|].
  - destruct (HSome ex eq_refl) as (i & r & Hr & Hm & ->).
    rewrite (matches_status_not_cancelled _ _ _ _ Hm).
    eexists _, _. split; [reflexivity|]. left. repeat split.
  - specialize (fun i r => HNone i r eq_refl).
    subst w. cbn [applications] in HNone.
    unfold bind at 1.
    rewrite create_application_run by (by apply find_none_free).
    pose proof (update_entries_allowed tt cl) as Hallowed.
    pose proof (update_entries_keys tt cl) as Hkeys.
    destruct (update_entry "tailored_text" tt ++ update_entry "cover_letter" cl)
      as [|kv kwargs].
    + unfold bind, ret. rewrite log_action_run.
      eexists _, _. split; [reflexivity|]. right.
      repeat (split; [first [reflexivity | exact HNone | by eexists]|]).
      eexists _, _, _. repeat split; reflexivity.
    + unfold bind, ret.
      rewrite (update_application_run _ _ _ _ _ _ _ _ _ _ Hallowed)
        by (apply update_fails_other; intros Hin; apply Hkeys in Hin;
            destruct Hin; done).
      rewrite log_action_run. cbn [rows seq]. rewrite alter_insert_eq.
      eexists _, _. split; [reflexivity|]. right.
      repeat (split; [first [reflexivity | exact HNone | by eexists]|]).
      eexists _, _, _. split; [reflexivity|].
      assert (forall k, k = "status" \/ k = "resume_id" \/ k = "job_id" ->
                        k ≠ "updated_at" /\ k ∉ (kv :: kwargs).*1) as Hk.
      { intros k Hk. split; [by destruct Hk as [->|[->| ->]]|].
        intros Hin. apply Hkeys in Hin.
        destruct Hk as [->|[->| ->]], Hin as [?|?]; done. }
      repeat split; try reflexivity;
        rewrite updated_row_other by (apply Hk; auto); reflexivity.
Qed.

(** [confirm_apply]: either an error dict and the world as it was, or the
    record was 'draft' or 'ready', is rewritten by one [UPDATE], and one
    log row is written. *)
Lemma confirm_apply_effect app_id w :
  exists d w',
    confirm_apply json_dumps app_id w = (Ok d, w') /\
    ((has_key d "error" = true /\ dict_get d "application_id" = None /\ w' = w) \/
     (has_key d "error" = false /\
      exists r t details tl,
        rows (applications w) !! app_id = Some r /\
        (r !! "status" = Some (Text "draft") \/ r !! "status" = Some (Text "ready")) /\
        applications w'
        = Table (alter (updated_row json_dumps
                          [("status", PStr "submitted");
                           ("applied_at", PStr (clock w (ticks w)))] t)
                   app_id (rows (applications w)))
            (seq (applications w)) /\
        action_log w'
        = Table (<[next_id (action_log w) :=
                     log_cols json_dumps "confirm_apply" (Some details)
                       (Some app_id) true tl]>
                   (rows (action_log w)))
            (next_id (action_log w)) /\
        resumes w' = resumes w /\ jobs w' = jobs w /\ clock w' = clock w)).
Proof.
  destruct w as [res jbs apps log clk tk].
  unfold confirm_apply. unfold bind at 1. unfold get_application at 1.
  unfold select_by_id. cbn [applications].
  destruct (rows apps !! app_id) as [r|] eqn:Hr; cbn [fmap option_fmap option_map].
  2:{ eexists _, _. split; [reflexivity|]. left. repeat split. }
  rewrite col_id_status.
  assert ("applied_at" ∈ _APPLICATION_UPDATABLE_COLUMNS) as Hcol
    by (unfold _APPLICATION_UPDATABLE_COLUMNS; rewrite !elem_of_cons; tauto).
  destruct (decide (r !! "status" = Some (Text "draft")
                    \/ r !! "status" = Some (Text "ready"))) as [Hst|Hst].
  - assert (bool_decide (default Null (r !! "status") = Text "draft")
            || bool_decide (default Null (r !! "status") = Text "ready") = true) as ->.
    { destruct Hst as [-> | ->]; reflexivity. }
    cbn [negb]. unfold bind, now, ret.
    rewrite (update_application_run _ _ _ _ _ _ _ _ _ _
               (status_kwargs_allowed json_dumps "submitted" "applied_at" _ Hcol)).
    2:{ apply update_fails_status; [by left|]. intros old Hold. right.
        assert (old = r) as -> by (simpl in Hold; congruence).
        unfold sql_not_cancelled. by destruct Hst as [-> | ->]. }
    rewrite log_action_run.
    eexists _, _. split; [reflexivity|]. right. split; [reflexivity|].
    exists r. eexists _, _, _.
    split; [reflexivity|]. split; [exact Hst|]. repeat split; reflexivity.
  - rewrite !bool_decide_eq_false_2.
    + eexists _, _. split; [reflexivity|]. left. repeat split.
    + intros H. apply Hst. right. destruct (r !! "status"); simpl in H; congruence.
    + intros H. apply Hst. left. destruct (r !! "status"); simpl in H; congruence.
Qed.

(** [cancel_application]: either an error dict and the world as it was,
    or the record is set to 'cancelled' and one log row is written. *)
Lemma cancel_application_effect app_id reason w :
  exists d w',
    cancel_application json_dumps app_id reason w = (Ok d, w') /\
    ((has_key d "error" = true /\ dict_get d "application_id" = None /\ w' = w) \/
     (has_key d "error" = false /\
      exists r notes t details tl,
        rows (applications w) !! app_id = Some r /\
        applications w'
        = Table (alter (updated_row json_dumps
                          [("status", PStr "cancelled"); ("notes", notes)] t)
                   app_id (rows (applications w)))
            (seq (applications w)) /\
        action_log w'
        = Table (<[next_id (action_log w) :=
                     log_cols json_dumps "cancel_application" (Some details)
                       (Some app_id) false tl]>
                   (rows (action_log w)))
            (next_id (action_log w)) /\
        resumes w' = resumes w /\ jobs w' = jobs w /\ clock w' = clock w)).
Proof.
  destruct w as [res jbs apps log clk tk].
  unfold cancel_application. unfold bind at 1. unfold get_application at 1.
  unfold select_by_id. cbn [applications].
  destruct (rows apps !! app_id) as [r|] eqn:Hr; cbn [fmap option_fmap option_map].
  2:{ eexists _, _. split; [reflexivity|]. left. repeat split. }
  assert ("notes" ∈ _APPLICATION_UPDATABLE_COLUMNS) as Hcol
    by (unfold _APPLICATION_UPDATABLE_COLUMNS; rewrite !elem_of_cons; tauto).
  unfold bind, ret.
  rewrite (update_application_run _ _ _ _ _ _ _ _ _ _
             (status_kwargs_allowed json_dumps "cancelled" "notes" _ Hcol))
    by (apply update_fails_status; [by right|auto]).
  rewrite log_action_run.
  eexists _, _. split; [reflexivity|]. right. split; [reflexivity|].
  exists r. eexists _, _, _, _.
  split; [reflexivity|]. repeat split; reflexivity.
Qed.

End ApplyAgentEffects.

(** ** One active application per resume and job *)

Section ApplyAgentInvariant.
Import Database ApplyAgent.

Variable json_dumps : pyval -> string.
Variable MIN_ATS_SCORE : Z.

Lemma consistent_empty s : consistent (Table ∅ s).
Proof.
  split.
  - intros i j ri rj Hi. simpl in Hi. by rewrite lookup_empty in Hi.
  - intros i r Hi. simpl in Hi. by rewrite lookup_empty in Hi.
Qed.

(** A row that is not cancelled and has a status is one the [WHERE]
    clause of [find_application] accepts. *)
Lemma active_matches (r : row) rid jid s :
  r !! "status" = Some (Text s) -> not_cancelled r ->
  r !! "resume_id" = Some (Int rid) -> r !! "job_id" = Some (Int jid) ->
  matches rid jid r = true.
Proof.
  intros Hs Hnc Hr Hj. apply matches_spec. repeat split; [done..|].
  by apply (sql_not_cancelled_text r s).
Qed.

Lemma matches_not_cancelled rid jid (r : row) :
  matches rid jid r = true -> not_cancelled r.
Proof.
  intros H. apply matches_spec in H as (_ & _ & H).
  unfold sql_not_cancelled in H. unfold not_cancelled.
  destruct (r !! "status") as [[| |s]|]; try done.
  intros [= ->]. done.
Qed.

Lemma consistent_insert t a s' (new : row) rid jid :
  consistent t -> rows t !! a = None ->
  new !! "status" = Some (Text "draft") ->
  new !! "resume_id" = Some (Int rid) -> new !! "job_id" = Some (Int jid) ->
  (forall i r, rows t !! i = Some r -> matches rid jid r = false) ->
  consistent (Table (<[a := new]> (rows t)) s').
Proof.
  intros [Hone Hst] Hfresh Hs Hr Hj Hnone. split.
  - intros i j ri rj Hi Hj' Hai Haj Hres Hjob. simpl in Hi, Hj'.
    destruct (decide (i = a)) as [->|Hia], (decide (j = a)) as [->|Hja];
      [done| | |].
    + rewrite lookup_insert_eq in Hi. rewrite lookup_insert_ne in Hj' by done.
      injection Hi as <-. destruct (Hst _ _ Hj') as [s Hsj].
      assert (matches rid jid rj = true) as Hm
        by (apply (active_matches rj rid jid s); [done..| |]; congruence).
      rewrite (Hnone _ _ Hj') in Hm. done.
    + rewrite lookup_insert_eq in Hj'. rewrite lookup_insert_ne in Hi by done.
      injection Hj' as <-. destruct (Hst _ _ Hi) as [s Hsi].
      assert (matches rid jid ri = true) as Hm
        by (apply (active_matches ri rid jid s); [done..| |]; congruence).
      rewrite (Hnone _ _ Hi) in Hm. done.
    + rewrite lookup_insert_ne in Hi, Hj' by done. eauto.
  - intros i r Hi. simpl in Hi.
    destruct (decide (i = a)) as [->|Hia].
    + rewrite lookup_insert_eq in Hi. injection Hi as <-. eauto.
    + rewrite lookup_insert_ne in Hi by done. eauto.
Qed.

Lemma consistent_alter t (f : row -> row) a s' :
  consistent t ->
  (forall r, rows t !! a = Some r ->
     f r !! "resume_id" = r !! "resume_id" /\
     f r !! "job_id" = r !! "job_id" /\
     (not_cancelled (f r) -> not_cancelled r) /\
     exists s, f r !! "status" = Some (Text s)) ->
  consistent (Table (alter f a (rows t)) s').
Proof.
  intros [Hone Hst] Hf.
  assert (forall i r', alter f a (rows t) !! i = Some r' ->
            exists r, rows t !! i = Some r /\
                      r' !! "resume_id" = r !! "resume_id" /\
                      r' !! "job_id" = r !! "job_id" /\
                      (not_cancelled r' -> not_cancelled r) /\
                      exists s, r' !! "status" = Some (Text s)) as Hback.
  { intros i r' Hi. destruct (decide (i = a)) as [->|Hia].
    - rewrite lookup_alter_eq in Hi.
      destruct (rows t !! a) as [r|] eqn:Hr; [|done].
      simpl in Hi. injection Hi as <-. exists r. split; [done|]. by apply Hf.
    - rewrite lookup_alter_ne in Hi by done. exists r'.
      split; [done|]. repeat split; [done|]. eauto. }
  split.
  - intros i j ri rj Hi Hj Hai Haj Hres Hjob. simpl in Hi, Hj.
    destruct (Hback _ _ Hi) as (ri0 & Hi0 & Hri & Hji & Hnci & _).
    destruct (Hback _ _ Hj) as (rj0 & Hj0 & Hrj & Hjj & Hncj & _).
    apply (Hone i j ri0 rj0); auto; congruence.
  - intros i r Hi. simpl in Hi.
    destruct (Hback _ _ Hi) as (_ & _ & _ & _ & _ & Hs). exact Hs.
Qed.

(** Every call of the agent keeps the table consistent. *)
Lemma run_call_consistent c w :
  consistent (applications w) ->
  consistent (applications (run_call json_dumps MIN_ATS_SCORE c w).2).
Proof.
  intros Hc. destruct c as [rid jid tt cl s rep f | a | a reason]; simpl.
  - destruct (prepare_application_effect json_dumps MIN_ATS_SCORE rid jid tt cl s rep f w)
      as (d & w' & Hrun & [(_ & _ & ->) | (_ & _ & Hnone & _ & _ & _ & new & det & t & Happs & Hs & Hr & Hj & _)]);
      rewrite Hrun; simpl; [done|].
    rewrite Happs. eapply consistent_insert; eauto using next_id_fresh.
  - destruct (confirm_apply_effect json_dumps a w)
      as (d & w' & Hrun & [(_ & _ & ->) | (_ & r & t & det & tl & Hr & Hst & Happs & _)]);
      rewrite Hrun; simpl; [done|].
    rewrite Happs. apply consistent_alter; [done|]. intros r' Hr'.
    assert (r' = r) as -> by congruence.
    rewrite !updated_row_pair by auto. rewrite updated_row_status by done.
    split; [reflexivity|]. split; [reflexivity|]. split; [|eauto].
    intros _. unfold not_cancelled. destruct Hst as [-> | ->]; done.
  - destruct (cancel_application_effect json_dumps a reason w)
      as (d & w' & Hrun & [(_ & _ & ->) | (_ & r & notes & t & det & tl & Hr & Happs & _)]);
      rewrite Hrun; simpl; [done|].
    rewrite Happs. apply consistent_alter; [done|]. intros r' Hr'.
    rewrite !updated_row_pair by auto. rewrite updated_row_status by done.
    split; [reflexivity|]. split; [reflexivity|]. split; [|eauto].
    unfold not_cancelled. rewrite updated_row_status by done. intros Hn. by destruct Hn.
Qed.

Lemma run_calls_consistent cs : forall w,
  consistent (applications w) ->
  consistent (applications (run_calls json_dumps MIN_ATS_SCORE cs w)).
Proof.
  induction cs as [|c cs IH]; intros w Hc; simpl; [done|].
  apply IH. by apply run_call_consistent.
Qed.

End ApplyAgentInvariant.

Section DuplicateGuard.
Import Database ApplyAgent.

Variable json_dumps : pyval -> string.
Variable MIN_ATS_SCORE : Z.

(** With a record of the pair that is not cancelled in a consistent
    table, [prepare_application] past the score gate returns the duplicate
    error for that record and writes nothing. *)
Lemma prepare_application_duplicate rid jid tt cl s rep f w a r :
  below_minimum MIN_ATS_SCORE s f = false ->
  is_Some (select_by_id (resumes w) rid) ->
  is_Some (select_by_id (jobs w) jid) ->
  consistent (applications w) ->
  rows (applications w) !! a = Some r ->
  matches rid jid r = true ->
  prepare_application json_dumps MIN_ATS_SCORE rid jid tt cl s rep f w
  = (Ok (duplicate_error (<["id" := Int a]> r)), w).
Proof.
  intros Hgate [resume Hres] [job Hjob] [Hone _] Hr Hm.
  unfold prepare_application. rewrite Hgate.
  unfold bind at 1. unfold get_resume at 1. rewrite Hres.
  unfold bind at 1. unfold get_job at 1. rewrite Hjob.
  unfold bind at 1.
  assert (exists o, find_application rid jid w = (Ok o, w)) as [o Hfind]
    by (eexists; reflexivity).
  pose proof (find_application_Some rid jid w) as HSome.
  pose proof (find_application_None rid jid w) as HNone.
  rewrite Hfind in HSome, HNone |- *. simpl in HSome, HNone.
  destruct o as [ex|].
  2:{ rewrite (HNone a r eq_refl Hr) in Hm. done. }
  destruct (HSome ex eq_refl) as (i & r' & Hr' & Hm' & ->).
  assert (i = a) as ->.
  { apply (Hone i a r' r); eauto using matches_not_cancelled.
    - apply matches_spec in Hm as (-> & _). by apply matches_spec in Hm' as (-> & _).
    - apply matches_spec in Hm as (_ & -> & _). by apply matches_spec in Hm' as (_ & -> & _). }
  assert (r' = r) as -> by congruence.
  rewrite (matches_status_not_cancelled _ _ _ _ Hm).
  reflexivity.
Qed.

(** A record of the pair that is not cancelled stays so under every call
    that does not cancel it, and resumes and jobs are never written. *)
Lemma run_call_keeps_active c w a r rid jid :
  cancels a c = false ->
  rows (applications w) !! a = Some r -> matches rid jid r = true ->
  let w' := (run_call json_dumps MIN_ATS_SCORE c w).2 in
  (exists r', rows (applications w') !! a = Some r' /\ matches rid jid r' = true) /\
  resumes w' = resumes w /\ jobs w' = jobs w.
Proof.
  intros Hc Hr Hm.
  destruct c as [rid' jid' tt cl s rep f | a' | a' reason]; simpl.
  - destruct (prepare_application_effect json_dumps MIN_ATS_SCORE rid' jid' tt cl s rep f w)
      as (d & w' & Hrun & [(_ & _ & ->) | (_ & _ & _ & _ & _ & _ & new & det & t & Happs & _ & _ & _ & _ & Hres & Hjob & _)]);
      rewrite Hrun; simpl; [eauto|].
    split; [|done]. exists r. split; [|done]. rewrite Happs. simpl.
    rewrite lookup_insert_ne; [done|].
    intros Heq. rewrite <- Heq, next_id_fresh in Hr. done.
  - destruct (confirm_apply_effect json_dumps a' w)
      as (d & w' & Hrun & [(_ & _ & ->) | (_ & r0 & t & det & tl & Hr0 & Hst & Happs & _ & Hres & Hjob & _)]);
      rewrite Hrun; simpl; [eauto|].
    split; [|done]. rewrite Happs. simpl.
    destruct (decide (a' = a)) as [->|Hne].
    + rewrite lookup_alter_eq, Hr. simpl. eexists. split; [reflexivity|].
      apply matches_spec in Hm as (Hri & Hji & _).
      apply (active_matches _ rid jid "submitted").
      * by apply updated_row_status.
      * unfold not_cancelled. by rewrite updated_row_status.
      * by rewrite updated_row_pair by auto.
      * by rewrite updated_row_pair by auto.
    + rewrite lookup_alter_ne by done. eauto.
  - destruct (cancel_application_effect json_dumps a' reason w)
      as (d & w' & Hrun & [(_ & _ & ->) | (_ & r0 & notes & t & det & tl & Hr0 & Happs & _ & Hres & Hjob & _)]);
      rewrite Hrun; simpl; [eauto|].
    split; [|done]. rewrite Happs. simpl.
    simpl in Hc. apply bool_decide_eq_false in Hc.
    rewrite lookup_alter_ne by done. eauto.
Qed.

Lemma run_calls_keep_active cs a rid jid : forall w r,
  Forall (fun c => cancels a c = false) cs ->
  rows (applications w) !! a = Some r -> matches rid jid r = true ->
  let w' := run_calls json_dumps MIN_ATS_SCORE cs w in
  (exists r', rows (applications w') !! a = Some r' /\ matches rid jid r' = true) /\
  resumes w' = resumes w /\ jobs w' = jobs w.
Proof.
  induction cs as [|c cs IH]; intros w r Hcs Hr Hm; simpl; [eauto|].
  inversion Hcs as [|? ? Hc Hcs']; subst.
  destruct (run_call_keeps_active c w a r rid jid Hc Hr Hm)
    as ((r1 & Hr1 & Hm1) & Hres & Hjob).
  destruct (IH _ r1 Hcs' Hr1 Hm1) as (Hex & Hres' & Hjob').
  split; [exact Hex|]. split; congruence.
Qed.

End DuplicateGuard.

(** C3, as the code has it.  In every database state the agent reaches
    from an empty application table, two records that are not cancelled and
    belong to the same resume and job are the same record.  And when
    [prepare_application] has created the record [a] for a pair, then after
    any further calls of the agent that do not cancel [a], preparing the
    same pair again creates no second record: the call leaves the world as
    it is.  What it returns depends on the score gate, which is checked
    first: past the gate (no score, a score of at least [MIN_ATS_SCORE], or
    [force]) it is the duplicate error that carries the id [a] and the
    status the record has; below the minimum without [force] it is the
    score error, which names no record. *)
Theorem one_active_application_per_pair
    (json_dumps : Database.pyval -> string) (MIN_ATS_SCORE : Z)
    (w0 : Database.world) (cs : list ApplyAgent.call) :
  Database.rows (Database.applications w0) = ∅ ->
  let w := ApplyAgent.run_calls json_dumps MIN_ATS_SCORE cs w0 in
  ApplyAgent.one_active_per_pair (Database.applications w) /\
  forall rid jid tt cl s rep f d w1 a,
    ApplyAgent.prepare_application json_dumps MIN_ATS_SCORE rid jid tt cl s rep f w
    = (Database.Ok d, w1) ->
    Database.dict_get d "application_id" = Some (Database.PInt a) ->
    forall cs' tt' cl' s' rep' f',
      Forall (fun c => ApplyAgent.cancels a c = false) cs' ->
      let w2 := ApplyAgent.run_calls json_dumps MIN_ATS_SCORE cs' w1 in
      let again :=
        ApplyAgent.prepare_application json_dumps MIN_ATS_SCORE
          rid jid tt' cl' s' rep' f' w2 in
      exists r st,
        Database.rows (Database.applications w2) !! a = Some r /\
        r !! "status" = Some (Database.Text st) /\
        again.2 = w2 /\
        (ApplyAgent.below_minimum MIN_ATS_SCORE s' f' = false ->
         again.1
         = Database.Ok
             [("error",
               Database.PStr
                 "An application already exists for this resume + job combination.");
              ("existing_application",
               Database.PDict
                 [("app_id", Database.PInt a);
                  ("status", Database.PStr st);
                  ("created_at", Database.of_sql (Database.col r "created_at"))]);
              ("suggestion",
               Database.PStr "Use the existing application or cancel it first.")]) /\
        (ApplyAgent.below_minimum MIN_ATS_SCORE s' f' = true ->
         exists n,
           s' = Some n /\ n < MIN_ATS_SCORE /\ f' = false /\
           again.1
           = Database.Ok
               [("error",
                 Database.PStr ("ATS score " +:+ pretty n
                                +:+ "/100 is below the minimum threshold ("
                                +:+ pretty MIN_ATS_SCORE +:+ ")."));
                ("suggestion",
                 Database.PStr
                   ("Tailor your resume first to improve ATS compatibility, "
                    +:+ "or pass force=True to override this check."));
                ("ats_score", Database.PInt n);
                ("min_required", Database.PInt MIN_ATS_SCORE)]).
Proof.
  intros Hempty w.
  assert (ApplyAgent.consistent (Database.applications w)) as Hw.
  { apply run_calls_consistent. destruct (Database.applications w0) as [rws sq].
    simpl in Hempty. subst rws. apply consistent_empty. }
  split; [apply Hw|].
  intros rid jid tt cl s rep f d w1 a Hrun Hid cs' tt' cl' s' rep' f' Hcs' w2 again.
  destruct (prepare_application_effect json_dumps MIN_ATS_SCORE rid jid tt cl s rep f w)
    as (d0 & w1' & Hrun' & Heff).
  rewrite Hrun in Hrun'. injection Hrun' as <- <-.
  destruct Heff as [(_ & Hno & _) | (_ & Hid' & Hnone & _ & Hres & Hjob & new & det & t
                                     & Happs & Hs & Hr & Hj & _ & Hres1 & Hjob1 & _)].
  { rewrite Hno in Hid. discriminate Hid. }
  rewrite Hid in Hid'. injection Hid' as ->.
  assert (exists s0, new !! "status" = Some (Database.Text s0)) as [s0 Hs0] by eauto.
  assert (Database.matches rid jid new = true) as Hm.
  { apply (active_matches new rid jid "draft"); try done.
    unfold ApplyAgent.not_cancelled. by rewrite Hs. }
  assert (Database.rows (Database.applications w1)
          !! Database.next_id (Database.applications w) = Some new) as Hnew.
  { rewrite Happs. simpl. apply lookup_insert_eq. }
  destruct (run_calls_keep_active json_dumps MIN_ATS_SCORE cs'
              (Database.next_id (Database.applications w)) rid jid w1 new
              Hcs' Hnew Hm) as ((r & Hr2 & Hm2) & Hres2 & Hjob2).
  fold w2 in Hr2, Hres2, Hjob2.
  assert (ApplyAgent.consistent (Database.applications w2)) as Hw2.
  { apply run_calls_consistent.
    pose proof (run_call_consistent json_dumps MIN_ATS_SCORE
                  (ApplyAgent.Prepare rid jid tt cl s rep f) w Hw) as H1.
    simpl in H1. by rewrite Hrun in H1. }
  destruct (proj2 Hw2 _ _ Hr2) as [st Hst].
  exists r, st. split; [exact Hr2|]. split; [exact Hst|].
  subst again.
  destruct (ApplyAgent.below_minimum MIN_ATS_SCORE s' f') eqn:Hgate.
  - assert (exists n, s' = Some n /\ n < MIN_ATS_SCORE /\ f' = false)
      as (n & -> & Hn & ->).
    { unfold ApplyAgent.below_minimum in Hgate. destruct s' as [n|]; [|done].
      apply andb_true_iff in Hgate as [Hlt Hf]. exists n.
      split; [done|]. split; [by apply Z.ltb_lt|]. by destruct f'. }
    unfold ApplyAgent.prepare_application. rewrite Hgate.
    split; [reflexivity|]. split; [done|]. intros _. exists n. done.
  - rewrite (prepare_application_duplicate json_dumps MIN_ATS_SCORE rid jid tt' cl' s' rep' f'
               w2 (Database.next_id (Database.applications w)) r Hgate); try done.
    + split; [reflexivity|]. split; [|done]. intros _. simpl.
      unfold ApplyAgent.duplicate_error, Database.col.
      rewrite lookup_insert_eq, !lookup_insert_ne by done. rewrite Hst. reflexivity.
    + rewrite Hres2, Hres1. exact Hres.
    + rewrite Hjob2, Hjob1. exact Hjob.
Qed.

Lemma one_active_application_per_pair_witness :
  let prepare s :=
    ApplyAgent.prepare_application Demo.dumps_keys 60 1 1 None None (Some s) None false in
  let w1 := (prepare 80 Demo.world0).2 in
  exists r st,
    Database.rows (Database.applications w1) !! 1 = Some r /\
    r !! "status" = Some (Database.Text st) /\
    (prepare 80 w1).2 = w1 /\
    (prepare 80 w1).1
    = Database.Ok
        [("error",
          Database.PStr
            "An application already exists for this resume + job combination.");
         ("existing_application",
          Database.PDict
            [("app_id", Database.PInt 1);
             ("status", Database.PStr st);
             ("created_at", Database.of_sql (Database.col r "created_at"))]);
         ("suggestion",
          Database.PStr "Use the existing application or cancel it first.")].
Proof.
  intros prepare w1.
  destruct (one_active_application_per_pair Demo.dumps_keys 60 Demo.world0 []
              eq_refl) as [_ H].
  edestruct (H 1 1 None None (Some 80) None false _ w1 1 eq_refl eq_refl
               [] None None (Some 80) None false)
    as (r & st & Hr & Hst & Hw & Hdup & _); [constructor|].
  exists r, st. split; [exact Hr|]. split; [exact Hst|].
  split; [exact Hw|]. exact (Hdup eq_refl).
Defined.

(** C3 as stated fails: the second [prepare_application] for a pair does
    not always return the duplicate error.  With a score of 40 against a
    minimum of 60 it returns the score error, which carries neither the id
    nor the status of the record that exists. *)
Lemma second_prepare_below_minimum :
  let w1 :=
    (ApplyAgent.prepare_application Demo.dumps_keys 60 1 1 None None (Some 80) None
       false Demo.world0).2 in
  is_Some (Database.rows (Database.applications w1) !! 1) /\
  ApplyAgent.prepare_application Demo.dumps_keys 60 1 1 None None (Some 40) None
    false w1
  = (Database.Ok
       [("error",
         Database.PStr "ATS score 40/100 is below the minimum threshold (60).");
        ("suggestion",
         Database.PStr
           "Tailor your resume first to improve ATS compatibility, or pass force=True to override this check.");
        ("ats_score", Database.PInt 40);
        ("min_required", Database.PInt 60)],
     w1).
Proof.
  cbv zeta. split.
  - assert (Database.rows
              (Database.applications
                 (ApplyAgent.prepare_application Demo.dumps_keys 60 1 1 None None
                    (Some 80) None false Demo.world0).2) !! 1
            = Some (Database.application_cols Demo.dumps_keys 1 1 (Some 80) None "t0"))
      as -> by by_evaluation.
    by eexists.
  - reflexivity.
Qed.

Lemma confirm_apply_state_gate_witness :
  ApplyAgent.confirm_apply Demo.dumps_keys 2 Demo.world1
  = (Database.Ok
       [("error",
         Database.PStr "Application 2 is in 'cancelled' state — cannot submit");
        ("suggestion",
         Database.PStr "Only 'draft' or 'ready' applications can be submitted")],
     Demo.world1) /\
  exists w',
    ApplyAgent.confirm_apply Demo.dumps_keys 1 Demo.world1
    = (Database.Ok
         [("application_id", Database.PInt 1);
          ("status", Database.PStr "submitted");
          ("applied_at", Database.PStr "t0");
          ("message", Database.PStr "Application marked as submitted! Good luck! 🎯")],
       w').
Proof.
  split.
  - refine (proj1 (confirm_apply_state_gate Demo.dumps_keys 2 Demo.world1 _ eq_refl) _ _);
      discriminate.
  - destruct (proj2 (confirm_apply_state_gate Demo.dumps_keys 1 Demo.world1 _ eq_refl)
                (or_introl eq_refl)) as (w' & Hrun & _).
    exists w'. exact Hrun.
Defined.



Section WhitelistFacts.
Import Database.

Variable json_dumps : pyval -> string.

(** The pair of a record is not in the whitelist. *)
Lemma whitelist_keeps_pair (kwargs : pydict) c :
  Forall (fun k => k ∈ _APPLICATION_UPDATABLE_COLUMNS) kwargs.*1 ->
  c = "resume_id" \/ c = "job_id" ->
  (c ∉ kwargs.*1) /\ c <> "updated_at".
Proof.
  intros Hok Hc. split; [|by destruct Hc as [-> | ->]].
  intros Hin. rewrite Forall_forall in Hok. specialize (Hok _ Hin).
  unfold _APPLICATION_UPDATABLE_COLUMNS in Hok.
  rewrite !elem_of_cons, elem_of_nil in Hok.
  destruct Hc as [-> | ->]; intuition discriminate.
Qed.

(** When the [UPDATE] of [update_application] fails on the index: the
    record was outside the index, is inside it after the update, and another
    record of its resume and job is inside it. *)
Lemma update_fails_spec app_id (kwargs : pydict) t (apps : table) :
  Forall (fun k => k ∈ _APPLICATION_UPDATABLE_COLUMNS) kwargs.*1 ->
  update_fails json_dumps app_id kwargs t apps = true <->
  exists old other o,
    rows apps !! app_id = Some old /\
    sql_not_cancelled old = false /\
    sql_not_cancelled (updated_row json_dumps kwargs t old) = true /\
    other <> app_id /\ rows apps !! other = Some o /\
    sql_not_cancelled o = true /\
    col o "resume_id" = col old "resume_id" /\
    col o "job_id" = col old "job_id" /\
    col old "resume_id" <> Null /\ col old "job_id" <> Null.
Proof.
  intros Hok. unfold update_fails.
  destruct (rows apps !! app_id) as [old|] eqn:Hold.
  2:{ split; [done|]. intros (? & ? & ? & ? & _). done. }
  set (new := updated_row json_dumps kwargs t old).
  assert (col new "resume_id" = col old "resume_id") as Hr.
  { unfold col, new. rewrite updated_row_other; [done| |];
      by apply (whitelist_keeps_pair kwargs "resume_id"); auto. }
  assert (col new "job_id" = col old "job_id") as Hj.
  { unfold col, new. rewrite updated_row_other; [done| |];
      by apply (whitelist_keeps_pair kwargs "job_id"); auto. }
  unfold breaks_index, idx_app_resume_job. simpl. rewrite Hr, Hj.
  destruct (sql_not_cancelled new) eqn:Hnew.
  2:{ split; [done|]. intros (? & ? & ? & [= <-] & _ & ? & _).
      subst new. congruence. }
  destruct (sql_not_cancelled old) eqn:Hact.
  { rewrite bool_decide_eq_true_2 by done. split; [done|].
    intros (? & ? & ? & [= <-] & ? & _). congruence. }
  rewrite bool_decide_eq_false_2 by done. rewrite taken_spec. split.
  - intros (j & r & Hne & Hrow & Hk & H1 & H2).
    unfold idx_app_resume_job in Hk.
    destruct (sql_not_cancelled r) eqn:Hr'; [|done]. injection Hk as Hk1 Hk2.
    exists old, j, r. repeat split; try done.
  - intros (old' & j & r & [= <-] & _ & _ & Hne & Hrow & Hr' & Hk1 & Hk2 & H1 & H2).
    exists j, r. repeat split; try done.
    unfold idx_app_resume_job. by rewrite Hr', Hk1, Hk2.
Qed.

End WhitelistFacts.

(** C5, as the code has it.  [update_application] accepts the eight
    columns of the whitelist and no other.  With every key of [kwargs] in
    the whitelist (and parameters the driver can bind) it never raises
    [ValueError]: it returns [None], unless the [UPDATE] fails on the unique
    index of the active records, and then it raises
    [sqlite3.IntegrityError] and leaves every table as it was.  The index
    fails the [UPDATE] exactly when the record was outside it ('cancelled',
    or no status), is inside it with its new status, and another record of
    the same resume and job is inside it; so never when [status] is not
    among the keys.  With a key outside the whitelist the call raises
    [ValueError], which names the keys that are not allowed and the sorted
    whitelist, and the world is as it was: no row is written and not even
    the clock is read. *)
Theorem update_application_whitelist
    (json_dumps : Database.pyval -> string) (app_id : Z)
    (kwargs : Database.pydict) (w : Database.world) :
  (Forall (fun k => k ∈ Database._APPLICATION_UPDATABLE_COLUMNS) kwargs.*1 ->
   Database.int64 app_id -> Forall Database.bindable kwargs.*2 ->
   let t := Database.clock w (Database.ticks w) in
   let apps := Database.applications w in
   (exists w',
      Database.update_application json_dumps app_id kwargs w
      = (if Database.update_fails json_dumps app_id kwargs t apps
         then Database.Raise
                (Database.IntegrityError
                   "UNIQUE constraint failed: applications.resume_id, applications.job_id")
         else Database.Ok Database.PNone,
         w') /\
      (Database.update_fails json_dumps app_id kwargs t apps = true ->
       Database.resumes w' = Database.resumes w /\
       Database.jobs w' = Database.jobs w /\
       Database.applications w' = Database.applications w /\
       Database.action_log w' = Database.action_log w)) /\
   (Database.update_fails json_dumps app_id kwargs t apps = true <->
    exists old other o,
      Database.rows apps !! app_id = Some old /\
      Database.sql_not_cancelled old = false /\
      Database.sql_not_cancelled (Database.updated_row json_dumps kwargs t old) = true /\
      other <> app_id /\ Database.rows apps !! other = Some o /\
      Database.sql_not_cancelled o = true /\
      Database.col o "resume_id" = Database.col old "resume_id" /\
      Database.col o "job_id" = Database.col old "job_id" /\
      Database.col old "resume_id" <> Database.Null /\
      Database.col old "job_id" <> Database.Null) /\
   ("status" ∉ kwargs.*1 ->
    Database.update_fails json_dumps app_id kwargs t apps = false)) /\
  (forall k, k ∈ kwargs.*1 -> k ∉ Database._APPLICATION_UPDATABLE_COLUMNS ->
   exists invalid,
     k ∈ invalid /\
     (forall k', k' ∈ invalid <->
                 k' ∈ kwargs.*1 /\ k' ∉ Database._APPLICATION_UPDATABLE_COLUMNS) /\
     Database.update_application json_dumps app_id kwargs w
     = (Database.Raise
          (Database.ValueError invalid
             ["applied_at"; "ats_report"; "ats_score"; "cover_letter";
              "notes"; "platform"; "status"; "tailored_text"]),
        w)).
Proof.
  split.
  - intros Hok _ _ t apps.
    assert ("status" ∉ kwargs.*1 ->
            Database.update_fails json_dumps app_id kwargs t apps = false) as Hst.
    { intros Hs. apply update_fails_other; [done| |];
        by apply (whitelist_keeps_pair kwargs); auto. }
    split; [|split; [by apply update_fails_spec|exact Hst]].
    destruct w as [res jbs tbl log clk tk], kwargs as [|kv kwargs].
    + rewrite Hst by (simpl; apply not_elem_of_nil). eexists. split; [reflexivity|done].
    + subst t apps. cbn [Database.clock Database.ticks Database.applications].
      destruct (Database.update_fails json_dumps app_id (kv :: kwargs) (clk tk) tbl)
        eqn:Hf; eexists.
      * split; [by apply update_application_fails|]. done.
      * split; [by apply update_application_run|]. done.
  - intros k Hin Hout. eexists. split; [|split].
    3:{ by apply (update_application_invalid json_dumps app_id kwargs w k). }
    + by apply list_elem_of_filter.
    + intros k'. rewrite list_elem_of_filter. tauto.
Qed.

Lemma update_application_whitelist_witness :
  let w := ApplyAgent.run_calls Demo.dumps_keys 60
             [ApplyAgent.Prepare 1 1 None None (Some 80) None false;
              ApplyAgent.Cancel 1 "";
              ApplyAgent.Prepare 1 1 None None (Some 80) None false] Demo.world0 in
  (exists w',
     Database.update_application Demo.dumps_keys 1
       [("status", Database.PStr "draft")] w
     = (Database.Raise
          (Database.IntegrityError
             "UNIQUE constraint failed: applications.resume_id, applications.job_id"),
        w')) /\
  (exists w',
     Database.update_application Demo.dumps_keys 2
       [("status", Database.PStr "ready"); ("notes", Database.PStr "call back")] w
     = (Database.Ok Database.PNone, w')).
Proof.
  cbv zeta.
  set (w := ApplyAgent.run_calls Demo.dumps_keys 60 _ Demo.world0).
  split.
  - destruct (proj1 (update_application_whitelist Demo.dumps_keys 1
                       [("status", Database.PStr "draft")] w))
      as ((w' & Hrun & _) & _).
    + repeat constructor.
    + unfold Database.int64. lia.
    + repeat constructor.
    + exists w'. rewrite Hrun. by_evaluation.
  - destruct (proj1 (update_application_whitelist Demo.dumps_keys 2
                       [("status", Database.PStr "ready");
                        ("notes", Database.PStr "call back")] w))
      as ((w' & Hrun & _) & _).
    + repeat constructor.
    + unfold Database.int64. lia.
    + repeat constructor.
    + exists w'. rewrite Hrun. by_evaluation.
Defined.

(** C5 as stated fails: the rejection is an exception, not an error
    payload with a suggestion. *)
Lemma update_application_raises :
  Database.update_application Demo.dumps_keys 1
    [("status", Database.PStr "ready"); ("id", Database.PInt 7)] Demo.world1
  = (Database.Raise
       (Database.ValueError ["id"]
          ["applied_at"; "ats_report"; "ats_score"; "cover_letter";
           "notes"; "platform"; "status"; "tailored_text"]),
     Demo.world1).
Proof. vm_compute. reflexivity. Qed.

(** ** Layer 2: keywords *)

Section KeywordScorerFacts.
Import KeywordScorer.

Lemma round_div_bounds n d k :
  0 < d -> 0 <= n <= k * d -> 0 <= round_div n d <= k.
Proof.
  intros Hd Hn. unfold round_div.
  pose proof (Z.div_mod n d ltac:(lia)) as Hdm.
  pose proof (Z.mod_pos_bound n d Hd) as Hr.
  assert (0 <= n / d) by (apply Z.div_pos; lia).
  assert (n / d <= k) by (apply Z.div_le_upper_bound; lia).
  destruct (2 * (n mod d) <? d) eqn:E1; [lia|].
  apply Z.ltb_ge in E1.
  assert (n / d < k) by nia.
  destruct (d <? 2 * (n mod d)); [lia|]. destruct (Z.even (n / d)); lia.
Qed.

(** [round_div n d] is an integer nearest to [n / d]. *)
Lemma round_div_nearest n d :
  0 < d -> 2 * Z.abs (round_div n d * d - n) <= d.
Proof.
  intros Hd. unfold round_div.
  pose proof (Z.div_mod n d ltac:(lia)) as Hdm.
  pose proof (Z.mod_pos_bound n d Hd) as Hr.
  destruct (2 * (n mod d) <? d) eqn:E1;
    [apply Z.ltb_lt in E1; nia | apply Z.ltb_ge in E1].
  destruct (d <? 2 * (n mod d)) eqn:E2;
    [apply Z.ltb_lt in E2; nia | apply Z.ltb_ge in E2].
  destruct (Z.even (n / d)); nia.
Qed.

Lemma classify_lengths (hard inferred all : list string) :
  let '(m, i, x) := classify hard inferred all in
  (length m + length i + length x = length all)%nat.
Proof.
  unfold classify. induction all as [|k all IH]; [done|].
  rewrite !filter_cons.
  destruct (mem k hard) eqn:Hh, (mem k inferred) eqn:Hi;
    repeat (destruct (decide _) as [?|?]; try (exfalso; intuition congruence));
    simpl; lia.
Qed.

Lemma match_pct_range (matched total : nat) :
  (matched <= total)%nat -> (0 <= match_pct matched total <= 100)%Q.
Proof.
  intros Hle. unfold match_pct. destruct total as [|t]; [split; discriminate|].
  pose proof (round_div_bounds (Z.of_nat matched * 1000) (Z.of_nat (S t)) 1000
                ltac:(lia) ltac:(lia)) as [H0 H1].
  split; unfold Qle; simpl; lia.
Qed.

End KeywordScorerFacts.

(** C8.  The match percentage of [KeywordScorer.score].  It lies in
    [0, 100]; it is the number of matched JD keywords (the exact matches
    and the inferred ones, the code's [total_matched]) over the number of
    JD keywords, times 100, rounded to one decimal: a number of tenths
    nearest to the quotient; the JD keywords counted are the distinct
    lower-cased entries of the four JD lists; and with no JD keyword the
    percentage is 0, the division not being made. *)
Theorem match_percentage_bounds
    (format_percent : Q -> string) (list_of_set : list string -> list string)
    (jd : KeywordScorer.jd_extract) (resume : KeywordScorer.resume_extract)
    (resume_text : string) (resume_sections : option KeywordScorer.sections) :
  let r := KeywordScorer.score_resume format_percent list_of_set jd resume
             resume_text resume_sections in
  let jd_lists :=
    map PyStr.lower (KeywordScorer.required_hard_skills jd)
    ++ map PyStr.lower (KeywordScorer.preferred_hard_skills jd)
    ++ map PyStr.lower (KeywordScorer.domain_keywords jd)
    ++ map PyStr.lower (KeywordScorer.tools_and_frameworks jd) in
  let tm := KeywordScorer.total_matched r in
  let tj := KeywordScorer.total_jd_keywords r in
  (0 <= KeywordScorer.match_percentage r <= 100)%Q /\
  tm = (length (KeywordScorer.matched_keywords r)
        + length (KeywordScorer.inferred_matches r))%nat /\
  tj = length (list_of_set jd_lists) /\
  ((forall l, list_of_set l ≡ₚ remove_dups l) -> tj = length (remove_dups jd_lists)) /\
  (tj = 0%nat -> KeywordScorer.match_percentage r = 0%Q) /\
  ((0 < tj)%nat ->
   exists tenths : Z,
     KeywordScorer.match_percentage r = tenths # 10 /\
     2 * Z.abs (tenths * Z.of_nat tj - Z.of_nat tm * 1000) <= Z.of_nat tj).
Proof.
  intros r jd_lists tm tj. subst r tm tj.
  unfold KeywordScorer.score_resume. fold jd_lists.
  pose proof (classify_lengths (map PyStr.lower (KeywordScorer.hard_skills resume))
                (map KeywordScorer.inferred_name (KeywordScorer.inferred_skills resume))
                (list_of_set jd_lists)) as Hlen.
  destruct (KeywordScorer.classify _ _ (list_of_set jd_lists)) as [[m i] x].
  destruct (KeywordScorer._check_density _ _ _) as [di db]. simpl.
  split; [apply match_pct_range; lia|].
  split; [reflexivity|]. split; [reflexivity|].
  split; [intros Hperm; by rewrite (Hperm jd_lists)|].
  split; [by intros ->|].
  intros Hpos. unfold KeywordScorer.match_pct.
  destruct (length (list_of_set jd_lists)) as [|t] eqn:Ht; [lia|].
  eexists. split; [reflexivity|].
  apply round_div_nearest. lia.
Qed.

Lemma match_percentage_bounds_witness :
  let jd := KeywordScorer.JdExtract ["Python"; "SQL"] ["python"; "Docker"] [] [] [] in
  let resume :=
    KeywordScorer.ResumeExtract ["python"]
      [KeywordScorer.InferredDict (Some "Docker")] in
  let r := KeywordScorer.score_resume (fun _ => "") remove_dups jd resume
             "python and docker" None in
  KeywordScorer.match_percentage r = 667 # 10 /\
  KeywordScorer.total_jd_keywords r
  = length (remove_dups ["python"; "sql"; "python"; "docker"]).
Proof.
  intros jd resume r. split; [vm_compute; reflexivity|].
  apply (match_percentage_bounds (fun _ => "") remove_dups jd resume
           "python and docker" None).
  reflexivity.
Defined.

Section DensityFacts.
Import KeywordScorer.

Variable format_percent : Q -> string.

(** The rule [_check_density] applies to one keyword, read off the code:
    a warning exactly above 5%, the bonus exactly for two or more
    occurrences at a density of at most 3% — the lower end of the band,
    [KEYWORD_DENSITY_OPTIMAL_MIN], is not tested. *)
Lemma density_of_keyword_rule resume_text words keyword :
  let kw := PyStr.lower keyword in
  let n := if PyStr.contains " " kw
           then PyStr.count kw (PyStr.lower resume_text)
           else PyStr.occurrences kw words in
  let d := density n (length words) in
  let out := density_of_keyword format_percent resume_text words keyword in
  (out.1 <> [] <-> (0 < n)%nat /\ (KEYWORD_DENSITY_STUFFING < d)%Q) /\
  (out.2 = 1 <-> (2 <= n)%nat /\ (d <= KEYWORD_DENSITY_OPTIMAL_MAX)%Q) /\
  (out.2 = 0 \/ out.2 = 1).
Proof.
  intros kw n d out. subst out. unfold density_of_keyword. fold kw. fold n. fold d.
  assert (Qle_bool d KEYWORD_DENSITY_STUFFING = true
          <-> ~ (KEYWORD_DENSITY_STUFFING < d)%Q) as Hs.
  { rewrite Qle_bool_iff. split; [apply Qle_not_lt|apply Qnot_lt_le]. }
  assert (Qle_bool d KEYWORD_DENSITY_OPTIMAL_MAX = true
          <-> (d <= KEYWORD_DENSITY_OPTIMAL_MAX)%Q) as Ho by apply Qle_bool_iff.
  assert ((d <= KEYWORD_DENSITY_OPTIMAL_MAX)%Q -> ~ (KEYWORD_DENSITY_STUFFING < d)%Q)
    as Hband.
  { intros Hle Hlt. apply (Qlt_not_le _ _ Hlt).
    eapply Qle_trans; [exact Hle|]. discriminate. }
  assert ((KEYWORD_DENSITY_STUFFING < d)%Q \/ ~ (KEYWORD_DENSITY_STUFFING < d)%Q)
    as Hdec.
  { destruct (Qlt_le_dec KEYWORD_DENSITY_STUFFING d) as [?|Hle]; [by left|].
    right. by apply Qle_not_lt. }
  pose proof (Nat.ltb_spec 0 n) as Hn. pose proof (Nat.leb_spec 2 n) as H2.
  destruct Hn as [Hn|Hn], H2 as [H2|H2],
    (Qle_bool d KEYWORD_DENSITY_STUFFING), (Qle_bool d KEYWORD_DENSITY_OPTIMAL_MAX);
    simpl; intuition (try discriminate; try lia; try congruence).
Qed.

End DensityFacts.

(** C7.  The bonus of [_check_density] is not tied to the 1–3% band: a
    keyword that occurs twice in a resume of 250 words, a density of 0.8%
    and so below [KEYWORD_DENSITY_OPTIMAL_MIN], is awarded the point. *)
Theorem density_bonus_below_band :
  let resume_text := PyStr.join " " ("Python" :: "python" :: repeat "work" 248) in
  length (PyStr.split (PyStr.lower resume_text)) = 250%nat /\
  (KeywordScorer.density 2 250 < KeywordScorer.KEYWORD_DENSITY_OPTIMAL_MIN)%Q /\
  KeywordScorer._check_density (fun _ => "") ["python"] resume_text = ([], 1).
Proof. repeat split; vm_compute; reflexivity. Qed.

(** ** Scores of the three layers *)

Section LayerScores.
Import Ats.

Lemma sum_nonneg (l : list Z) :
  Forall (fun z => 0 <= z) l -> 0 <= foldr Z.add 0 l.
Proof. induction 1; simpl; lia. Qed.

Lemma formatter_header_penalty r :
  0 <= (FormatterCheck._check_section_headers r).2.
Proof.
  unfold FormatterCheck._check_section_headers. simpl.
  apply Z.min_glb; [|lia]. apply sum_nonneg.
  apply Forall_map, Forall_map, Forall_forall. intros h _.
  unfold FormatterCheck.header_issue.
  destruct (FormatterCheck.is_standard h); simpl; [lia|].
  destruct (negb _); simpl; lia.
Qed.

Lemma formatter_score_bounded r :
  0 <= score (FormatterCheck.check_resume r) <= 20 /\
  max_score (FormatterCheck.check_resume r) = 20.
Proof.
  unfold FormatterCheck.check_resume.
  destruct (FormatterCheck._check_file_type r);
    [simpl; unfold FormatterCheck.MAX_SCORE; split; [lia|done]|].
  pose proof (formatter_header_penalty r) as Hh.
  destruct (FormatterCheck._check_section_headers r) as [hi hp].
  assert (0 <= (FormatterCheck._check_contact_placement r).2) as Hc
    by (simpl; lia).
  destruct (FormatterCheck._check_contact_placement r) as [ci cp].
  assert (0 <= (FormatterCheck._check_layout r).2) as Hl.
  { unfold FormatterCheck._check_layout. destruct (FormatterCheck._detect_columns _); simpl; lia. }
  destruct (FormatterCheck._check_layout r) as [li lp].
  assert (0 <= (FormatterCheck._check_bullets r).2) as Hb.
  { unfold FormatterCheck._check_bullets. destruct (filter _ _); simpl; lia. }
  destruct (FormatterCheck._check_bullets r) as [bi bp].
  simpl in *. unfold FormatterCheck.MAX_SCORE. split; [lia|done].
Qed.

Lemma density_bonus_range format_percent kws text :
  0 <= (KeywordScorer._check_density format_percent kws text).2 <= 5.
Proof.
  unfold KeywordScorer._check_density.
  destruct (PyStr.split (PyStr.lower text)) as [|w ws]; simpl; [lia|].
  split; [|lia]. apply Z.min_glb; [|lia]. apply sum_nonneg.
  apply Forall_map, Forall_map, Forall_forall. intros k _.
  destruct (density_of_keyword_rule format_percent text (w :: ws) k) as (_ & _ & [H|H]);
    rewrite H; lia.
Qed.

Lemma placement_nonneg kws secs : 0 <= KeywordScorer._score_placement kws secs.
Proof.
  unfold KeywordScorer._score_placement. apply sum_nonneg.
  apply Forall_map, Forall_forall. intros k _.
  repeat (destruct (PyStr.contains _ _)); done.
Qed.

Lemma keyword_score_bounded format_percent list_of_set jd resume text secs :
  let res := KeywordScorer.score_resume format_percent list_of_set jd resume text secs in
  0 <= KeywordScorer.score res <= 60 /\ KeywordScorer.max_score res = 60.
Proof.
  unfold KeywordScorer.score_resume.
  destruct (KeywordScorer.classify _ _ _) as [[m i] x].
  pose proof (density_bonus_range format_percent
                (list_of_set
                   (map PyStr.lower (KeywordScorer.required_hard_skills jd)
                    ++ map PyStr.lower (KeywordScorer.preferred_hard_skills jd)
                    ++ map PyStr.lower (KeywordScorer.domain_keywords jd)
                    ++ map PyStr.lower (KeywordScorer.tools_and_frameworks jd)))
                text) as Hd.
  destruct (KeywordScorer._check_density _ _ _) as [di db]. simpl in Hd |- *.
  split; [|done]. unfold KeywordScorer.MAX_SCORE.
  assert (0 <= match secs with
               | Some (sec :: rest) =>
                   Z.min (KeywordScorer._score_placement
                            (map PyStr.lower (KeywordScorer.required_hard_skills jd))
                            (sec :: rest)) 10
               | _ => 0
               end) as Hp.
  { destruct secs as [[|sec rest]|]; try lia.
    apply Z.min_glb; [apply placement_nonneg|lia]. }
  unfold KeywordScorer.EXACT_MATCH_POINTS, KeywordScorer.INFERRED_MATCH_POINTS,
    KeywordScorer.ACRONYM_BONUS.
  lia.
Qed.

End LayerScores.

Section IntegrityScores.
Import Ats IntegrityCheck.

Variable EMAIL_REGEX PHONE_REGEX_IN PHONE_REGEX_INTL : string -> list string.
Variable DATE_MM_YYYY DATE_MONTH_YYYY DATE_FUZZY : string -> list (string * string).
Variable DATE_BARE_YEAR : string -> list string.
Variable now : nat -> date.
Variable format_years : Q -> string.

Lemma contact_penalty_range text :
  0 <= (_check_contact EMAIL_REGEX PHONE_REGEX_IN PHONE_REGEX_INTL text).2 <= 5.
Proof.
  unfold _check_contact.
  destruct (EMAIL_REGEX text), (PHONE_REGEX_IN text), (PHONE_REGEX_INTL text);
    simpl; lia.
Qed.

Lemma dates_penalty_range text :
  0 <= (_check_dates DATE_MM_YYYY DATE_MONTH_YYYY DATE_FUZZY DATE_BARE_YEAR text).2 <= 1.
Proof.
  unfold _check_dates. destruct (DATE_FUZZY text); simpl; lia.
Qed.

Lemma gaps_penalty_range jobs thr found penalty :
  _check_gaps now jobs thr = Ok (found, penalty) -> 0 <= penalty <= 4.
Proof.
  unfold _check_gaps. destruct (length jobs <? 2)%nat.
  - intros [= <- <-]. lia.
  - destruct (dated_jobs_from now 0 jobs); [|done]. intros [= <- <-]. lia.
Qed.

Lemma experience_penalty_range total required :
  0 <= (_check_experience format_years total required).2 <= 2.
Proof.
  unfold _check_experience. destruct required as [req|]; simpl; [|lia].
  destruct (Qle_bool req total); simpl; [lia|].
  destruct (Qle_bool _ 1); simpl; lia.
Qed.

Lemma education_penalty edu required : (_check_education edu required).2 = 0.
Proof.
  unfold _check_education. destruct required as [[|c req]|]; try done.
  destruct (foldl scan_degree _ edu) as [hl hd].
  destruct (_ <=? hl); [done|]. by destruct (0 <? hl).
Qed.

Lemma integrity_score_bounded raw resume jd thr res :
  check_resume EMAIL_REGEX PHONE_REGEX_IN PHONE_REGEX_INTL DATE_MM_YYYY
    DATE_MONTH_YYYY DATE_FUZZY DATE_BARE_YEAR now format_years raw resume jd thr
  = Ok res ->
  0 <= score res <= 20 /\ max_score res = 20.
Proof.
  unfold check_resume.
  pose proof (contact_penalty_range raw) as Hc.
  destruct (_check_contact _ _ _ raw) as [ci cp].
  pose proof (dates_penalty_range raw) as Hd.
  destruct (_check_dates _ _ _ _ raw) as [di dp].
  pose proof (gaps_penalty_range (job_titles resume) thr) as Hg.
  destruct (_check_gaps now (job_titles resume) thr) as [[gi gp]|]; [|done].
  specialize (Hg gi gp eq_refl).
  assert (0 <= (match jd with
                | Some j =>
                    let '(exp_issues, exp_penalty) :=
                      _check_experience format_years (total_experience_years resume)
                        (experience_required_years j) in
                    let '(edu_issues, edu_penalty) :=
                      _check_education (educations resume) (education_required j) in
                    (exp_issues ++ edu_issues, exp_penalty + edu_penalty)
                | None => ([], 0)
                end).2) as Hj.
  { destruct jd as [j|]; simpl; [|lia].
    pose proof (experience_penalty_range (total_experience_years resume)
                  (experience_required_years j)) as He.
    pose proof (education_penalty (educations resume) (education_required j)) as Hu.
    destruct (_check_experience _ _ _) as [ei ep].
    destruct (_check_education _ _) as [ui up]. simpl in *. lia. }
  destruct (match jd with Some _ => _ | None => _ end) as [ji jp].
  intros [= <-]. simpl in *. unfold MAX_SCORE. split; [lia|done].
Qed.

Lemma dated_jobs_constructible jobs : forall n,
  dates_constructible jobs -> exists l, dated_jobs_from now n jobs = Ok l.
Proof.
  induction jobs as [|j jobs IH]; intros n Hall; simpl; [eauto|].
  inversion Hall as [|? ? [[s Hs] [e He]] Hrest]; subst.
  rewrite Hs, He. destruct (IH (S n) Hrest) as [l ->].
  destruct s; eauto.
Qed.

(** With dates that can be built, [check] returns a result. *)
Lemma integrity_check_returns raw resume jd thr :
  dates_constructible (job_titles resume) ->
  exists res,
    check_resume EMAIL_REGEX PHONE_REGEX_IN PHONE_REGEX_INTL DATE_MM_YYYY
      DATE_MONTH_YYYY DATE_FUZZY DATE_BARE_YEAR now format_years raw resume jd thr
    = Ok res.
Proof.
  intros Hall. unfold check_resume.
  destruct (_check_contact _ _ _ raw) as [ci cp].
  destruct (_check_dates _ _ _ _ raw) as [di dp].
  assert (exists g, _check_gaps now (job_titles resume) thr = Ok g) as [[gi gp] ->].
  { unfold _check_gaps. destruct (length _ <? 2)%nat; [eauto|].
    destruct (dated_jobs_constructible _ 0%nat Hall) as [l ->]. eauto. }
  destruct (match jd with Some _ => _ | None => _ end) as [ji jp]. eauto.
Qed.

End IntegrityScores.

(** C6.  The score of every layer result lies between 0 and the maximum
    of the layer, which is 20 for [FormatterCheck], 60 for [KeywordScorer]
    and 20 for [IntegrityCheck]: the penalties and bonuses are all at least
    0 and the result is clamped.  [FormatterCheck.check] and
    [KeywordScorer.score] return a result for every input;
    [IntegrityCheck.check] returns one whenever the dates of the jobs can
    be built, that is unless a job date names a month outside 1..12 or the
    year 0, for which [datetime] raises. *)
Theorem layer_scores_bounded :
  (forall r : FormatterCheck.resume_data,
     0 <= Ats.score (FormatterCheck.check_resume r) <= 20 /\
     Ats.max_score (FormatterCheck.check_resume r) = 20) /\
  (forall format_percent list_of_set jd resume text secs,
     let res := KeywordScorer.score_resume format_percent list_of_set jd resume
                  text secs in
     0 <= KeywordScorer.score res <= 60 /\ KeywordScorer.max_score res = 60) /\
  (forall email phone_in phone_intl mm_yyyy month_yyyy fuzzy bare_year now
          format_years raw resume jd threshold,
     let run := IntegrityCheck.check_resume email phone_in phone_intl mm_yyyy
                  month_yyyy fuzzy bare_year now format_years raw resume jd
                  threshold in
     (forall res, run = IntegrityCheck.Ok res ->
                  0 <= Ats.score res <= 20 /\ Ats.max_score res = 20) /\
     (IntegrityCheck.dates_constructible (IntegrityCheck.job_titles resume) ->
      exists res, run = IntegrityCheck.Ok res)).
Proof.
  split; [exact formatter_score_bounded|].
  split; [exact keyword_score_bounded|].
  intros. split.
  - intros res. apply integrity_score_bounded.
  - apply integrity_check_returns.
Qed.

Lemma layer_scores_bounded_witness :
  let r := FormatterCheck.ResumeData "txt" [] [] None "plain text" in
  Ats.score (FormatterCheck.check_resume r) = 0 /\
  0 <= Ats.score (FormatterCheck.check_resume r) <= 20.
Proof.
  intros r. split; [reflexivity|].
  apply (proj1 layer_scores_bounded r).
Defined.

(** Worked examples of layer 3, with the regular expressions finding
    nothing and the clock at May 2024. *)
Example integrity_no_contact :
  let resume := IntegrityCheck.ResumeExtract [] 0 [] in
  Ats.score <$>
    (match IntegrityCheck.check_resume (fun _ => []) (fun _ => []) (fun _ => [])
             (fun _ => []) (fun _ => []) (fun _ => []) (fun _ => [])
             (fun _ => IntegrityCheck.Date 2024 5) (fun _ => "")
             "no contact data" resume None 6 with
     | IntegrityCheck.Ok res => Some res
     | IntegrityCheck.ValueError => None
     end)
  = Some 15.
Proof. reflexivity. Qed.

Example integrity_gap_of_a_year :
  let jobs :=
    [IntegrityCheck.Job (Some "Engineer") (Some "B") (Some "01/2023") (Some "present");
     IntegrityCheck.Job (Some "Engineer") (Some "A") (Some "01/2020") (Some "01/2022")] in
  IntegrityCheck._check_gaps (fun _ => IntegrityCheck.Date 2024 5) jobs 6
  = IntegrityCheck.Ok
      ([Ats.Issue "employment_gap" "warning" "12-month gap (Jan 2022 – Jan 2023)"
          (Some "Consider adding context (freelance, education, sabbatical)")
          None None],
       2).
Proof. reflexivity. Qed.

Example integrity_month_13 :
  IntegrityCheck._parse_date_str (Some "13/2020") = IntegrityCheck.ValueError /\
  IntegrityCheck._parse_date_str (Some "March 2021")
  = IntegrityCheck.Ok (Some (IntegrityCheck.Date 2021 3)) /\
  IntegrityCheck._parse_date_str (Some "Present") = IntegrityCheck.Ok None.
Proof. repeat split; reflexivity. Qed.

Example formatter_two_columns :
  let box (l : Z) := Some [("l", l); ("t", 10)] in
  let body :=
    FormatterCheck.NDict [] ""
      [FormatterCheck.NDict [box 72] "a" []; FormatterCheck.NDict [box 72] "b" [];
       FormatterCheck.NDict [box 320] "c" []; FormatterCheck.NDict [box 320] "d" []] in
  let r :=
    FormatterCheck.ResumeData "pdf"
      [FormatterCheck.Header "Work History" (Some "experience") false]
      ["Contact info found in page header"] (Some body) "▪ item" in
  Ats.score (FormatterCheck.check_resume r) = 15.
Proof. vm_compute. reflexivity. Qed.

(** ** The diff viewer *)

Section DiffViewerFacts.

Variable unified_diff :
  list string -> list string -> string -> string -> Z -> list string.
Variable get_opcodes : list string -> list string -> list DiffViewer.opcode.

(** On equal texts [diff] takes its first [return]. *)
Lemma diff_same (x : string) (n : Z) :
  DiffViewer.diff unified_diff get_opcodes x x n
  = (DiffViewer.DiffResult ""
       (DiffViewer.Statistics 0 0 0
          (length (PyStr.splitlines x)) (length (PyStr.splitlines x)))
       [] "No changes detected." false,
     []).
Proof.
  unfold DiffViewer.diff. rewrite String.eqb_refl. reflexivity.
Qed.

(** On different texts [diff] calls [unified_diff] once, then
    [get_opcodes] once, both on the two lists of lines. *)
Lemma diff_calls (a b : string) (n : Z) :
  a <> b ->
  (DiffViewer.diff unified_diff get_opcodes a b n).2
  = [DiffViewer.UnifiedDiff (PyStr.splitlines a) (PyStr.splitlines b)
       "Original Resume" "Tailored Resume" n;
     DiffViewer.GetOpcodes (PyStr.splitlines a) (PyStr.splitlines b)].
Proof.
  intros Hab. unfold DiffViewer.diff.
  destruct (String.eqb a b) eqn:E; [|reflexivity].
  apply String.eqb_eq in E. contradiction.
Qed.

End DiffViewerFacts.

(** With the library given by two functions, what [diff] can return is
    what the function [DiffViewer.diff] computes. *)
Lemma returns_diff_function ud go (a b : string) (n : Z) (r : DiffViewer.diff_result) :
  DiffViewer.returns (fun x y f t k lines => lines = ud x y f t k)
    (fun x y ops => ops = go x y) a b n r <->
  r = (DiffViewer.diff ud go a b n).1.
Proof.
  unfold DiffViewer.diff. split.
  - intros [->|lines ops Hab -> ->].
    + by rewrite String.eqb_refl.
    + by rewrite (proj2 (String.eqb_neq a b) Hab).
  - intros ->. destruct (String.eqb a b) eqn:E.
    + apply String.eqb_eq in E. subst b. by constructor.
    + apply String.eqb_neq in E. simpl.
      by apply (DiffViewer.returns_diff _ _ a b n (ud _ _ _ _ n) (go _ _)).
Qed.

(** C9.  For every text [x], [diff(x, x)] returns [has_changes = False]
    and an empty change list through the identity fast path, without
    running the diff algorithm: whatever [difflib] is, and even when none of
    its calls ever gives an answer, the call returns, and the one dict it
    can return has an empty diff text and zero counts.  On different texts
    a dict is returned only from an answer of [unified_diff] and one of
    [get_opcodes].  And [diff] is deterministic: when [difflib] gives each
    call one answer at most, two runs on the same inputs return the same
    dict. *)
Theorem diff_identity_and_deterministic :
  (forall U G (x : string) (n : Z),
     DiffViewer.returns U G x x n (DiffViewer.no_changes x x) /\
     (forall r, DiffViewer.returns U G x x n r ->
        r = DiffViewer.no_changes x x /\
        DiffViewer.has_changes r = false /\
        DiffViewer.changes r = [] /\
        DiffViewer.diff_text r = "" /\
        DiffViewer.formatted r = "No changes detected." /\
        DiffViewer.additions (DiffViewer.stats r) = 0%nat /\
        DiffViewer.deletions (DiffViewer.stats r) = 0%nat /\
        DiffViewer.total_changes (DiffViewer.stats r) = 0%nat)) /\
  (forall ud go (x : string) (n : Z),
     (DiffViewer.diff ud go x x n).1 = DiffViewer.no_changes x x) /\
  (forall U G (a b : string) (n : Z) r,
     a <> b -> DiffViewer.returns U G a b n r ->
     exists lines ops,
       U (PyStr.splitlines a) (PyStr.splitlines b)
         "Original Resume" "Tailored Resume" n lines /\
       G (PyStr.splitlines a) (PyStr.splitlines b) ops /\
       DiffViewer.diff_text r = PyStr.join "" lines /\
       DiffViewer.changes r
       = flat_map (DiffViewer.change_of (PyStr.splitlines a) (PyStr.splitlines b))
           ops) /\
  (forall (U : list string -> list string -> string -> string -> Z ->
               list string -> Prop)
          (G : list string -> list string -> list DiffViewer.opcode -> Prop),
     (forall x y f t k l1 l2, U x y f t k l1 -> U x y f t k l2 -> l1 = l2) ->
     (forall x y o1 o2, G x y o1 -> G x y o2 -> o1 = o2) ->
     forall (a b : string) (n : Z) r1 r2,
       DiffViewer.returns U G a b n r1 -> DiffViewer.returns U G a b n r2 ->
       r1 = r2).
Proof.
  split; [|split; [|split]].
  - intros U G x n. split; [by constructor|].
    intros r Hr. inversion Hr as [Heq|lines ops Hne]; subst; [|done].
    repeat split.
  - intros ud go x n. unfold DiffViewer.diff. by rewrite String.eqb_refl.
  - intros U G a b n r Hab Hr.
    inversion Hr as [Heq|lines ops Hne HU HG]; subst; [done|].
    exists lines, ops. repeat split; done.
  - intros U G HU HG a b n r1 r2 H1 H2.
    inversion H1 as [Heq1|l1 o1 Hne1 HU1 HG1];
      inversion H2 as [Heq2|l2 o2 Hne2 HU2 HG2]; subst; try done.
    by rewrite (HU _ _ _ _ _ _ _ HU1 HU2), (HG _ _ _ _ HG1 HG2).
Qed.

Lemma diff_identity_and_deterministic_witness :
  let a := "a" +:+ DiffViewer.newline in
  let b := "b" +:+ DiffViewer.newline in
  let U := fun (x y : list string) (f t : string) (k : Z) (lines : list string) =>
             lines = Demo.unified_diff_a_b in
  let G := fun (x y : list string) (ops : list DiffViewer.opcode) =>
             ops = Demo.opcodes_a_b in
  let never_lines := fun (x y : list string) (f t : string) (k : Z)
                         (lines : list string) => False in
  let never_opcodes := fun (x y : list string) (ops : list DiffViewer.opcode) =>
                         False in
  DiffViewer.returns never_lines never_opcodes a a 3 (DiffViewer.no_changes a a) /\
  (forall r, ~ DiffViewer.returns never_lines never_opcodes a b 3 r) /\
  (forall r1 r2, DiffViewer.returns U G a b 3 r1 -> DiffViewer.returns U G a b 3 r2 ->
                 r1 = r2) /\
  DiffViewer.returns U G a b 3
    (DiffViewer.changes_found a b Demo.unified_diff_a_b Demo.opcodes_a_b).
Proof.
  cbv zeta.
  destruct diff_identity_and_deterministic as (Hsame & _ & Hruns & Hdet).
  split; [apply Hsame|]. split; [|split].
  - intros r Hr. apply Hruns in Hr as (lines & _ & [] & _). done.
  - apply Hdet; congruence.
  - by apply DiffViewer.returns_diff.
Defined.

Example diff_one_line_replaced :
  let a := "a" +:+ DiffViewer.newline in
  let b := "b" +:+ DiffViewer.newline in
  let r := DiffViewer.diff (fun _ _ _ _ _ => Demo.unified_diff_a_b)
             (fun _ _ => Demo.opcodes_a_b) a b 3 in
  DiffViewer.stats r.1 = DiffViewer.Statistics 1 1 2 1 1 /\
  DiffViewer.changes r.1
  = [DiffViewer.Change DiffViewer.Replace (1, 1)%nat (1, 1)%nat
       (Some "a") (Some "b") "Lines 1–1 modified"] /\
  DiffViewer.formatted r.1
  = PyStr.join DiffViewer.newline
      ["Found 1 change(s):" +:+ DiffViewer.newline;
       "✏️ Change 1: Lines 1–1 modified";
       "  Original: " +:+ Ats.dq +:+ "a" +:+ Ats.dq;
       "  Modified: " +:+ Ats.dq +:+ "b" +:+ Ats.dq;
       ""].
Proof. vm_compute. repeat split; reflexivity. Qed.

(** ** Layer 1: what a score says *)

Section FormatterValues.
Import Ats FormatterCheck.

Lemma file_type_accepted r :
  _check_file_type r = None <-> file_type r = "pdf" \/ file_type r = "docx".
Proof.
  unfold _check_file_type.
  destruct (String.eqb (file_type r) "pdf") eqn:E1;
    destruct (String.eqb (file_type r) "docx") eqn:E2; simpl.
  - apply String.eqb_eq in E1. tauto.
  - apply String.eqb_eq in E1. tauto.
  - apply String.eqb_eq in E2. tauto.
  - apply String.eqb_neq in E1, E2. split; [done|]. tauto.
Qed.

Lemma header_issue_explained h :
  0 <= (header_issue h).2 /\ ((header_issue h).1 = [] -> (header_issue h).2 = 0).
Proof.
  unfold header_issue. destruct (is_standard h); simpl; [lia|].
  destruct (negb _); simpl; split; (lia || done).
Qed.

Lemma headers_explained (hs : list header) :
  0 <= sum_Z (map snd (map header_issue hs)) /\
  (flat_map fst (map header_issue hs) = [] ->
   sum_Z (map snd (map header_issue hs)) = 0).
Proof.
  induction hs as [|h hs [IH1 IH2]]; simpl; [done|].
  destruct (header_issue_explained h) as [H1 H2].
  unfold sum_Z in *. simpl. split; [lia|].
  intros H. apply app_eq_nil in H as [Ha Hb].
  rewrite (H2 Ha), (IH2 Hb). done.
Qed.

End FormatterValues.

(** X1.  Layer 1 never gives a score between 1 and 11.  A file that is
    neither PDF nor DOCX is a hard block: the score is 0 and the one issue
    is the file-type error, whatever else the resume holds.  For a PDF or
    DOCX the score is at least 12 (at most 3 + 2 + 2 + 1 points are taken
    off).  Every point lost is explained: a result with no issues has the
    full 20 points. *)
Theorem formatter_score_values (r : FormatterCheck.resume_data) :
  let res := FormatterCheck.check_resume r in
  (FormatterCheck.file_type r <> "pdf" /\ FormatterCheck.file_type r <> "docx" ->
   Ats.score res = 0 /\
   exists i, Ats.issues res = [i] /\ Ats.check i = "file_type" /\
             Ats.severity i = "error") /\
  (FormatterCheck.file_type r = "pdf" \/ FormatterCheck.file_type r = "docx" ->
   12 <= Ats.score res <= 20) /\
  (Ats.issues res = [] -> Ats.score res = 20).
Proof.
  intros res. subst res. unfold FormatterCheck.check_resume.
  pose proof (file_type_accepted r) as Hft.
  destruct (FormatterCheck._check_file_type r) as [i|] eqn:Ei.
  - split; [|split].
    + intros _. split; [reflexivity|]. exists i. split; [reflexivity|].
      unfold FormatterCheck._check_file_type in Ei.
      destruct (_ || _); [done|]. by injection Ei as <-.
    + intros H. apply Hft in H. done.
    + simpl. done.
  - assert (FormatterCheck.file_type r = "pdf" \/ FormatterCheck.file_type r = "docx")
      as Hacc by (by apply Hft).
    unfold FormatterCheck._check_section_headers.
    destruct (headers_explained (FormatterCheck.section_headers r)) as [Hh0 Hh1].
    set (hi := flat_map fst _) in *. set (hp := FormatterCheck.sum_Z _) in *.
    unfold FormatterCheck._check_contact_placement.
    set (hits := filter _ (FormatterCheck.metadata_warnings r)).
    unfold FormatterCheck._check_layout, FormatterCheck._check_bullets.
    destruct (FormatterCheck._detect_columns _);
      destruct (filter _ FormatterCheck.PROBLEMATIC_BULLETS) as [|b bs];
      cbn -[Z.min Z.max FormatterCheck.MAX_SCORE];
      unfold FormatterCheck.MAX_SCORE;
      (split; [intros [H1 H2]; destruct Hacc; done|]);
      (split; [intros _; lia|]); intros Hnil.
    all: try (apply app_eq_nil in Hnil as [_ Hnil];
              apply app_eq_nil in Hnil as [_ Hnil]; done).
    all: try (apply app_eq_nil in Hnil as [_ Hnil];
              apply app_eq_nil in Hnil as [_ Hnil];
              apply app_eq_nil in Hnil as [_ Hnil]; done).
    apply app_eq_nil in Hnil as [Hhi Hnil].
    apply app_eq_nil in Hnil as [Hci _].
    apply fmap_nil_inv in Hci. rewrite Hci. simpl.
    rewrite (Hh1 Hhi). lia.
Qed.

Lemma formatter_score_values_witness :
  let r := FormatterCheck.ResumeData "docx"
             [FormatterCheck.Header "Experience" (Some "experience") true]
             [] None "- built things" in
  12 <= Ats.score (FormatterCheck.check_resume r) <= 20 /\
  Ats.score (FormatterCheck.check_resume r) = 20.
Proof.
  cbv zeta. split.
  - apply formatter_score_values. by right.
  - apply formatter_score_values. reflexivity.
Defined.

(** ** Layer 3: what a score says, and when the check raises *)

Section IntegrityValues.
Import Ats IntegrityCheck.

Variable EMAIL_REGEX PHONE_REGEX_IN PHONE_REGEX_INTL : string -> list string.
Variable DATE_MM_YYYY DATE_MONTH_YYYY DATE_FUZZY : string -> list (string * string).
Variable DATE_BARE_YEAR : string -> list string.
Variable now : nat -> date.
Variable format_years : Q -> string.

(** The loop over the jobs returns only when every date can be built. *)
Lemma dated_jobs_returned jobs : forall n l,
  dated_jobs_from now n jobs = Ok l -> dates_constructible jobs.
Proof.
  unfold dates_constructible, parses.
  induction jobs as [|j jobs IH]; intros n l; simpl; [constructor|].
  destruct (_parse_date_str (start_date j)) as [s|] eqn:Es; [|done].
  destruct (_parse_date_str (end_date j)) as [e|] eqn:Ee; [|done].
  destruct (dated_jobs_from now (S n) jobs) as [rest|] eqn:Er; [|done].
  intros _. constructor; [split; eauto|]. by eapply IH.
Qed.

Lemma check_gaps_returns jobs thr :
  (exists g, _check_gaps now jobs thr = Ok g) <->
  (length jobs < 2)%nat \/ dates_constructible jobs.
Proof.
  unfold _check_gaps. destruct (length jobs <? 2)%nat eqn:El.
  - apply Nat.ltb_lt in El. split; eauto.
  - apply Nat.ltb_ge in El. split.
    + intros [g Hg]. right.
      destruct (dated_jobs_from now 0 jobs) as [l|] eqn:Ed; [|done].
      by eapply dated_jobs_returned.
    + intros [H|H]; [lia|].
      destruct (dated_jobs_constructible now jobs 0%nat H) as [l ->]. eauto.
Qed.

Lemma check_returns_iff_gaps raw resume jd thr :
  (exists res,
     check_resume EMAIL_REGEX PHONE_REGEX_IN PHONE_REGEX_INTL DATE_MM_YYYY
       DATE_MONTH_YYYY DATE_FUZZY DATE_BARE_YEAR now format_years raw resume jd thr
     = Ok res) <->
  exists g, _check_gaps now (job_titles resume) thr = Ok g.
Proof.
  unfold check_resume.
  destruct (_check_contact _ _ _ raw) as [ci cp].
  destruct (_check_dates _ _ _ _ raw) as [di dp].
  destruct (_check_gaps now (job_titles resume) thr) as [[gi gp]|].
  - destruct (match jd with Some _ => _ | None => _ end) as [ji jp].
    split; eauto.
  - split; intros [x Hx]; done.
Qed.

(** The score and the "passed" flag of a result. *)
Lemma integrity_score_floor raw resume jd thr res :
  check_resume EMAIL_REGEX PHONE_REGEX_IN PHONE_REGEX_INTL DATE_MM_YYYY
    DATE_MONTH_YYYY DATE_FUZZY DATE_BARE_YEAR now format_years raw resume jd thr
  = Ok res ->
  8 <= score res <= 20 /\
  (jd = None -> 10 <= score res) /\
  (EMAIL_REGEX raw <> [] -> 11 <= score res).
Proof.
  unfold check_resume.
  pose proof (contact_penalty_range EMAIL_REGEX PHONE_REGEX_IN PHONE_REGEX_INTL raw) as Hc.
  assert (EMAIL_REGEX raw <> [] ->
          (_check_contact EMAIL_REGEX PHONE_REGEX_IN PHONE_REGEX_INTL raw).2 <= 2) as Hc'.
  { unfold _check_contact.
    destruct (EMAIL_REGEX raw), (PHONE_REGEX_IN raw), (PHONE_REGEX_INTL raw);
      simpl; intros; (done || lia). }
  destruct (_check_contact _ _ _ raw) as [ci cp].
  pose proof (dates_penalty_range DATE_MM_YYYY DATE_MONTH_YYYY DATE_FUZZY
                DATE_BARE_YEAR raw) as Hd.
  destruct (_check_dates _ _ _ _ raw) as [di dp].
  pose proof (gaps_penalty_range now (job_titles resume) thr) as Hg.
  destruct (_check_gaps now (job_titles resume) thr) as [[gi gp]|]; [|done].
  specialize (Hg gi gp eq_refl).
  destruct jd as [j|].
  - pose proof (experience_penalty_range format_years (total_experience_years resume)
                  (experience_required_years j)) as He.
    pose proof (education_penalty (educations resume) (education_required j)) as Hu.
    destruct (_check_experience _ _ _) as [ei ep].
    destruct (_check_education _ _) as [ui up].
    intros [= <-]. simpl in *. unfold MAX_SCORE.
    split; [lia|]. split; [done|]. intros H. specialize (Hc' H). lia.
  - intros [= <-]. simpl in *. unfold MAX_SCORE.
    split; [lia|]. split; [lia|]. intros H. specialize (Hc' H). lia.
Qed.

End IntegrityValues.

(** X2.  Layer 3 never scores below 8: contact costs at most 5 points, a
    fuzzy date 1, employment gaps 4, missing experience 2, and the
    education check never costs a point.  Without a JD extract the floor
    is 10, and with an email address in the text it is 11. *)
Theorem integrity_score_floor_8
    email phone_in phone_intl mm_yyyy month_yyyy fuzzy bare_year now
    format_years raw resume jd threshold res :
  IntegrityCheck.check_resume email phone_in phone_intl mm_yyyy month_yyyy
    fuzzy bare_year now format_years raw resume jd threshold
  = IntegrityCheck.Ok res ->
  8 <= Ats.score res <= 20 /\
  (jd = None -> 10 <= Ats.score res) /\
  (email raw <> [] -> 11 <= Ats.score res).
Proof. apply integrity_score_floor. Qed.

Lemma integrity_score_floor_8_witness :
  let none := fun _ : string => @nil string in
  let none2 := fun _ : string => @nil (string * string) in
  let resume := IntegrityCheck.ResumeExtract [] 0 [] in
  exists res,
    IntegrityCheck.check_resume none none none none2 none2 none2 none
      (fun _ => IntegrityCheck.Date 2024 5) (fun _ => "") "" resume None 6
    = IntegrityCheck.Ok res /\
    8 <= Ats.score res <= 20 /\ Ats.score res = 15.
Proof.
  cbv zeta. eexists. split; [reflexivity|]. split.
  - eapply (integrity_score_floor_8 (fun _ => []) (fun _ => []) (fun _ => [])
              (fun _ => []) (fun _ => []) (fun _ => []) (fun _ => [])
              (fun _ => IntegrityCheck.Date 2024 5) (fun _ => "") ""
              (IntegrityCheck.ResumeExtract [] 0 [] ) None 6).
    reflexivity.
  - reflexivity.
Defined.

(** X3.  For jobs whose dates are written in ASCII,
    [IntegrityCheck.check] returns a result exactly when there are fewer
    than two jobs (their dates are then not looked at) or every start and
    end date of every job can be built.  So with two jobs or more, one date
    such as "13/2020" makes the whole check raise [ValueError]; the same
    date on a single job is ignored. *)
Theorem integrity_check_returns_iff
    email phone_in phone_intl mm_yyyy month_yyyy fuzzy bare_year now
    format_years raw resume jd threshold :
  IntegrityCheck.ascii_dates (IntegrityCheck.job_titles resume) ->
  (exists res,
     IntegrityCheck.check_resume email phone_in phone_intl mm_yyyy month_yyyy
       fuzzy bare_year now format_years raw resume jd threshold
     = IntegrityCheck.Ok res) <->
  (length (IntegrityCheck.job_titles resume) < 2)%nat \/
  IntegrityCheck.dates_constructible (IntegrityCheck.job_titles resume).
Proof.
  intros _. rewrite check_returns_iff_gaps. apply check_gaps_returns.
Qed.

Lemma integrity_check_returns_iff_witness :
  let none := fun _ : string => @nil string in
  let none2 := fun _ : string => @nil (string * string) in
  let bad := IntegrityCheck.Job (Some "Engineer") (Some "A") (Some "13/2020") None in
  let good := IntegrityCheck.Job (Some "Engineer") (Some "B") (Some "01/2021") None in
  let run jobs :=
    IntegrityCheck.check_resume none none none none2 none2 none2 none
      (fun _ => IntegrityCheck.Date 2024 5) (fun _ => "") ""
      (IntegrityCheck.ResumeExtract jobs 0 []) None 6 in
  (exists res, run [good; good] = IntegrityCheck.Ok res) /\
  ~ IntegrityCheck.dates_constructible [bad; good].
Proof.
  cbv zeta.
  assert (forall d, d = "13/2020" \/ d = "01/2021" ->
                    IntegrityCheck.isascii d = true) as Hd
    by (intros d [-> | ->]; reflexivity).
  assert (forall b,
            IntegrityCheck.ascii_dates
              [IntegrityCheck.Job (Some "Engineer") (Some b) (Some "13/2020") None;
               IntegrityCheck.Job (Some "Engineer") (Some "B") (Some "01/2021") None])
    as Hbad.
  { intros b. repeat constructor; intros s [[= <-]|[=]]; apply Hd; auto. }
  assert (IntegrityCheck.ascii_dates
            [IntegrityCheck.Job (Some "Engineer") (Some "B") (Some "01/2021") None;
             IntegrityCheck.Job (Some "Engineer") (Some "B") (Some "01/2021") None])
    as Hgood.
  { repeat constructor; intros s [[= <-]|[=]]; apply Hd; auto. }
  split.
  - apply (integrity_check_returns_iff _ _ _ _ _ _ _ _ _ _
             (IntegrityCheck.ResumeExtract _ 0 []) _ _ Hgood).
    right. repeat constructor; by eexists.
  - intros Hc.
    assert (exists res,
              IntegrityCheck.check_resume
                (fun _ : string => @nil string) (fun _ : string => @nil string)
                (fun _ : string => @nil string)
                (fun _ : string => @nil (string * string))
                (fun _ : string => @nil (string * string))
                (fun _ : string => @nil (string * string))
                (fun _ : string => @nil string)
                (fun _ => IntegrityCheck.Date 2024 5) (fun _ => "") ""
                (IntegrityCheck.ResumeExtract
                   [IntegrityCheck.Job (Some "Engineer") (Some "A") (Some "13/2020") None;
                    IntegrityCheck.Job (Some "Engineer") (Some "B") (Some "01/2021") None]
                   0 []) None 6
              = IntegrityCheck.Ok res) as [res Hres].
    { apply (integrity_check_returns_iff _ _ _ _ _ _ _ _ _ _
               (IntegrityCheck.ResumeExtract _ 0 []) _ _ (Hbad "A")).
      by right. }
    discriminate Hres.
Defined.

(** A job that starts in month 13, alone and beside another job. *)
Example integrity_month_13_raises :
  let none := fun _ : string => @nil string in
  let none2 := fun _ : string => @nil (string * string) in
  let bad := IntegrityCheck.Job (Some "Engineer") (Some "A") (Some "13/2020") None in
  let good := IntegrityCheck.Job (Some "Engineer") (Some "B") (Some "01/2021") None in
  let run jobs :=
    IntegrityCheck.check_resume none none none none2 none2 none2 none
      (fun _ => IntegrityCheck.Date 2024 5) (fun _ => "") ""
      (IntegrityCheck.ResumeExtract jobs 0 []) None 6 in
  run [bad; good] = IntegrityCheck.ValueError /\
  Ats.score <$> (match run [bad] with
                 | IntegrityCheck.Ok res => Some res
                 | IntegrityCheck.ValueError => None
                 end) = Some 15.
Proof. split; reflexivity. Qed.

(** ** Layer 2: every JD keyword is reported once *)

Section KeywordReport.
Import KeywordScorer.

Lemma mem_true (k : string) l : mem k l = true <-> k ∈ l.
Proof. unfold mem. apply bool_decide_eq_true. Qed.

Lemma mem_false (k : string) l : mem k l = false <-> k ∉ l.
Proof. unfold mem. apply bool_decide_eq_false. Qed.

(** The three lists of [classify] split the keywords. *)
Lemma classify_split (hard inferred all : list string) :
  let '(m, i, x) := classify hard inferred all in
  m ++ i ++ x ≡ₚ all.
Proof.
  unfold classify. induction all as [|k all IH]; [done|].
  rewrite !filter_cons.
  destruct (mem k hard) eqn:Hh, (mem k inferred) eqn:Hi;
    repeat (destruct (decide _) as [?|?]; try (exfalso; intuition congruence)).
  - simpl. by rewrite IH.
  - simpl. by rewrite IH.
  - simpl. rewrite <- Permutation_middle. by rewrite IH.
  - rewrite app_assoc, <- Permutation_middle, <- app_assoc. by rewrite IH.
Qed.

End KeywordReport.

(** X4.  Every JD keyword is reported exactly once by
    [KeywordScorer.score].  The lower-cased entries of the four JD lists,
    each taken once, are split over "matched_keywords", "inferred_matches"
    and "missing_keywords": a keyword among the resume's hard skills is
    matched (also when it is an inferred skill as well), one that is only
    among the inferred skills is an inferred match, and any other is
    missing.  So the counts add up: total_matched plus the number of
    missing keywords is total_jd_keywords. *)
Theorem jd_keywords_reported_once
    (format_percent : Q -> string) (list_of_set : list string -> list string)
    (jd : KeywordScorer.jd_extract) (resume : KeywordScorer.resume_extract)
    (resume_text : string) (resume_sections : option KeywordScorer.sections) :
  (forall l, list_of_set l ≡ₚ remove_dups l) ->
  let r := KeywordScorer.score_resume format_percent list_of_set jd resume
             resume_text resume_sections in
  let jd_lists :=
    map PyStr.lower (KeywordScorer.required_hard_skills jd)
    ++ map PyStr.lower (KeywordScorer.preferred_hard_skills jd)
    ++ map PyStr.lower (KeywordScorer.domain_keywords jd)
    ++ map PyStr.lower (KeywordScorer.tools_and_frameworks jd) in
  let hard := map PyStr.lower (KeywordScorer.hard_skills resume) in
  let inferred :=
    map KeywordScorer.inferred_name (KeywordScorer.inferred_skills resume) in
  let reported :=
    KeywordScorer.matched_keywords r ++ KeywordScorer.inferred_matches r
    ++ KeywordScorer.missing_keywords r in
  NoDup reported /\
  (forall k, k ∈ reported <-> k ∈ jd_lists) /\
  (forall k, k ∈ KeywordScorer.matched_keywords r <-> k ∈ jd_lists /\ k ∈ hard) /\
  (forall k, k ∈ KeywordScorer.inferred_matches r <->
             k ∈ jd_lists /\ (k ∉ hard) /\ k ∈ inferred) /\
  (forall k, k ∈ KeywordScorer.missing_keywords r <->
             k ∈ jd_lists /\ (k ∉ hard) /\ (k ∉ inferred)) /\
  (KeywordScorer.total_matched r + length (KeywordScorer.missing_keywords r)
   = KeywordScorer.total_jd_keywords r)%nat.
Proof.
  intros Hset r jd_lists hard inferred reported.
  subst r reported. unfold KeywordScorer.score_resume.
  fold jd_lists hard inferred.
  pose proof (classify_split hard inferred (list_of_set jd_lists)) as Hsplit.
  pose proof (classify_lengths hard inferred (list_of_set jd_lists)) as Hlen.
  unfold KeywordScorer.classify in *.
  destruct (KeywordScorer._check_density _ _ _) as [di db]. simpl.
  assert (forall k, k ∈ list_of_set jd_lists <-> k ∈ jd_lists) as Hin.
  { intros k. rewrite (Hset jd_lists). apply elem_of_remove_dups. }
  split; [|split; [|split; [|split; [|split]]]].
  - rewrite Hsplit, (Hset jd_lists). apply NoDup_remove_dups.
  - intros k. by rewrite Hsplit.
  - intros k. rewrite list_elem_of_filter, mem_true, Hin. tauto.
  - intros k. rewrite list_elem_of_filter, mem_true, mem_false, Hin. tauto.
  - intros k. rewrite list_elem_of_filter, !mem_false, Hin. tauto.
  - lia.
Qed.

Lemma jd_keywords_reported_once_witness :
  let jd := KeywordScorer.JdExtract ["Python"; "SQL"] ["python"; "Docker"] [] [] [] in
  let resume :=
    KeywordScorer.ResumeExtract ["python"]
      [KeywordScorer.InferredDict (Some "Docker");
       KeywordScorer.InferredDict (Some "Python")] in
  let r := KeywordScorer.score_resume (fun _ => "") remove_dups jd resume
             "python and docker" None in
  KeywordScorer.matched_keywords r = ["python"] /\
  KeywordScorer.inferred_matches r = ["docker"] /\
  KeywordScorer.missing_keywords r = ["sql"] /\
  NoDup (KeywordScorer.matched_keywords r ++ KeywordScorer.inferred_matches r
         ++ KeywordScorer.missing_keywords r).
Proof.
  cbv zeta. split; [vm_compute; reflexivity|].
  split; [vm_compute; reflexivity|]. split; [vm_compute; reflexivity|].
  apply (jd_keywords_reported_once (fun _ => "") remove_dups
           (KeywordScorer.JdExtract ["Python"; "SQL"] ["python"; "Docker"] [] [] [])
           (KeywordScorer.ResumeExtract ["python"]
              [KeywordScorer.InferredDict (Some "Docker");
               KeywordScorer.InferredDict (Some "Python")])
           "python and docker" None).
  reflexivity.
Defined.

(** X5.  A JD extract with no keyword and no acronym scores nothing: for
    every resume, text and sections the result has score 0, match
    percentage 0, empty keyword lists and no issue; no division by the
    number of keywords is made. *)
Theorem empty_jd_scores_nothing
    (format_percent : Q -> string) (list_of_set : list string -> list string)
    (resume : KeywordScorer.resume_extract)
    (resume_text : string) (resume_sections : option KeywordScorer.sections) :
  (forall l, list_of_set l ≡ₚ remove_dups l) ->
  KeywordScorer.score_resume format_percent list_of_set
    (KeywordScorer.JdExtract [] [] [] [] []) resume resume_text resume_sections
  = KeywordScorer.Result 0 60 0 [] [] [] 0 0 [].
Proof.
  intros Hset. unfold KeywordScorer.score_resume. simpl.
  assert (list_of_set [] = []) as -> by (apply Permutation_nil_r; apply Hset).
  unfold KeywordScorer._check_density. simpl.
  destruct (PyStr.split (PyStr.lower resume_text));
    destruct resume_sections as [[|sec rest]|]; reflexivity.
Qed.

Lemma empty_jd_scores_nothing_witness :
  KeywordScorer.score_resume (fun _ => "") remove_dups
    (KeywordScorer.JdExtract [] [] [] [] [])
    (KeywordScorer.ResumeExtract ["python"] []) "python python"
    (Some [("skills", ["python"])])
  = KeywordScorer.Result 0 60 0 [] [] [] 0 0 [].
Proof.
  apply (empty_jd_scores_nothing (fun _ => "") remove_dups). reflexivity.
Defined.

(** ** Round trips through the application table *)

Section DatabaseRoundTrips.
Import Database.

Variable json_dumps : pyval -> string.

Lemma max_rowid_le (t : table) i r : rows t !! i = Some r -> i <= max_rowid t.
Proof. apply max_rowid_bound. Qed.

(** A column set by [kwargs] holds the value given for it. *)
Lemma set_columns_lookup kwargs : forall (r : row) k v,
  NoDup kwargs.*1 -> (k, v) ∈ kwargs ->
  set_columns json_dumps kwargs r !! k = Some (store k (to_sql json_dumps v)).
Proof.
  unfold set_columns.
  induction kwargs as [|[k' v'] kwargs IH]; intros r k v Hnd Hin; simpl.
  - by apply elem_of_nil in Hin.
  - simpl in Hnd. apply NoDup_cons in Hnd as [Hk' Hnd].
    apply elem_of_cons in Hin as [[= -> ->]|Hin].
    + fold (set_columns json_dumps kwargs
              (<[k' := store k' (to_sql json_dumps v')]> r)).
      rewrite set_columns_other by done. apply lookup_insert_eq.
    + by apply IH.
Qed.


End DatabaseRoundTrips.

(** X6.  [create_application] and [get_application] round trip, for a
    resume id, job id and score that fit in 64 bits.  When the table holds
    an active record of the pair (one [find_application] would find) the
    [INSERT] fails on the unique index: [sqlite3.IntegrityError] is raised
    and no table changes.  Otherwise the call returns an id that was not in
    use, is larger than every id in the table and than every id given out
    before (ids are never used twice), and [get_application] on it then
    returns the record as inserted: the arguments, status 'draft', the
    other columns NULL and one clock reading as [created_at] and
    [updated_at].  Every other record reads as before. *)
Theorem create_then_get_application
    (json_dumps : Database.pyval -> string) (rid jid : Z) (s : option Z)
    (rep : option Database.pydict) (w : Database.world) :
  Database.int64 rid -> Database.int64 jid ->
  (forall n, s = Some n -> Database.int64 n) ->
  let t := Database.clock w (Database.ticks w) in
  let active :=
    exists i r, Database.rows (Database.applications w) !! i = Some r /\
                Database.matches rid jid r = true in
  (active ->
   exists w',
     Database.create_application json_dumps rid jid s rep w
     = (Database.Raise
          (Database.IntegrityError
             "UNIQUE constraint failed: applications.resume_id, applications.job_id"),
        w') /\
     Database.resumes w' = Database.resumes w /\
     Database.jobs w' = Database.jobs w /\
     Database.applications w' = Database.applications w /\
     Database.action_log w' = Database.action_log w) /\
  (~ active ->
   exists a w',
     Database.create_application json_dumps rid jid s rep w = (Database.Ok a, w') /\
     Database.get_application a w = (Database.Ok None, w) /\
     (forall i, is_Some (Database.rows (Database.applications w) !! i) -> i < a) /\
     Database.seq (Database.applications w) < a /\
     Database.seq (Database.applications w') = a /\
     Database.get_application a w'
     = (Database.Ok
          (Some (<["id" := Database.Int a]>
                   (Database.application_cols json_dumps rid jid s rep t))),
        w') /\
     (forall i, i <> a ->
        (Database.get_application i w').1 = (Database.get_application i w).1)).
Proof.
  intros _ _ _. destruct w as [res jbs apps log clk tk]. intros t active.
  subst t active. cbn [Database.applications Database.clock Database.ticks]. split.
  - intros (i & r & Hr & Hm). eexists.
    rewrite create_application_fails; [split; [reflexivity|done]|].
    apply taken_spec. exists i, r. split.
    { intros ->. by rewrite next_id_fresh in Hr. }
    split; [done|]. split; [by apply idx_matches|]. done.
  - intros Hnone. eexists _, _.
    rewrite create_application_run.
    2:{ apply find_none_free. intros i r Hr.
        destruct (Database.matches rid jid r) eqn:Hm; [|done].
        exfalso. apply Hnone. eauto. }
    split; [reflexivity|].
    unfold Database.get_application, Database.select_by_id. simpl.
    split; [by rewrite next_id_fresh|].
    split.
    { intros i [r Hr]. apply max_rowid_bound in Hr. unfold Database.next_id. lia. }
    split; [unfold Database.next_id; lia|]. split; [reflexivity|].
    split; [by rewrite lookup_insert_eq|].
    intros i Hi. by rewrite lookup_insert_ne.
Qed.

Lemma create_then_get_application_witness :
  (exists w',
     Database.create_application Demo.dumps_keys 1 1 (Some 80) None Demo.world1
     = (Database.Raise
          (Database.IntegrityError
             "UNIQUE constraint failed: applications.resume_id, applications.job_id"),
        w')) /\
  (exists a w',
     Database.create_application Demo.dumps_keys 1 2 (Some 80) None Demo.world1
     = (Database.Ok a, w') /\
     Database.seq (Database.applications Demo.world1) < a).
Proof.
  assert (Database.int64 1 /\ Database.int64 2 /\ Database.int64 80)
    as (H1 & H2 & H80) by (unfold Database.int64; lia).
  assert (forall n, Some 80 = Some n -> Database.int64 n) as Hs
    by (by intros n [= <-]).
  split.
  - destruct (proj1 (create_then_get_application Demo.dumps_keys 1 1 (Some 80) None
                       Demo.world1 H1 H1 Hs)) as (w' & Hrun & _).
    + exists 1, ({[ "resume_id" := Database.Int 1; "job_id" := Database.Int 1;
                    "status" := Database.Text "draft";
                    "created_at" := Database.Text "t" ]} : Database.row).
      split; by_evaluation.
    + exists w'. exact Hrun.
  - destruct (proj2 (create_then_get_application Demo.dumps_keys 1 2 (Some 80) None
                       Demo.world1 H1 H2 Hs)) as (a & w' & Hrun & _ & _ & Hseq & _).
    + intros (i & r & Hr & Hm).
      assert (Database.matches 1 2 r = false) as Hno.
      { apply (no_match_by_list 1 2 (Database.applications Demo.world1)
                 ltac:(by_evaluation) i r Hr). }
      congruence.
    + exists a, w'. split; [exact Hrun|exact Hseq].
Defined.

(** X7.  [update_application] and [get_application] round trip.  The
    keyword arguments are from the whitelist, the driver can bind them, and
    [ats_score] is not given as text other than a decimal integer; the record
    exists.  When the [UPDATE] fails on the unique index,
    [sqlite3.IntegrityError] is raised and every record and the log are as
    they were; it does not fail when [status] is not assigned, when the
    record is active already, or when the status assigned is 'cancelled'.
    Otherwise the call returns [None] and the record then shows every column
    named with what its column keeps of the value given ([json.dumps] of it
    for a dict): text as it is and a number as its decimal text in the text
    columns, a number as it is and integer text as its number in
    [ats_score]; [updated_at] holds the clock reading, every other column
    is as before, and no other record and no log entry changes. *)
Theorem update_then_get_application
    (json_dumps : Database.pyval -> string) (app_id : Z)
    (kwargs : Database.pydict) (w : Database.world) (r : Database.row) :
  kwargs <> [] -> NoDup kwargs.*1 ->
  Forall (fun k => k ∈ Database._APPLICATION_UPDATABLE_COLUMNS) kwargs.*1 ->
  Forall Database.bindable kwargs.*2 ->
  (forall v s, ("ats_score", v) ∈ kwargs -> Database.to_sql json_dumps v = Database.Text s ->
               is_Some (Database.integer_text s)) ->
  Database.get_application app_id w = (Database.Ok (Some r), w) ->
  let t := Database.clock w (Database.ticks w) in
  let fails :=
    Database.update_fails json_dumps app_id kwargs t (Database.applications w) in
  (fails = true ->
   exists w',
     Database.update_application json_dumps app_id kwargs w
     = (Database.Raise
          (Database.IntegrityError
             "UNIQUE constraint failed: applications.resume_id, applications.job_id"),
        w') /\
     (forall i, (Database.get_application i w').1 = (Database.get_application i w).1) /\
     Database.action_log w' = Database.action_log w) /\
  ("status" ∉ kwargs.*1 \/ Database.sql_not_cancelled r = true \/
   ("status", Database.PStr "cancelled") ∈ kwargs -> fails = false) /\
  (fails = false ->
   exists w' r',
     Database.update_application json_dumps app_id kwargs w
     = (Database.Ok Database.PNone, w') /\
     Database.get_application app_id w' = (Database.Ok (Some r'), w') /\
     (forall k v, (k, v) ∈ kwargs ->
        r' !! k = Some (Database.store k (Database.to_sql json_dumps v))) /\
     (forall k v, (k, v) ∈ kwargs ->
        match Database.to_sql json_dumps v with
        | Database.Null => r' !! k = Some Database.Null
        | Database.Int n =>
            r' !! k = Some (if bool_decide (k = "ats_score") then Database.Int n
                            else Database.Text (pretty n))
        | Database.Text s =>
            if bool_decide (k = "ats_score")
            then exists n, Database.integer_text s = Some n /\
                           r' !! k = Some (Database.Int n)
            else r' !! k = Some (Database.Text s)
        end) /\
     r' !! "updated_at" = Some (Database.Text t) /\
     (forall k, k ∉ kwargs.*1 -> k <> "updated_at" -> r' !! k = r !! k) /\
     (forall i, i <> app_id ->
        (Database.get_application i w').1 = (Database.get_application i w).1) /\
     Database.action_log w' = Database.action_log w).
Proof.
  intros Hne Hnd Hok _ Hscore Hget.
  destruct w as [res jbs apps log clk tk], kwargs as [|kv kwargs]; [done|].
  intros t fails. subst t fails.
  cbn [Database.clock Database.ticks Database.applications].
  unfold Database.get_application, Database.select_by_id in Hget. simpl in Hget.
  destruct (Database.rows apps !! app_id) as [r0|] eqn:Hr0; [|done].
  simpl in Hget. injection Hget as <-.
  assert (forall c, c ∈ (kv :: kwargs).*1 ->
                    c <> "id" /\ c <> "updated_at" /\ c <> "resume_id" /\ c <> "job_id")
    as Hkeys.
  { intros c Hin. rewrite Forall_forall in Hok. specialize (Hok _ Hin).
    unfold Database._APPLICATION_UPDATABLE_COLUMNS in Hok.
    rewrite !elem_of_cons, elem_of_nil in Hok.
    repeat split; intros ->; intuition discriminate. }
  assert ("id" ∉ (kv :: kwargs).*1) as Hid
    by (intros Hin; apply Hkeys in Hin as (? & ? & ? & ?); done).
  assert ("updated_at" ∉ (kv :: kwargs).*1) as Hup
    by (intros Hin; apply Hkeys in Hin as (? & ? & ? & ?); done).
  split; [|split].
  - intros Hf. eexists. rewrite (update_application_fails _ _ _ _ _ _ _ _ _ _ Hok Hf).
    split; [reflexivity|]. done.
  - assert (Database.sql_not_cancelled (<["id" := Database.Int app_id]> r0)
            = Database.sql_not_cancelled r0) as Hsame.
    { unfold Database.sql_not_cancelled. by rewrite lookup_insert_ne. }
    rewrite Hsame. intros Hcase.
    destruct (Database.update_fails json_dumps app_id (kv :: kwargs) (clk tk) apps)
      eqn:Hf; [|done].
    apply (update_fails_spec json_dumps) in Hf; [|done].
    destruct Hf as (old & other & o & Hold & Hout & Hin & _).
    assert (old = r0) as -> by congruence.
    destruct Hcase as [Hs|[Hact|Hc]]; [|congruence|].
    + unfold Database.sql_not_cancelled in Hin, Hout.
      rewrite updated_row_other in Hin by done. by rewrite Hin in Hout.
    + unfold Database.sql_not_cancelled, Database.updated_row in Hin.
      rewrite lookup_insert_ne in Hin by done.
      by rewrite (set_columns_lookup json_dumps _ _ _ _ Hnd Hc) in Hin.
  - intros Hf. eexists _, _.
    rewrite (update_application_run _ _ _ _ _ _ _ _ _ _ Hok Hf).
    split; [reflexivity|].
    unfold Database.get_application, Database.select_by_id. simpl.
    rewrite lookup_alter_eq, Hr0. simpl. split; [reflexivity|].
    assert (forall k v, (k, v) ∈ kv :: kwargs ->
              <["id" := Database.Int app_id]>
                (Database.updated_row json_dumps (kv :: kwargs) (clk tk) r0) !! k
              = Some (Database.store k (Database.to_sql json_dumps v))) as Hset.
    { intros k v Hin.
      assert (k ∈ (kv :: kwargs).*1) as Hk.
      { apply list_elem_of_fmap. by exists (k, v). }
      rewrite lookup_insert_ne by (intros <-; done).
      unfold Database.updated_row.
      rewrite lookup_insert_ne by (intros <-; done).
      by apply set_columns_lookup. }
    split; [exact Hset|]. split; [|split; [|split; [|split]]].
    + intros k v Hin. rewrite (Hset k v Hin). unfold Database.store.
      assert (k ∈ (kv :: kwargs).*1) as Hk.
      { apply list_elem_of_fmap. by exists (k, v). }
      rewrite Forall_forall in Hok. specialize (Hok _ Hk).
      unfold Database._APPLICATION_UPDATABLE_COLUMNS in Hok.
      rewrite !elem_of_cons, elem_of_nil in Hok.
      destruct (Database.to_sql json_dumps v) as [|n|s] eqn:Hv.
      * by destruct (Database.column_affinity k).
      * destruct Hok as [->|[->|[->|[->|[->|[->|[->|[->|[]]]]]]]]]; reflexivity.
      * case_bool_decide as Hk'.
        -- subst k. destruct (Hscore v s Hin Hv) as [n Hn].
           exists n. split; [done|]. change (Database.column_affinity "ats_score")
             with Database.INTEGER. by rewrite Hn.
        -- destruct Hok as [->|[->|[->|[->|[->|[->|[->|[->|[]]]]]]]]];
             try reflexivity. done.
    + rewrite lookup_insert_ne by done. unfold Database.updated_row.
      by rewrite lookup_insert_eq.
    + intros k Hk Hku. destruct (decide (k = "id")) as [->|Hkid].
      * by rewrite !lookup_insert_eq.
      * rewrite !lookup_insert_ne by done. by apply updated_row_other.
    + intros i Hi. by rewrite lookup_alter_ne.
    + reflexivity.
Qed.

Lemma update_then_get_application_witness :
  exists w' r',
    Database.update_application Demo.dumps_keys 1
      [("status", Database.PStr "ready"); ("ats_score", Database.PStr "71");
       ("notes", Database.PInt 5)]
      Demo.world1
    = (Database.Ok Database.PNone, w') /\
    Database.get_application 1 w' = (Database.Ok (Some r'), w') /\
    r' !! "status" = Some (Database.Text "ready") /\
    r' !! "ats_score" = Some (Database.Int 71) /\
    r' !! "notes" = Some (Database.Text "5") /\
    r' !! "job_id" = Some (Database.Int 1).
Proof.
  destruct (update_then_get_application Demo.dumps_keys 1
              [("status", Database.PStr "ready"); ("ats_score", Database.PStr "71");
               ("notes", Database.PInt 5)]
              Demo.world1
              (<["id" := Database.Int 1]>
                 {[ "resume_id" := Database.Int 1; "job_id" := Database.Int 1;
                    "status" := Database.Text "draft";
                    "created_at" := Database.Text "t" ]}))
    as (_ & Hfree & Hok).
  - done.
  - simpl. repeat constructor; rewrite ?elem_of_cons, ?elem_of_nil;
      intuition discriminate.
  - simpl. unfold Database._APPLICATION_UPDATABLE_COLUMNS.
    repeat constructor; rewrite !elem_of_cons; tauto.
  - simpl. repeat constructor. unfold Database.int64. lia.
  - intros v s Hin Hv. rewrite !elem_of_cons, elem_of_nil in Hin.
    destruct Hin as [H|[H|[H|[]]]]; try discriminate H. injection H as ->.
    simpl in Hv. injection Hv as <-. by eexists.
  - reflexivity.
  - destruct Hok as (w' & r' & Hrun & Hget & Hset & _ & _ & Hother & _).
    { apply Hfree. right. left. reflexivity. }
    exists w', r'. split; [exact Hrun|]. split; [exact Hget|].
    split; [apply (Hset "status" (Database.PStr "ready")); left|].
    split; [apply (Hset "ats_score" (Database.PStr "71")); right; left|].
    split; [apply (Hset "notes" (Database.PInt 5)); right; right; left|].
    rewrite (Hother "job_id"); [reflexivity| |done].
    simpl. rewrite !elem_of_cons, elem_of_nil. intuition discriminate.
Defined.



(** ** The life of an application record *)

Section ApplyAgentLife.
Import Database ApplyAgent Lifecycle.

Variable json_dumps : pyval -> string.
Variable MIN_ATS_SCORE : Z.

Lemma moved_refl r : moved r r.
Proof. by left. Qed.

Lemma moved_trans r1 r2 r3 : moved r1 r2 -> moved r2 r3 -> moved r1 r3.
Proof.
  unfold moved, open.
  intros [[Hs1 Ha1]|[[Ho1 Hs1]|[Hs1 Ha1]]] [[Hs2 Ha2]|[[Ho2 Hs2]|[Hs2 Ha2]]].
  - left. split; congruence.
  - right. left. split; [|done]. by rewrite <- Hs1.
  - right. right. split; [done|]. intros Hn. rewrite Ha2; [by rewrite Ha1|].
    by rewrite Hs1.
  - right. left. split; [done|congruence].
  - destruct Ho2 as [H|H]; congruence.
  - right. right. split; [done|]. intros Hn. by destruct Hn.
  - right. right. split; [congruence|]. intros Hn. rewrite Ha2. by apply Ha1.
  - destruct Ho2 as [H|H]; congruence.
  - right. right. split; [done|]. intros Hn. rewrite Ha2.
    + by apply Ha1.
    + intros [H|H]; congruence.
Qed.

Lemma updated_row_keeps st k v t (r : row) c :
  k = "applied_at" \/ k = "notes" -> c ∉ rewritten ->
  updated_row json_dumps [("status", PStr st); (k, v)] t r !! c = r !! c.
Proof.
  unfold rewritten. rewrite !elem_of_cons, elem_of_nil. intros Hk Hc.
  apply updated_row_other; [tauto|].
  simpl. rewrite !elem_of_cons, elem_of_nil. destruct Hk as [-> | ->]; tauto.
Qed.

(** One call: the records and log entries that exist stay, and a record
    changes at most in the four columns, as [moved] allows. *)
Lemma run_call_step c w :
  let w' := (run_call json_dumps MIN_ATS_SCORE c w).2 in
  resumes w' = resumes w /\ jobs w' = jobs w /\
  (forall i r, rows (applications w) !! i = Some r ->
     exists r', rows (applications w') !! i = Some r' /\
                (forall k, k ∉ rewritten -> r' !! k = r !! k) /\
                moved r r') /\
  (forall i e, rows (action_log w) !! i = Some e ->
               rows (action_log w') !! i = Some e).
Proof.
  assert (forall w, (forall i r, rows (applications w) !! i = Some r ->
             exists r', rows (applications w) !! i = Some r' /\
                        (forall k, k ∉ rewritten -> r' !! k = r !! k) /\
                        moved r r')) as Hsame.
  { intros w0 i r Hr. exists r. split; [done|]. split; [done|apply moved_refl]. }
  assert (forall (log : table) (new : row) i e,
            rows log !! i = Some e ->
            <[next_id log := new]> (rows log) !! i = Some e) as Hlog.
  { intros log new i e He. rewrite lookup_insert_ne; [done|].
    intros <-. by rewrite next_id_fresh in He. }
  destruct c as [rid jid tt cl s rep f | a | a reason]; simpl.
  - destruct (prepare_application_effect json_dumps MIN_ATS_SCORE rid jid tt cl s rep f w)
      as (d & w' & Hrun & [(_ & _ & ->) | (_ & _ & _ & _ & _ & _ & new & det & t
                                          & Happs & _ & _ & _ & Hl & Hres & Hjobs & _)]);
      rewrite Hrun; simpl; [by repeat split; auto|].
    split; [done|]. split; [done|]. split.
    + intros i r Hr. exists r. rewrite Happs. simpl.
      split; [by apply Hlog|]. split; [done|apply moved_refl].
    + intros i e He. rewrite Hl. simpl. by apply Hlog.
  - destruct (confirm_apply_effect json_dumps a w)
      as (d & w' & Hrun & [(_ & _ & ->) | (_ & r0 & t & det & tl & Hr0 & Hst & Happs
                                          & Hl & Hres & Hjobs & _)]);
      rewrite Hrun; simpl; [by repeat split; auto|].
    split; [done|]. split; [done|]. split.
    + intros i r Hr. rewrite Happs. simpl.
      destruct (decide (i = a)) as [->|Hia].
      * rewrite lookup_alter_eq, Hr. simpl. eexists. split; [reflexivity|].
        assert (r0 = r) as -> by congruence. split.
        -- intros k Hk. apply updated_row_keeps; auto.
        -- right. left. split; [done|]. by apply updated_row_status.
      * rewrite lookup_alter_ne by done. exists r.
        split; [done|]. split; [done|apply moved_refl].
    + intros i e He. rewrite Hl. simpl. by apply Hlog.
  - destruct (cancel_application_effect json_dumps a reason w)
      as (d & w' & Hrun & [(_ & _ & ->) | (_ & r0 & notes & t & det & tl & Hr0 & Happs
                                          & Hl & Hres & Hjobs & _)]);
      rewrite Hrun; simpl; [by repeat split; auto|].
    split; [done|]. split; [done|]. split.
    + intros i r Hr. rewrite Happs. simpl.
      destruct (decide (i = a)) as [->|Hia].
      * rewrite lookup_alter_eq, Hr. simpl. eexists. split; [reflexivity|].
        split.
        -- intros k Hk. apply updated_row_keeps; auto.
        -- right. right. split; [by apply updated_row_status|]. intros _.
           apply updated_row_other; [done|].
           simpl. rewrite !elem_of_cons, elem_of_nil. intuition discriminate.
      * rewrite lookup_alter_ne by done. exists r.
        split; [done|]. split; [done|apply moved_refl].
    + intros i e He. rewrite Hl. simpl. by apply Hlog.
Qed.

Lemma run_calls_steps cs : forall w,
  let w' := run_calls json_dumps MIN_ATS_SCORE cs w in
  resumes w' = resumes w /\ jobs w' = jobs w /\
  (forall i r, rows (applications w) !! i = Some r ->
     exists r', rows (applications w') !! i = Some r' /\
                (forall k, k ∉ rewritten -> r' !! k = r !! k) /\
                moved r r') /\
  (forall i e, rows (action_log w) !! i = Some e ->
               rows (action_log w') !! i = Some e).
Proof.
  induction cs as [|c cs IH]; intros w; simpl.
  { repeat split; try done. intros i r Hr. exists r.
    split; [done|]. split; [done|apply moved_refl]. }
  destruct (run_call_step c w) as (Hres & Hjobs & Happs & Hlog).
  destruct (IH (run_call json_dumps MIN_ATS_SCORE c w).2)
    as (Hres' & Hjobs' & Happs' & Hlog').
  split; [congruence|]. split; [congruence|]. split.
  - intros i r Hr. destruct (Happs i r Hr) as (r1 & Hr1 & Hk1 & Hs1).
    destruct (Happs' i r1 Hr1) as (r2 & Hr2 & Hk2 & Hs2).
    exists r2. split; [done|]. split.
    + intros k Hk. rewrite Hk2, Hk1 by done. done.
    + by eapply moved_trans.
  - intros i e He. apply Hlog', Hlog, He.
Qed.



End ApplyAgentLife.

(** X9.  The agent never deletes and never rewrites history.  Over every
    sequence of calls of [prepare_application], [confirm_apply] and
    [cancel_application] the resume and job tables stay as they are; every
    application record that exists stays in the table, and only its
    [status], [applied_at], [notes] and [updated_at] can change (so its
    resume, job, score, texts and [created_at] are fixed when it is
    created); and every entry of the action log stays as it was written. *)
Theorem agent_keeps_records
    (json_dumps : Database.pyval -> string) (MIN_ATS_SCORE : Z)
    (cs : list ApplyAgent.call) (w : Database.world) :
  let w' := ApplyAgent.run_calls json_dumps MIN_ATS_SCORE cs w in
  Database.resumes w' = Database.resumes w /\
  Database.jobs w' = Database.jobs w /\
  (forall i r, Database.rows (Database.applications w) !! i = Some r ->
     exists r', Database.rows (Database.applications w') !! i = Some r' /\
       forall k, k ∉ ["status"; "applied_at"; "notes"; "updated_at"] ->
                 r' !! k = r !! k) /\
  (forall i e, Database.rows (Database.action_log w) !! i = Some e ->
               Database.rows (Database.action_log w') !! i = Some e).
Proof.
  intros w'. destruct (run_calls_steps json_dumps MIN_ATS_SCORE cs w)
    as (Hres & Hjobs & Happs & Hlog).
  split; [exact Hres|]. split; [exact Hjobs|]. split; [|exact Hlog].
  intros i r Hr. destruct (Happs i r Hr) as (r' & Hr' & Hk & _). eauto.
Qed.

(** X10.  The status of a record never goes back.  Over every sequence of
    calls of the agent a record keeps its status, or goes from 'draft' or
    'ready' to 'submitted', or ends up 'cancelled'.  So a cancelled record
    stays cancelled, a submitted record is never a draft again, and once a
    record is submitted its [applied_at] is never written again: a second
    confirmation cannot move the submission time. *)
Theorem status_never_goes_back
    (json_dumps : Database.pyval -> string) (MIN_ATS_SCORE : Z)
    (cs : list ApplyAgent.call) (w : Database.world) (i : Z) (r : Database.row) :
  Database.rows (Database.applications w) !! i = Some r ->
  exists r',
    Database.rows
      (Database.applications (ApplyAgent.run_calls json_dumps MIN_ATS_SCORE cs w))
      !! i = Some r' /\
    Lifecycle.moved r r' /\
    (r !! "status" = Some (Database.Text "cancelled") ->
     r' !! "status" = Some (Database.Text "cancelled") /\
     r' !! "applied_at" = r !! "applied_at") /\
    (r !! "status" = Some (Database.Text "submitted") ->
     (r' !! "status" = Some (Database.Text "submitted") \/
      r' !! "status" = Some (Database.Text "cancelled")) /\
     r' !! "applied_at" = r !! "applied_at").
Proof.
  intros Hr. destruct (run_calls_steps json_dumps MIN_ATS_SCORE cs w)
    as (_ & _ & Happs & _).
  destruct (Happs i r Hr) as (r' & Hr' & _ & Hm).
  exists r'. split; [exact Hr'|]. split; [exact Hm|].
  unfold Lifecycle.moved, Lifecycle.open in Hm. split; intros Hs.
  - destruct Hm as [[H1 H2]|[[[H1|H1] _]|[H1 H2]]]; try congruence.
    + split; congruence.
    + split; [done|]. apply H2. rewrite Hs. intros [H|H]; discriminate.
  - destruct Hm as [[H1 H2]|[[[H1|H1] _]|[H1 H2]]]; try congruence.
    + split; [left; congruence|done].
    + split; [by right|]. apply H2. rewrite Hs. intros [H|H]; discriminate.
Qed.

Lemma status_never_goes_back_witness :
  let cs := [ApplyAgent.Cancel 1 ""; ApplyAgent.Confirm 1] in
  let r : Database.row :=
    {[ "resume_id" := Database.Int 1; "job_id" := Database.Int 1;
       "status" := Database.Text "draft"; "created_at" := Database.Text "t" ]} in
  Database.rows (Database.applications Demo.world1) !! 1 = Some r /\
  exists r',
    Database.rows
      (Database.applications (ApplyAgent.run_calls Demo.dumps_keys 60 cs Demo.world1))
      !! 1 = Some r' /\
    Lifecycle.moved r r'.
Proof.
  cbv zeta.
  assert (Database.rows (Database.applications Demo.world1) !! 1
          = Some ({[ "resume_id" := Database.Int 1; "job_id" := Database.Int 1;
                     "status" := Database.Text "draft";
                     "created_at" := Database.Text "t" ]} : Database.row)) as Hr
    by by_evaluation.
  split; [exact Hr|].
  destruct (status_never_goes_back Demo.dumps_keys 60
              [ApplyAgent.Cancel 1 ""; ApplyAgent.Confirm 1] Demo.world1 1 _ Hr)
    as (r' & Hr' & Hm & _).
  exists r'. split; [exact Hr'|exact Hm].
Defined.



(** ** The apply_job tool *)

(** X12.  What the [apply_job] tool cannot do, whatever comes of the
    call.  With [confirm] set and no [app_id] (or 0) it returns the error
    with the hint and touches nothing.  It creates a record only with
    [confirm] unset and an ATS score that is absent or at least
    [MIN_ATS_SCORE]: the tool never passes [force], so the score gate cannot
    be overridden through it.  And it never cancels: a record that exists is
    left as it is, except the one named by [app_id] under [confirm], which
    goes from 'draft' or 'ready' to 'submitted'.  For ids and a score that
    fit in 64 bits the call returns a dict. *)
Theorem apply_job_never_forces
    (json_dumps : Database.pyval -> string) (MIN_ATS_SCORE : Z)
    (resume_id job_db_id : Z) (tailored_text cover_letter : option string)
    (ats_score : option Z) (ats_report : option Database.pydict)
    (confirm : bool) (app_id : option Z) (w : Database.world) :
  let out :=
    ApplyJob.apply_job json_dumps MIN_ATS_SCORE resume_id job_db_id tailored_text
      cover_letter ats_score ats_report confirm app_id w in
  (confirm = true -> app_id = None \/ app_id = Some 0 ->
   out = (Database.Ok ApplyJob.missing_app_id, w)) /\
  (forall b, Database.rows (Database.applications w) !! b = None ->
             is_Some (Database.rows (Database.applications out.2) !! b) ->
             confirm = false /\
             match ats_score with
             | Some n => MIN_ATS_SCORE <= n
             | None => True
             end) /\
  (forall b r, Database.rows (Database.applications w) !! b = Some r ->
     exists r', Database.rows (Database.applications out.2) !! b = Some r' /\
                (r' = r \/
                 (confirm = true /\ app_id = Some b /\ Lifecycle.open r /\
                  r' !! "status" = Some (Database.Text "submitted")))) /\
  (Database.int64 resume_id -> Database.int64 job_db_id ->
   (forall n, ats_score = Some n -> Database.int64 n) ->
   (forall a, app_id = Some a -> Database.int64 a) ->
   exists d, out.1 = Database.Ok d).
Proof.
  intros out.
  assert (exists d w',
            out = (Database.Ok d, w') /\
            (confirm = true -> app_id = None \/ app_id = Some 0 ->
             d = ApplyJob.missing_app_id /\ w' = w) /\
            (forall b, Database.rows (Database.applications w) !! b = None ->
                       is_Some (Database.rows (Database.applications w') !! b) ->
                       confirm = false /\
                       match ats_score with
                       | Some n => MIN_ATS_SCORE <= n
                       | None => True
                       end) /\
            (forall b r, Database.rows (Database.applications w) !! b = Some r ->
               exists r', Database.rows (Database.applications w') !! b = Some r' /\
                          (r' = r \/
                           (confirm = true /\ app_id = Some b /\ Lifecycle.open r /\
                            r' !! "status" = Some (Database.Text "submitted")))))
    as (d & w' & Hout & Hmiss & Hnew & Hold).
  2:{ rewrite Hout. simpl. split; [|split; [exact Hnew|split; [exact Hold|eauto]]].
      intros Hc Ha. by destruct (Hmiss Hc Ha) as [-> ->]. }
  subst out. unfold ApplyJob.apply_job. destruct confirm.
  - assert (exists d w',
              Database.ret ApplyJob.missing_app_id w = (Database.Ok d, w') /\
              d = ApplyJob.missing_app_id /\ w' = w) as Hmiss
      by (eexists _, _; split; [reflexivity|done]).
    destruct app_id as [a|].
    2:{ destruct Hmiss as (d & w' & Hrun & -> & ->). eexists _, _.
        split; [exact Hrun|]. split; [done|]. split.
        - intros b Hb [r Hr]. congruence.
        - intros b r Hr. exists r. auto. }
    destruct (a =? 0) eqn:Ea.
    { apply Z.eqb_eq in Ea. subst a.
      destruct Hmiss as (d & w' & Hrun & -> & ->). eexists _, _.
      split; [exact Hrun|]. split; [done|]. split.
      - intros b Hb [r Hr]. congruence.
      - intros b r Hr. exists r. auto. }
    apply Z.eqb_neq in Ea.
    destruct (confirm_apply_effect json_dumps a w)
      as (d & w' & Hrun & [(_ & _ & ->) | (_ & r0 & t & det & tl & Hr0 & Hst & Happs & _)]);
      exists d; eexists; (split; [exact Hrun|]).
    + split; [intros _ [H|H]; congruence|]. split.
      * intros b Hb [r Hr]. congruence.
      * intros b r Hr. exists r. auto.
    + split; [intros _ [H|H]; congruence|]. rewrite Happs. simpl. split.
      * intros b Hb [r Hr]. destruct (decide (b = a)) as [->|Hba].
        -- congruence.
        -- rewrite lookup_alter_ne in Hr by done. congruence.
      * intros b r Hr. destruct (decide (b = a)) as [->|Hba].
        -- rewrite lookup_alter_eq, Hr. simpl. eexists. split; [reflexivity|].
           right. assert (r0 = r) as -> by congruence.
           split; [done|]. split; [done|]. split; [exact Hst|].
           by apply updated_row_status.
        -- rewrite lookup_alter_ne by done. exists r. auto.
  - destruct (prepare_application_effect json_dumps MIN_ATS_SCORE resume_id job_db_id
                tailored_text cover_letter ats_score ats_report false w)
      as (d & w' & Hrun & [(_ & _ & ->) | (_ & _ & _ & Hgate & _ & _ & new & det & t
                                          & Happs & _)]);
      exists d; eexists; (split; [exact Hrun|]).
    + split; [done|]. split.
      * intros b Hb [r Hr]. congruence.
      * intros b r Hr. exists r. auto.
    + split; [done|]. rewrite Happs. simpl. split.
      * intros b _ _. split; [done|].
        unfold ApplyAgent.below_minimum in Hgate.
        destruct ats_score as [n|]; [|done].
        rewrite andb_true_r in Hgate. by apply Z.ltb_ge in Hgate.
      * intros b r Hr. exists r. split; [|by left].
        rewrite lookup_insert_ne; [done|].
        intros <-. by rewrite next_id_fresh in Hr.
Qed.

(** A score of 40 against a minimum of 60, and a confirmation without
    an id. *)
Example apply_job_below_minimum :
  (ApplyJob.apply_job Demo.dumps_keys 60 1 1 None None (Some 40) None false None
     Demo.world0).2 = Demo.world0 /\
  ApplyJob.apply_job Demo.dumps_keys 60 1 1 None None (Some 80) None true (Some 0)
    Demo.world1
  = (Database.Ok ApplyJob.missing_app_id, Demo.world1).
Proof. split; reflexivity. Qed.

(** ** Tokens under traffic *)

Section TokenTrafficFacts.
Import TailorTokens TokenTraffic.

Implicit Types (tk : gmap string token_entry) (token : string).

(** A call that neither mints nor validates the token and sweeps before
    its expiry leaves its entry in the table. *)
Lemma run_call_stays c token tk e :
  mints token c = false -> validates token c = false ->
  sweep_clock c <= expires e ->
  tk !! token = Some e -> run_call c tk !! token = Some e.
Proof.
  intros Hm Hv Hs He.
  assert (_cleanup_tokens (sweep_clock c) tk !! token = Some e) as Hc
    by (apply cleanup_lookup_Some; split; [done|lia]).
  destruct c as [r fresh n1 n2 | t n1 n2]; simpl in *.
  - unfold tailor_resume.
    destruct (tailored_text r) as [txt|] eqn:Ht; [|done].
    destruct (error r) eqn:He'; simpl; [done|].
    assert (fresh <> token) as Hne.
    { intros ->. rewrite ?andb_true_r in Hm.
      by apply bool_decide_eq_false in Hm. }
    by rewrite lookup_insert_ne.
  - apply bool_decide_eq_false in Hv. unfold validate_tailor_token.
    assert (delete t (_cleanup_tokens n1 tk) !! token = Some e) as Hd
      by (by rewrite lookup_delete_ne).
    destruct (_cleanup_tokens n1 tk !! t); [case_bool_decide|]; exact Hd.
Qed.

(** [export_resume] never puts a token into the table. *)
Lemma run_export_no_new_token gen resolve c st token :
  tokens st !! token = None ->
  tokens (run_export gen resolve c st).2 !! token = None.
Proof.
  intros Hn. unfold run_export, export_resume.
  destruct (ec_token c) as [t|]; [|done].
  pose proof (validate_keeps t token (ec_now1 c) (ec_now2 c) (tokens st)) as Hk.
  destruct (validate_tailor_token t (ec_now1 c) (ec_now2 c) (tokens st))
    as [[txt|] tk'] eqn:V; simpl in *.
  - destruct (tk' !! token) as [e|] eqn:E; [|done].
    specialize (Hk e eq_refl). congruence.
  - destruct (tk' !! token) as [e|] eqn:E; [|done].
    specialize (Hk e eq_refl). congruence.
Qed.

Lemma run_exports_no_new_token gen resolve cs token : forall st,
  tokens st !! token = None ->
  tokens (run_exports gen resolve cs st) !! token = None.
Proof.
  induction cs as [|c cs IH]; intros st Hn; simpl; [done|].
  apply IH. by apply run_export_no_new_token.
Qed.

(** An export with a token leaves the token out of the table. *)
Lemma run_export_consumes gen resolve c st token :
  ec_token c = Some token ->
  tokens (run_export gen resolve c st).2 !! token = None.
Proof.
  intros Ht. unfold run_export, export_resume. rewrite Ht.
  pose proof (validate_consumes token (ec_now1 c) (ec_now2 c) (tokens st)) as Hc.
  destruct (validate_tailor_token token (ec_now1 c) (ec_now2 c) (tokens st))
    as [[txt|] tk']; exact Hc.
Qed.

End TokenTrafficFacts.

(** X13.  Other traffic does not disturb a live token.  While the entry of
    a token is in the table, any sequence of [tailor_resume] and
    [validate_tailor_token] calls that neither validates nor mints this
    token, made before its expiry, leaves the entry as it is: validations
    of other tokens (right or wrong) and the minting of other tokens do
    not consume it, and a validation in time afterwards returns its
    text. *)
Theorem token_survives_other_calls
    (token : string) (e : TailorTokens.token_entry)
    (cs : list TailorTokens.call) (tk : gmap string TailorTokens.token_entry) :
  tk !! token = Some e ->
  Forall (fun c => TailorTokens.mints token c = false /\
                   TokenTraffic.validates token c = false /\
                   TokenTraffic.sweep_clock c <= TailorTokens.expires e) cs ->
  TokenTraffic.run_calls cs tk !! token = Some e /\
  forall now1 now2,
    now1 <= TailorTokens.expires e -> now2 < TailorTokens.expires e ->
    (TailorTokens.validate_tailor_token token now1 now2
       (TokenTraffic.run_calls cs tk)).1 = Some (TailorTokens.text e).
Proof.
  intros He Hcs.
  assert (TokenTraffic.run_calls cs tk !! token = Some e) as Hin.
  { revert tk He. induction Hcs as [|c cs (Hm & Hv & Hs) _ IH]; intros tk He;
      simpl; [done|].
    apply IH. by apply run_call_stays. }
  split; [exact Hin|]. intros now1 now2 H1 H2.
  apply validate_Some. exists e. done.
Qed.

Lemma token_survives_other_calls_witness :
  let mine := TailorTokens.TokenEntry "my text" 1800 in
  let other := TailorTokens.TailorResult (Some "other text") false None None in
  let cs := [TailorTokens.CallValidate "guess" 10 11;
             TailorTokens.CallTailor other "tok2" 20 21;
             TailorTokens.CallValidate "tok2" 30 31] in
  (TailorTokens.validate_tailor_token "tok1" 40 41
     (TokenTraffic.run_calls cs {[ "tok1" := mine ]})).1 = Some "my text".
Proof.
  cbv zeta.
  apply (token_survives_other_calls "tok1" (TailorTokens.TokenEntry "my text" 1800)).
  - reflexivity.
  - repeat constructor; simpl; lia.
  - simpl. lia.
  - simpl. lia.
Defined.

(** X14.  A token exports at most once.  After an [export_resume] call made
    with a token (whether it succeeded or not), and after any further
    [export_resume] calls, a call with the same token returns the error
    dict and writes no document: [export_resume] consumes the token it is
    given and never puts one back. *)
Theorem token_exports_once
    (_generate_filename :
       option (list (string * string)) -> option string -> option string -> string)
    (resolve : string -> string)
    (token : string) (c c' : TokenTraffic.export_call)
    (cs : list TokenTraffic.export_call) (st : TailorTokens.state) :
  TokenTraffic.ec_token c = Some token ->
  TokenTraffic.ec_token c' = Some token ->
  let st1 :=
    TokenTraffic.run_exports _generate_filename resolve cs
      (TokenTraffic.run_export _generate_filename resolve c st).2 in
  let '(result, st2) := TokenTraffic.run_export _generate_filename resolve c' st1 in
  result
  = TailorTokens.ExportError
      "Invalid or expired tailor token. Please re-run tailor_resume first." /\
  TailorTokens.exported st2 = TailorTokens.exported st1.
Proof.
  intros Hc Hc' st1.
  assert (TailorTokens.tokens st1 !! token = None) as Hn.
  { subst st1. apply run_exports_no_new_token. by apply run_export_consumes. }
  unfold TokenTraffic.run_export, TailorTokens.export_resume. rewrite Hc'.
  pose proof (validate_unknown token (TokenTraffic.ec_now1 c')
                (TokenTraffic.ec_now2 c') _ Hn) as Hv.
  destruct (TailorTokens.validate_tailor_token token _ _ (TailorTokens.tokens st1))
    as [[txt|] tk']; simpl in Hv; [done|]. done.
Qed.

Lemma token_exports_once_witness :
  let opts := TailorTokens.ExportOptions None None (Some "cv.docx") None None in
  let gen := λ (_ : option (list (string * string))) (_ _ : option string),
               "resume.docx" in
  let resolve := λ f : string, "outputs/" +:+ f in
  let st := TailorTokens.State
              {[ "tok" := TailorTokens.TokenEntry "approved text" 1800 ]} [] in
  let first := TokenTraffic.ExportCall "caller text" opts (Some "tok") 5 6 in
  let plain := TokenTraffic.ExportCall "plain text" opts None 7 8 in
  let again := TokenTraffic.ExportCall "other text" opts (Some "tok") 9 10 in
  let st1 := TokenTraffic.run_exports gen resolve [plain]
               (TokenTraffic.run_export gen resolve first st).2 in
  TailorTokens.exported st1
  = [("outputs/cv.docx", TailorTokens.FromText "approved text");
     ("outputs/cv.docx", TailorTokens.FromText "plain text")] /\
  (TokenTraffic.run_export gen resolve again st1).1
  = TailorTokens.ExportError
      "Invalid or expired tailor token. Please re-run tailor_resume first.".
Proof.
  cbv zeta. split; [vm_compute; reflexivity|].
  pose proof (token_exports_once
                (λ (_ : option (list (string * string))) (_ _ : option string),
                   "resume.docx")
                (λ f : string, "outputs/" +:+ f)
                "tok"
                (TokenTraffic.ExportCall "caller text"
                   (TailorTokens.ExportOptions None None (Some "cv.docx") None None)
                   (Some "tok") 5 6)
                (TokenTraffic.ExportCall "other text"
                   (TailorTokens.ExportOptions None None (Some "cv.docx") None None)
                   (Some "tok") 9 10)
                [TokenTraffic.ExportCall "plain text"
                   (TailorTokens.ExportOptions None None (Some "cv.docx") None None)
                   None 7 8]
                (TailorTokens.State
                   {[ "tok" := TailorTokens.TokenEntry "approved text" 1800 ]} [])
                eq_refl eq_refl) as H.
  cbv zeta in H.
  destruct (TokenTraffic.run_export _ _ _ _) as [result st2]. apply H.
Defined.

(** ** The report *)

Section ReportFacts.
Import Ats.

(** The grade of a score, read off the thresholds. *)
Lemma get_grade_spec (s : Z) :
  (90 <= s /\ (ATSReport._get_grade s).2 = "Excellent") \/
  (75 <= s < 90 /\ (ATSReport._get_grade s).2 = "Good") \/
  (60 <= s < 75 /\ (ATSReport._get_grade s).2 = "Needs Improvement") \/
  (s < 60 /\ (ATSReport._get_grade s).2 = "Significant Issues").
Proof.
  unfold ATSReport._get_grade, ATSReport.GRADE_THRESHOLDS. simpl.
  destruct (90 <=? s) eqn:E1; [apply Z.leb_le in E1; auto|apply Z.leb_gt in E1].
  destruct (75 <=? s) eqn:E2;
    [apply Z.leb_le in E2; right; left; split; [lia|done]|apply Z.leb_gt in E2].
  destruct (60 <=? s) eqn:E3;
    [apply Z.leb_le in E3; right; right; left; split; [lia|done]|apply Z.leb_gt in E3].
  right. right. right. split; [lia|]. by destruct (0 <=? s).
Qed.

(** A file that is neither PDF nor DOCX gets no point in layer 1. *)
Lemma formatter_hard_block r :
  FormatterCheck.file_type r <> "pdf" -> FormatterCheck.file_type r <> "docx" ->
  score (FormatterCheck.check_resume r) = 0.
Proof.
  intros H1 H2. unfold FormatterCheck.check_resume.
  destruct (FormatterCheck._check_file_type r) eqn:E; [reflexivity|].
  apply file_type_accepted in E. tauto.
Qed.

End ReportFacts.

(** X15.  The overall score of a full check.  When
    [ATSCheckerAgent.check_with_extracts] returns a report, its overall
    score is the sum of the scores of the three layers it carries, its
    maximum is 100 and the score lies between 8 and 100 (layer 3 never
    takes more than 12 of its 20 points).  For a file that is neither PDF
    nor DOCX layer 1 gives nothing, so the overall score is at most 80
    and the grade is never "Excellent". *)
Theorem report_overall_score
    format_percent list_of_set email phone_in phone_intl mm_yyyy month_yyyy
    fuzzy bare_year now format_years format_float
    (resume_data : FormatterCheck.resume_data)
    (sections : option KeywordScorer.sections)
    (jd2 : KeywordScorer.jd_extract) (jd3 : option IntegrityCheck.jd_extract)
    (resume2 : KeywordScorer.resume_extract)
    (resume3 : IntegrityCheck.resume_extract)
    (job_title company : string) (rep : ATSReport.report) :
  ATSChecker.check_with_extracts format_percent list_of_set email phone_in
    phone_intl mm_yyyy month_yyyy fuzzy bare_year now format_years format_float
    resume_data sections jd2 jd3 resume2 resume3 job_title company
  = IntegrityCheck.Ok rep ->
  ATSReport.overall_score rep
  = Ats.score (ATSReport.formatting rep)
    + KeywordScorer.score (ATSReport.keywords rep)
    + Ats.score (ATSReport.integrity rep) /\
  ATSReport.formatting rep = FormatterCheck.check_resume resume_data /\
  ATSReport.max_score rep = 100 /\
  8 <= ATSReport.overall_score rep <= 100 /\
  (FormatterCheck.file_type resume_data <> "pdf" ->
   FormatterCheck.file_type resume_data <> "docx" ->
   ATSReport.overall_score rep <= 80 /\ ATSReport.grade rep <> "Excellent").
Proof.
  unfold ATSChecker.check_with_extracts.
  pose proof (integrity_score_floor email phone_in phone_intl mm_yyyy month_yyyy
                fuzzy bare_year now format_years
                (FormatterCheck.raw_text resume_data) resume3 jd3 6) as H3.
  pose proof (integrity_score_bounded email phone_in phone_intl mm_yyyy month_yyyy
                fuzzy bare_year now format_years
                (FormatterCheck.raw_text resume_data) resume3 jd3 6) as H3'.
  destruct (IntegrityCheck.check_resume _ _ _ _ _ _ _ _ _ _ _ _ _) as [l3|];
    [|done].
  destruct (H3 l3 eq_refl) as (Hl3 & _). destruct (H3' l3 eq_refl) as (_ & Hm3).
  destruct (formatter_score_bounded resume_data) as (Hl1 & Hm1).
  destruct (keyword_score_bounded format_percent list_of_set jd2 resume2
              (FormatterCheck.raw_text resume_data) sections) as (Hl2 & Hm2).
  intros [= <-]. unfold ATSReport.format.
  set (s := Ats.score _ + KeywordScorer.score _ + Ats.score l3).
  pose proof (get_grade_spec s) as Hg.
  destruct (ATSReport._get_grade s) as [icon label]. simpl in *.
  split; [reflexivity|]. split; [reflexivity|].
  split; [by rewrite Hm1, Hm2, Hm3|]. split; [subst s; lia|].
  intros Hp Hd. subst s. rewrite (formatter_hard_block _ Hp Hd) in *.
  split; [lia|]. intros ->.
  destruct Hg as [[H _]|[[_ H]|[[_ H]|[_ H]]]]; (lia || discriminate).
Qed.

Lemma report_overall_score_witness :
  let none := fun _ : string => @nil string in
  let none2 := fun _ : string => @nil (string * string) in
  let check :=
    ATSChecker.check_with_extracts (fun _ => "") remove_dups none none none
      none2 none2 none2 none (fun _ => IntegrityCheck.Date 2024 5)
      (fun _ => "") (fun _ => "")
      (FormatterCheck.ResumeData "txt" [] [] None "plain text") None
      (KeywordScorer.JdExtract ["Python"] [] [] [] []) None
      (KeywordScorer.ResumeExtract ["python"] [])
      (IntegrityCheck.ResumeExtract [] 0 []) "Engineer" "Acme" in
  exists rep,
    check = IntegrityCheck.Ok rep /\
    ATSReport.overall_score rep = 18 /\
    ATSReport.grade rep = "Significant Issues" /\
    ATSReport.overall_score rep <= 80.
Proof.
  cbv zeta. eexists. split; [reflexivity|]. split; [reflexivity|].
  split; [reflexivity|].
  eapply (report_overall_score (fun _ => "") remove_dups (fun _ => [])
            (fun _ => []) (fun _ => []) (fun _ => []) (fun _ => []) (fun _ => [])
            (fun _ => []) (fun _ => IntegrityCheck.Date 2024 5)
            (fun _ => "") (fun _ => "")
            (FormatterCheck.ResumeData "txt" [] [] None "plain text") None
            (KeywordScorer.JdExtract ["Python"] [] [] [] []) None
            (KeywordScorer.ResumeExtract ["python"] [])
            (IntegrityCheck.ResumeExtract [] 0 []) "Engineer" "Acme");
    [reflexivity|discriminate|discriminate].
Defined.

(** X16.  The grade and the recommendation of a report agree.  The grade is
    looked up in [GRADE_THRESHOLDS] and the recommendation, the last line
    but one of the text, is chosen by a chain of comparisons; for every
    three layer results both are decided by the same bounds 90, 75 and 60
    on the overall score, so "Excellent" always comes with "Ready to
    apply!" and "Significant Issues" with "Significant changes needed",
    also for a score below 0, which no threshold reaches. *)
Theorem grade_and_recommendation_agree
    (format_float : Q -> string) (layer1 : Ats.layer_result)
    (layer2 : KeywordScorer.result) (layer3 : Ats.layer_result)
    (job_title company : string) :
  let rep := ATSReport.format format_float layer1 layer2 layer3 job_title company in
  let s := ATSReport.overall_score rep in
  s = Ats.score layer1 + KeywordScorer.score layer2 + Ats.score layer3 /\
  (exists body,
     ATSReport.formatted_text rep
     = PyStr.join (String (ascii_of_nat 10) "")
         (body ++ [ATSReport.recommendation s; ATSReport.rule50])) /\
  ((90 <= s /\ ATSReport.grade rep = "Excellent" /\
    ATSReport.recommendation s
    = "Recommendation: Resume is well-optimised. Ready to apply!") \/
   (75 <= s < 90 /\ ATSReport.grade rep = "Good" /\
    ATSReport.recommendation s
    = "Recommendation: Minor improvements possible. Consider tailoring.") \/
   (60 <= s < 75 /\ ATSReport.grade rep = "Needs Improvement" /\
    ATSReport.recommendation s
    = "Recommendation: Tailor resume to fix the above before applying.") \/
   (s < 60 /\ ATSReport.grade rep = "Significant Issues" /\
    ATSReport.recommendation s
    = "Recommendation: Significant changes needed before applying.")).
Proof.
  intros rep s. subst s rep. unfold ATSReport.format.
  set (s := Ats.score layer1 + KeywordScorer.score layer2 + Ats.score layer3).
  pose proof (get_grade_spec s) as Hg.
  destruct (ATSReport._get_grade s) as [icon label]. simpl in *.
  split; [reflexivity|]. split.
  - unfold ATSReport._render_text, ATSReport._render_lines.
    eexists. rewrite !app_assoc. reflexivity.
  - unfold ATSReport.recommendation.
    destruct Hg as [[H ->]|[[H ->]|[[H ->]|[H ->]]]].
    + left. rewrite (proj2 (Z.leb_le 90 s)) by lia. done.
    + right. left. rewrite (proj2 (Z.leb_gt 90 s)), (proj2 (Z.leb_le 75 s)) by lia.
      done.
    + right. right. left.
      rewrite (proj2 (Z.leb_gt 90 s)), (proj2 (Z.leb_gt 75 s)),
        (proj2 (Z.leb_le 60 s)) by lia. done.
    + right. right. right.
      rewrite (proj2 (Z.leb_gt 90 s)), (proj2 (Z.leb_gt 75 s)),
        (proj2 (Z.leb_gt 60 s)) by lia. done.
Qed.

(** A report for a PDF with a matching skill and no contact data. *)
Example report_text_example :
  let none := fun _ : string => @nil string in
  let none2 := fun _ : string => @nil (string * string) in
  let check :=
    ATSChecker.check_with_extracts (fun _ => "") remove_dups none none none
      none2 none2 none2 none (fun _ => IntegrityCheck.Date 2024 5)
      (fun _ => "") (fun _ => "100.0")
      (FormatterCheck.ResumeData "pdf" [] [] None "plain text") None
      (KeywordScorer.JdExtract ["Python"] [] [] [] []) None
      (KeywordScorer.ResumeExtract ["python"] [])
      (IntegrityCheck.ResumeExtract [] 0 []) "Engineer" "Acme" in
  (fun rep => (ATSReport.overall_score rep, ATSReport.grade rep,
               take 3 (ATSReport._render_lines (fun _ => "100.0")
                         (ATSReport.formatting rep) (ATSReport.keywords rep)
                         (ATSReport.integrity rep) (ATSReport.overall_score rep)
                         (ATSReport.max_score rep) (ATSReport.grade_icon rep)
                         (ATSReport.grade rep) "Engineer" "Acme")))
  <$> (match check with
       | IntegrityCheck.Ok rep => Some rep
       | IntegrityCheck.ValueError => None
       end)
  = Some (38, "Significant Issues",
          ["ATS Report — Acme Engineer"; ATSReport.rule50;
           "Overall Score:       38 / 100   🔴  Significant Issues"]).
Proof. vm_compute. reflexivity. Qed.

(** ** The tracker *)

Section TrackerFacts.
Import Database.

Variable json_dumps : pyval -> string.


End TrackerFacts.



Section HistoryFacts.
Import Database ApplyAgent.

Variable json_dumps : pyval -> string.
Variable MIN_ATS_SCORE : Z.

(** A call of the agent that is accepted: its log row, and its record in
    the table afterwards. *)
Lemma run_call_accepted c w d w' :
  run_call json_dumps MIN_ATS_SCORE c w = (Ok d, w') ->
  has_key d "error" = false ->
  (exists details t,
     action_log w'
     = Table (<[next_id (action_log w) :=
                  log_cols json_dumps (action_name c) (Some details)
                    (Some (target c w)) (logged_confirmed c) t]>
                (rows (action_log w)))
         (next_id (action_log w))) /\
  is_Some (rows (applications w') !! target c w).
Proof.
  intros Hrun Herr.
  destruct c as [rid jid tt cl s rep f | a | a reason]; simpl in *.
  - destruct (prepare_application_effect json_dumps MIN_ATS_SCORE rid jid tt cl s rep f w)
      as (d0 & w0 & Hrun0 & Heff).
    rewrite Hrun in Hrun0. injection Hrun0 as <- <-.
    destruct Heff as [(He & _) | (_ & _ & _ & _ & _ & _ & new & det & t & Happs
                                  & _ & _ & _ & Hlog & _)]; [congruence|].
    split; [eauto|]. rewrite Happs. simpl. rewrite lookup_insert_eq. eauto.
  - destruct (confirm_apply_effect json_dumps a w) as (d0 & w0 & Hrun0 & Heff).
    rewrite Hrun in Hrun0. injection Hrun0 as <- <-.
    destruct Heff as [(He & _) | (_ & r & t & det & tl & Hr & _ & Happs & Hlog & _)];
      [congruence|].
    split; [eauto|]. rewrite Happs. simpl. rewrite lookup_alter_eq, Hr. simpl. eauto.
  - destruct (cancel_application_effect json_dumps a reason w)
      as (d0 & w0 & Hrun0 & Heff).
    rewrite Hrun in Hrun0. injection Hrun0 as <- <-.
    destruct Heff as [(He & _) | (_ & r & notes & t & det & tl & Hr & Happs & Hlog & _)];
      [congruence|].
    split; [eauto|]. rewrite Happs. simpl. rewrite lookup_alter_eq, Hr. simpl. eauto.
Qed.

(** The history of [b] after one row has been added to the log. *)
Lemma history_rows_insert (b : Z) w w' i (e : row) :
  rows (action_log w) !! i = None ->
  rows (action_log w') = <[i := e]> (rows (action_log w)) ->
  Queries.history_rows b w'
  ≡ₚ (if decide (e !! "application_id" = Some (Int b))
      then [<["id" := Int i]> e] else [])
     ++ Queries.history_rows b w.
Proof.
  intros Hfresh Hlog. unfold Queries.history_rows.
  rewrite !merge_sort_Permutation, Hlog.
  rewrite (map_to_list_insert _ _ _ Hfresh). rewrite filter_cons. simpl.
  destruct (decide (e !! "application_id" = Some (Int b))); reflexivity.
Qed.

End HistoryFacts.

(** X18.  The history of an application shows the calls of the agent.
    When a call of [ApplyAgent] is accepted for the application [a],
    [TrackerAgent.get_application_history] for [a] then finds the record
    and returns a history that is the one before with exactly one entry
    added: the entry is named after the call, carries the id [a], and is
    marked confirmed for [confirm_apply] only.  The history of every other
    application holds the entries it held. *)
Theorem history_shows_accepted_calls
    (json_dumps : Database.pyval -> string) (MIN_ATS_SCORE : Z)
    (c : ApplyAgent.call) (w w' : Database.world) (d : Database.pydict) :
  ApplyAgent.run_call json_dumps MIN_ATS_SCORE c w = (Database.Ok d, w') ->
  Database.has_key d "error" = false ->
  let a := ApplyAgent.target c w in
  exists app entry,
    TrackerAgent.get_application_history a w'
    = (Database.Ok (TrackerAgent.History app (Queries.history_rows a w')), w') /\
    app !! "id" = Some (Database.Int a) /\
    entry !! "action" = Some (Database.Text (ApplyAgent.action_name c)) /\
    entry !! "application_id" = Some (Database.Int a) /\
    entry !! "confirmed"
    = Some (Database.Int (if ApplyAgent.logged_confirmed c then 1 else 0)) /\
    Queries.history_rows a w' ≡ₚ entry :: Queries.history_rows a w /\
    (forall b, b <> a -> Queries.history_rows b w' ≡ₚ Queries.history_rows b w).
Proof.
  intros Hrun Herr a.
  destruct (run_call_accepted json_dumps MIN_ATS_SCORE c w d w' Hrun Herr)
    as ((details & t & Hlog) & [r Hr]).
  fold a in Hlog, Hr.
  set (e := Database.log_cols json_dumps (ApplyAgent.action_name c) (Some details)
              (Some a) (ApplyAgent.logged_confirmed c) t) in *.
  assert (e !! "application_id" = Some (Database.Int a)) as Hea by reflexivity.
  assert (Database.rows (Database.action_log w')
          = <[Database.next_id (Database.action_log w) := e]>
              (Database.rows (Database.action_log w))) as Hrows
    by (by rewrite Hlog).
  pose proof (fun b => history_rows_insert b w w' _ e
                         (next_id_fresh (Database.action_log w)) Hrows) as Hh.
  exists (<["id" := Database.Int a]> r),
    (<["id" := Database.Int (Database.next_id (Database.action_log w))]> e).
  split.
  { unfold TrackerAgent.get_application_history, Database.bind,
      Database.get_application, Database.select_by_id.
    rewrite Hr. reflexivity. }
  split; [apply lookup_insert_eq|].
  split; [by rewrite lookup_insert_ne|].
  split; [by rewrite lookup_insert_ne|].
  split; [rewrite lookup_insert_ne by done; by destruct (ApplyAgent.logged_confirmed c)|].
  split.
  - rewrite (Hh a). by rewrite decide_True.
  - intros b Hb. rewrite (Hh b). rewrite decide_False; [done|].
    rewrite Hea. intros [= ?]. congruence.
Qed.

Lemma history_shows_accepted_calls_witness :
  exists w' app entry,
    ApplyAgent.run_call Demo.dumps_keys 60 (ApplyAgent.Confirm 1) Demo.world1
    = (Database.Ok
         [("application_id", Database.PInt 1);
          ("status", Database.PStr "submitted");
          ("applied_at", Database.PStr "t0");
          ("message",
           Database.PStr "Application marked as submitted! Good luck! 🎯")],
       w') /\
    TrackerAgent.get_application_history 1 w'
    = (Database.Ok (TrackerAgent.History app (Queries.history_rows 1 w')), w') /\
    entry !! "action" = Some (Database.Text "confirm_apply") /\
    Queries.history_rows 1 w' ≡ₚ entry :: Queries.history_rows 1 Demo.world1.
Proof.
  assert (exists w',
            ApplyAgent.run_call Demo.dumps_keys 60 (ApplyAgent.Confirm 1) Demo.world1
            = (Database.Ok
                 [("application_id", Database.PInt 1);
                  ("status", Database.PStr "submitted");
                  ("applied_at", Database.PStr "t0");
                  ("message",
                   Database.PStr "Application marked as submitted! Good luck! 🎯")],
               w')) as [w' Hrun] by (eexists; reflexivity).
  destruct (history_shows_accepted_calls Demo.dumps_keys 60 (ApplyAgent.Confirm 1)
              Demo.world1 w' _ Hrun eq_refl)
    as (app & entry & Hhist & _ & Hact & _ & _ & Hperm & _).
  exists w', app, entry.
  split; [exact Hrun|]. split; [exact Hhist|]. split; [exact Hact|exact Hperm].
Defined.

Section ListFacts.
Import Database.

Lemma elem_of_merge_sort_created (p : Z * row) l :
  p ∈ merge_sort Queries.created_desc l <-> p ∈ l.
Proof. by rewrite merge_sort_Permutation. Qed.

Lemma length_omap_le {A B} (f : A -> option B) (l : list A) :
  (length (omap f l) <= length l)%nat.
Proof.
  induction l as [|x l IH]; [done|]. unfold omap in *. simpl.
  destruct (f x); simpl; lia.
Qed.

End ListFacts.

(** X19.  What [list_applications] lists.  A row is in the result exactly
    when it is made of an application in the table whose [job_id] is the id
    of a job on file (the inner join drops an application whose job is
    missing or NULL), and, for a status that is a non-empty string, whose
    status is that string.  An empty string as status filters nothing: it
    lists what no status lists.  The call changes nothing. *)
Theorem list_applications_join
    (status : option string) (w : Database.world) :
  exists l,
    Queries.list_applications status w = (Database.Ok l, w) /\
    (forall x,
       x ∈ l <->
       exists id a jid j,
         Database.rows (Database.applications w) !! id = Some a /\
         a !! "job_id" = Some (Database.Int jid) /\
         Database.rows (Database.jobs w) !! jid = Some j /\
         match status with
         | Some s => s = "" \/ a !! "status" = Some (Database.Text s)
         | None => True
         end /\
         x = Queries.listed id a j) /\
    (length l <= size (Database.rows (Database.applications w)))%nat /\
    Queries.list_applications (Some "") w = Queries.list_applications None w.
Proof.
  unfold Queries.list_applications. eexists. split; [reflexivity|].
  split; [|split; [|reflexivity]].
  - intros x. rewrite list_elem_of_omap. split.
    + intros ([id a] & Hin & Hj).
      unfold Queries.joined in Hj. simpl in Hj.
      destruct (a !! "job_id") as [[|jid|]|] eqn:Hjid; try done.
      destruct (Database.rows (Database.jobs w) !! jid) as [j|] eqn:Hjob; [|done].
      simpl in Hj. injection Hj as <-.
      exists id, a, jid, j.
      destruct status as [s|].
      * destruct (String.eqb s "") eqn:Es.
        -- apply String.eqb_eq in Es.
           apply elem_of_merge_sort_created, elem_of_map_to_list in Hin. auto 10.
        -- apply list_elem_of_filter in Hin as [Hs Hin].
           apply elem_of_merge_sort_created, elem_of_map_to_list in Hin. auto 10.
      * apply elem_of_merge_sort_created, elem_of_map_to_list in Hin. auto 10.
    + intros (id & a & jid & j & Ha & Hjid & Hjob & Hst & ->).
      exists (id, a). split.
      * assert ((id, a) ∈ merge_sort Queries.created_desc
                  (map_to_list (Database.rows (Database.applications w)))) as Hin
          by (by apply elem_of_merge_sort_created, elem_of_map_to_list).
        destruct status as [s|]; [|done].
        destruct (String.eqb s "") eqn:Es; [done|].
        apply String.eqb_neq in Es. apply list_elem_of_filter. split; [|done].
        simpl. destruct Hst; [done|done].
      * unfold Queries.joined. simpl. by rewrite Hjid, Hjob.
  - etrans; [apply length_omap_le|].
    assert (forall l' : list (Z * Database.row),
              (length l' <= size (Database.rows (Database.applications w)))%nat ->
              (length (match status with
                       | Some s =>
                           if String.eqb s "" then l'
                           else filter (fun p : Z * Database.row =>
                                          p.2 !! "status" = Some (Database.Text s)) l'
                       | None => l'
                       end)
               <= size (Database.rows (Database.applications w)))%nat) as Hf.
    { intros l' Hl'. destruct status as [s|]; [|done].
      destruct (String.eqb s ""); [done|].
      etrans; [apply length_filter|done]. }
    apply Hf. rewrite merge_sort_Permutation, length_map_to_list. done.
Qed.

(** An application whose job is not on file, and one whose job is. *)
Example list_applications_example :
  (Queries.list_applications None Demo.world1).1
  = Database.Ok
      [Queries.listed 1
         {[ "resume_id" := Database.Int 1; "job_id" := Database.Int 1;
            "status" := Database.Text "draft"; "created_at" := Database.Text "t" ]}
         {[ "title" := Database.Text "Engineer"; "company" := Database.Text "Acme" ]}].
Proof. by_evaluation. Qed.

(** ** The dashboard *)

Section DashboardFacts.
Import Database Dashboard.

Lemma tally_absent k d : k ∉ d.*1 -> tally k d = 0%nat.
Proof.
  induction d as [|[k' n] d IH]; simpl; [done|].
  rewrite not_elem_of_cons. intros [Hk Hd].
  rewrite decide_False by done. by apply IH.
Qed.

Lemma tally_elem k n d : NoDup d.*1 -> (k, n) ∈ d -> tally k d = n.
Proof.
  induction d as [|[k' n'] d IH]; simpl; intros Hnd Hin.
  - by apply elem_of_nil in Hin.
  - apply NoDup_cons in Hnd as [Hk' Hnd].
    apply elem_of_cons in Hin as [[= -> ->]|Hin].
    + rewrite decide_True by done. rewrite tally_absent by done. lia.
    + rewrite decide_False.
      * by apply IH.
      * intros ->. apply Hk'. apply list_elem_of_fmap. by exists (k, n).
Qed.

Lemma bump_keys k' d k : k ∈ (bump k' d).*1 <-> k = k' \/ k ∈ d.*1.
Proof.
  induction d as [|[k0 n] d IH]; simpl.
  - rewrite elem_of_cons, elem_of_nil. tauto.
  - destruct (decide (k0 = k')) as [->|Hne]; simpl.
    + rewrite !elem_of_cons. tauto.
    + rewrite !elem_of_cons, IH. tauto.
Qed.

Lemma bump_NoDup k' d : NoDup d.*1 -> NoDup (bump k' d).*1.
Proof.
  induction d as [|[k0 n] d IH]; simpl; intros Hnd.
  - apply NoDup_singleton.
  - apply NoDup_cons in Hnd as [Hk0 Hnd].
    destruct (decide (k0 = k')) as [->|Hne]; simpl.
    + by apply NoDup_cons.
    + apply NoDup_cons. split; [|by apply IH].
      rewrite bump_keys. intros [->|H]; done.
Qed.

Lemma bump_tally k' d k :
  tally k (bump k' d) = (tally k d + if decide (k' = k) then 1 else 0)%nat.
Proof.
  induction d as [|[k0 n] d IH]; simpl.
  - destruct (decide (k' = k)); lia.
  - destruct (decide (k0 = k')) as [->|Hne]; simpl.
    + destruct (decide (k' = k)); lia.
    + rewrite IH. destruct (decide (k0 = k)); lia.
Qed.

Lemma bump_positive k' d :
  Forall (fun p : sqlval * nat => (0 < p.2)%nat) d ->
  Forall (fun p : sqlval * nat => (0 < p.2)%nat) (bump k' d).
Proof.
  induction 1 as [|[k0 n] d Hn Hd IH]; simpl.
  - repeat constructor.
  - destruct (decide (k0 = k')); constructor; simpl in *; (lia || done).
Qed.

Lemma bump_sum k' d : sum_list (bump k' d).*2 = S (sum_list d.*2).
Proof.
  induction d as [|[k0 n] d IH]; csimpl; [done|].
  destruct (decide (k0 = k')); csimpl; [done|]. rewrite IH. lia.
Qed.

(** The counting loop, started from any breakdown. *)
Lemma count_loop apps : forall d,
  NoDup d.*1 -> Forall (fun p : sqlval * nat => (0 < p.2)%nat) d ->
  let d' := foldl (fun d app => bump (col app "status") d) d apps in
  NoDup d'.*1 /\ Forall (fun p : sqlval * nat => (0 < p.2)%nat) d' /\
  sum_list d'.*2 = (sum_list d.*2 + length apps)%nat /\
  forall k, tally k d'
            = (tally k d
               + length (filter (fun app : row => col app "status" = k) apps))%nat.
Proof.
  induction apps as [|app apps IH]; intros d Hnd Hpos; simpl.
  { repeat split; try done; intros; lia. }
  destruct (IH (bump (col app "status") d) (bump_NoDup _ _ Hnd) (bump_positive _ _ Hpos))
    as (H1 & H2 & H3 & H4).
  split; [exact H1|]. split; [exact H2|]. split.
  - rewrite H3, bump_sum. lia.
  - intros k. rewrite H4, bump_tally, filter_cons.
    destruct (decide (col app "status" = k)); simpl; lia.
Qed.

Lemma sum_ats_returns apps : forall total count total' count',
  sum_ats apps total count = Returns (total', count') ->
  (count' = count <-> Forall (fun app : row => col app "ats_score" = Null) apps) /\
  (count <= count')%nat /\
  Forall (fun app : row => forall s, col app "ats_score" <> Text s) apps.
Proof.
  induction apps as [|app apps IH]; intros total count total' count'; simpl.
  - intros [= <- <-]. repeat split; auto.
  - destruct (col app "ats_score") as [|n|s] eqn:E; [| |done]; intros H;
      destruct (IH _ _ _ _ H) as (Hiff & Hle & Hall).
    + split; [|split; [done|]].
      * rewrite Hiff. split; [intros; by constructor|]. by inversion 1.
      * constructor; [|done]. intros s. by rewrite E.
    + split; [|split; [lia|]].
      * split; [lia|]. inversion 1 as [|? ? Hn]; subst. congruence.
      * constructor; [|done]. intros s. by rewrite E.
Qed.

Lemma breakdown_returns counts lines :
  breakdown_lines counts = Returns lines ->
  Forall (fun p : sqlval * nat => exists s, p.1 = Text s) counts.
Proof.
  unfold breakdown_lines.
  destruct (length (omap text_key counts) =? length counts)%nat eqn:E.
  - intros _. apply Nat.eqb_eq in E.
    induction counts as [|[k n] counts IH]; [constructor|].
    unfold omap in *. simpl in E.
    pose proof (length_omap_le text_key counts) as Hle. unfold omap in Hle.
    destruct k as [| |s]; simpl in E; try lia.
    constructor; [by eexists|]. apply IH. lia.
  - destruct counts as [|[k0 n0] counts]; [done|].
    by destruct (forallb _ _).
Qed.

End DashboardFacts.

(** X20.  The numbers of the dashboard add up.  When
    [TrackerAgent.get_dashboard] returns, nothing in the database has
    changed; the total is the number of rows [list_applications] gives; the
    status breakdown has one entry for every status that occurs, each with
    the number of listed applications in that status, so the counts add up
    to the total; the average is absent exactly when no listed application
    has a score; and the recent applications are the first ten.  It
    returns only when every listed status is a text and no score is: a NULL
    status or a score stored as text makes the call raise. *)
Theorem dashboard_counts_add_up
    (format_float : Q -> string) (w w' : Database.world)
    (d : Dashboard.dashboard) :
  Dashboard.get_dashboard format_float w = (Database.Ok (Dashboard.Returns d), w') ->
  exists apps,
    Queries.list_applications None w = (Database.Ok apps, w) /\
    w' = w /\
    Dashboard.total_applications d = length apps /\
    NoDup (Dashboard.status_breakdown d).*1 /\
    (forall k n,
       (k, n) ∈ Dashboard.status_breakdown d <->
       (0 < n)%nat /\
       n = length (filter (fun app : Database.row => Database.col app "status" = k)
                     apps)) /\
    sum_list (Dashboard.status_breakdown d).*2 = length apps /\
    (Dashboard.average_ats_score d = None <->
     Forall (fun app : Database.row => Database.col app "ats_score" = Database.Null)
       apps) /\
    Dashboard.recent_applications d = take 10 apps /\
    Forall (fun app : Database.row =>
              (exists s, Database.col app "status" = Database.Text s) /\
              forall s, Database.col app "ats_score" <> Database.Text s) apps.
Proof.
  unfold Dashboard.get_dashboard, Database.bind, Database.ret.
  destruct (Queries.list_applications None w) as [[apps|e] w0] eqn:Hlist.
  2:{ unfold Queries.list_applications in Hlist. done. }
  assert (w0 = w) as -> by (unfold Queries.list_applications in Hlist; congruence).
  destruct (Dashboard.sum_ats apps 0 0) as [[total count]|e] eqn:Hsum; [|done].
  destruct (Dashboard._format_dashboard format_float apps
              (Dashboard.count_statuses apps) (Dashboard.average total count))
    as [text|e] eqn:Hfmt; [|done].
  intros [= <- <-]. exists apps. split; [done|]. split; [done|]. simpl.
  destruct (count_loop apps [] (NoDup_nil_2) (Forall_nil_2 _))
    as (Hnd & Hpos & Hsumc & Htally).
  fold (Dashboard.count_statuses apps) in Hnd, Hpos, Hsumc, Htally.
  destruct (sum_ats_returns apps 0 0%nat total count Hsum) as (Hnone & _ & Hats).
  split; [reflexivity|]. split; [exact Hnd|]. split; [|split; [|split; [|split]]].
  - intros k n. split.
    + intros Hin. split.
      * rewrite Forall_forall in Hpos. apply (Hpos (k, n) Hin).
      * rewrite <- (tally_elem k n _ Hnd Hin), Htally. simpl. done.
    + intros [Hn ->].
      destruct (decide (k ∈ (Dashboard.count_statuses apps).*1)) as [Hk|Hk].
      * apply list_elem_of_fmap in Hk as ([k' n'] & -> & Hin). simpl.
        rewrite <- (tally_elem k' n' _ Hnd Hin), Htally in Hin. exact Hin.
      * pose proof (tally_absent k _ Hk) as H0. rewrite Htally in H0. simpl in H0.
        lia.
  - rewrite Hsumc. simpl. done.
  - unfold Dashboard.average. rewrite <- Hnone. destruct count; split; (done || lia).
  - reflexivity.
  - unfold Dashboard._format_dashboard in Hfmt.
    destruct (Dashboard.breakdown_lines (Dashboard.count_statuses apps))
      as [lines|e] eqn:Hb; [|done].
    apply breakdown_returns in Hb.
    pose proof (proj1 (Forall_forall _ _) Hb) as Hb'.
    pose proof (proj1 (Forall_forall _ _) Hats) as Hats'.
    apply Forall_forall. intros app Hin. split; [|by apply Hats'].
    assert (Database.col app "status" ∈ (Dashboard.count_statuses apps).*1) as Hk.
    { destruct (decide (Database.col app "status"
                          ∈ (Dashboard.count_statuses apps).*1)) as [Hk|Hk]; [done|].
      pose proof (tally_absent _ _ Hk) as H0. rewrite Htally in H0. simpl in H0.
      assert (app ∈ filter (fun a : Database.row =>
                              Database.col a "status" = Database.col app "status")
                      apps) as Hf by (by apply list_elem_of_filter).
      destruct (filter _ apps); [by apply elem_of_nil in Hf|simpl in H0; lia]. }
    apply list_elem_of_fmap in Hk as (p & Hp & Hin'). rewrite Hp. by apply Hb'.
Qed.

Lemma dashboard_counts_add_up_witness :
  exists d apps,
    Dashboard.get_dashboard (fun _ => "") Demo.world1
    = (Database.Ok (Dashboard.Returns d), Demo.world1) /\
    Queries.list_applications None Demo.world1 = (Database.Ok apps, Demo.world1) /\
    Dashboard.total_applications d = length apps /\
    sum_list (Dashboard.status_breakdown d).*2 = length apps.
Proof.
  assert (exists d,
            Dashboard.get_dashboard (fun _ => "") Demo.world1
            = (Database.Ok (Dashboard.Returns d), Demo.world1)) as (d & Hrun)
    by (eexists; reflexivity).
  destruct (dashboard_counts_add_up (fun _ => "") Demo.world1 Demo.world1 d Hrun)
    as (apps & Hlist & _ & Ht & _ & _ & Hsum & _).
  exists d, apps. split; [exact Hrun|]. split; [exact Hlist|].
  split; [exact Ht|exact Hsum].
Defined.

(** The dashboard of the example world: one application is listed (the
    job of the other is not on file), and a NULL status makes the call
    raise. *)
Example dashboard_example :
  (fun d => (Dashboard.total_applications d, Dashboard.status_breakdown d,
             Dashboard.average_ats_score d))
  <$> (match (Dashboard.get_dashboard (fun _ => "") Demo.world1).1 with
       | Database.Ok (Dashboard.Returns d) => Some d
       | _ => None
       end)
  = Some (1%nat, [(Database.Text "draft", 1%nat)], None) /\
  Dashboard.breakdown_lines [(Database.Null, 2%nat); (Database.Text "draft", 1%nat)]
  = Dashboard.Raises Dashboard.TypeError /\
  Dashboard.breakdown_lines [(Database.Null, 2%nat)]
  = Dashboard.Raises Dashboard.AttributeError.
Proof. split; [by_evaluation|split; reflexivity]. Qed.

(** ** The diff by sections *)

Section DiffSectionsFacts.
Import DiffViewer DiffSections.

Variable unified_diff :
  list string -> list string -> string -> string -> Z -> list string.
Variable get_opcodes : list string -> list string -> list opcode.

Lemma diff_section_key o m s :
  (diff_section unified_diff get_opcodes o m s).1.1 = s.
Proof.
  unfold diff_section. destruct (negb _); [|done].
  by destruct (diff _ _ _ _ _).
Qed.

(** A section is compared only when its content differs, and one that is
    reported as changed has been compared. *)
Lemma diff_section_same o m s :
  content o s = content m s ->
  diff_section unified_diff get_opcodes o m s = ((s, Same), []).
Proof. intros H. unfold diff_section. by rewrite H, String.eqb_refl. Qed.

Lemma diff_section_changed o m s :
  changed (diff_section unified_diff get_opcodes o m s).1.2 = true ->
  content o s <> content m s.
Proof.
  intros H Heq. by rewrite (diff_section_same o m s Heq) in H.
Qed.

(** The two lists of names split the list of entries. *)
Lemma changed_split (l : list (string * section_diff)) :
  map fst (filter (fun p : string * section_diff => changed p.2 = true) l)
  ++ map fst (filter (fun p : string * section_diff => changed p.2 = false) l)
  ≡ₚ map fst l.
Proof.
  induction l as [|[s d] l IH]; [done|].
  rewrite !filter_cons. cbn [snd].
  destruct (changed d) eqn:E.
  - rewrite decide_True, decide_False by done. simpl. by rewrite IH.
  - rewrite decide_False, decide_True by done. simpl.
    rewrite <- Permutation_middle. by rewrite IH.
Qed.

End DiffSectionsFacts.

(** X21.  [diff_sections] puts every section in exactly one list.  The
    names in "changed_sections" and "unchanged_sections" together are the
    section names of the two resumes, each once.  A section whose lines
    joined by newlines are the same text on both sides (also one that is
    missing on one side and empty on the other) is unchanged, and for it
    no call into [difflib] is made; a section reported as changed has
    different content.  When no section differs nothing is compared at
    all. *)
Theorem diff_sections_partition
    (unified_diff : list string -> list string -> string -> string -> Z -> list string)
    (get_opcodes : list string -> list string -> list DiffViewer.opcode)
    (list_of_set : list string -> list string)
    (original_sections modified_sections : KeywordScorer.sections) :
  (forall l, list_of_set l ≡ₚ remove_dups l) ->
  let run :=
    DiffSections.diff_sections unified_diff get_opcodes list_of_set
      original_sections modified_sections in
  let names := original_sections.*1 ++ modified_sections.*1 in
  let same s :=
    DiffSections.content original_sections s
    = DiffSections.content modified_sections s in
  DiffSections.changed_sections run.1 ++ DiffSections.unchanged_sections run.1
  ≡ₚ remove_dups names /\
  NoDup (DiffSections.changed_sections run.1
         ++ DiffSections.unchanged_sections run.1) /\
  (forall s, s ∈ names -> same s -> s ∈ DiffSections.unchanged_sections run.1) /\
  (forall s, s ∈ DiffSections.changed_sections run.1 -> ~ same s) /\
  ((forall s, s ∈ names -> same s) -> run.2 = []).
Proof.
  intros Hset run names same. subst run. unfold DiffSections.diff_sections.
  fold names. cbn [fst snd DiffSections.changed_sections
                   DiffSections.unchanged_sections].
  set (keys := list_of_set names).
  set (per := map (DiffSections.diff_section unified_diff get_opcodes
                     original_sections modified_sections) keys).
  assert (map fst (map fst per) = keys) as Hkeys.
  { subst per. rewrite !map_map. rewrite <- (map_id keys) at 2.
    apply map_ext. intros s. apply diff_section_key. }
  assert (forall s, s ∈ keys <-> s ∈ names) as Hin.
  { intros s. subst keys. rewrite (Hset names). apply elem_of_remove_dups. }
  pose proof (changed_split (map fst per)) as Hsplit. rewrite Hkeys in Hsplit.
  split; [by rewrite Hsplit; subst keys|].
  split; [rewrite Hsplit; subst keys; rewrite (Hset names); apply NoDup_remove_dups|].
  split; [|split].
  - intros s Hs Hsame. apply Hin in Hs.
    apply list_elem_of_fmap. exists (s, DiffSections.Same). split; [done|].
    apply list_elem_of_filter. split; [done|].
    apply list_elem_of_fmap.
    exists (DiffSections.diff_section unified_diff get_opcodes
              original_sections modified_sections s).
    split; [by rewrite diff_section_same|].
    subst per. apply list_elem_of_fmap. by exists s.
  - intros s Hs. apply list_elem_of_fmap in Hs as ([s' d] & -> & Hs).
    apply list_elem_of_filter in Hs as [Hch Hs]. simpl in *.
    apply list_elem_of_fmap in Hs as ([[s0 d0] calls] & [= <- <-] & Hs).
    subst per. apply list_elem_of_fmap in Hs as (s1 & Heq & Hs1).
    pose proof (diff_section_key unified_diff get_opcodes original_sections
                  modified_sections s1) as Hk.
    rewrite <- Heq in Hk. simpl in Hk. subst s1.
    apply (diff_section_changed unified_diff get_opcodes). by rewrite <- Heq.
  - intros Hall. subst per.
    assert (Forall (fun s => same s) keys) as Hf.
    { apply Forall_forall. intros s Hs. apply Hall. by apply Hin. }
    clear Hkeys Hsplit Hin. induction Hf as [|s keys' Hs _ IH]; [done|].
    simpl. rewrite diff_section_same by done. exact IH.
Qed.

Lemma diff_sections_partition_witness :
  let original := [("summary", ["Engineer"]); ("skills", ["python"; "sql"])] in
  let modified :=
    [("summary", ["Engineer"]); ("skills", ["python"]); ("awards", [])] in
  let run :=
    DiffSections.diff_sections (fun _ _ _ _ _ => Demo.unified_diff_a_b)
      (fun _ _ => Demo.opcodes_a_b) remove_dups original modified in
  DiffSections.changed_sections run.1 = ["skills"] /\
  DiffSections.unchanged_sections run.1 = ["summary"; "awards"] /\
  "awards" ∈ DiffSections.unchanged_sections run.1.
Proof.
  cbv zeta. split; [reflexivity|]. split; [reflexivity|].
  apply (diff_sections_partition (fun _ _ _ _ _ => Demo.unified_diff_a_b)
           (fun _ _ => Demo.opcodes_a_b) remove_dups
           [("summary", ["Engineer"]); ("skills", ["python"; "sql"])]
           [("summary", ["Engineer"]); ("skills", ["python"]); ("awards", [])]).
  - reflexivity.
  - simpl. rewrite !elem_of_cons. tauto.
  - reflexivity.
Defined.

(** ** The order of [find_application] *)

Section OrderFacts.
Import Database.









End OrderFacts.


(** Two active records of one pair, created at different times. *)
Example find_application_example :
  let apps : gmap Z Database.row :=
    {[ 1 := {[ "resume_id" := Database.Int 1; "job_id" := Database.Int 1;
               "status" := Database.Text "draft";
               "created_at" := Database.Text "2024-05-01 10:00:00" ]};
       2 := {[ "resume_id" := Database.Int 1; "job_id" := Database.Int 1;
               "status" := Database.Text "submitted";
               "created_at" := Database.Text "2024-05-02 09:00:00" ]};
       3 := {[ "resume_id" := Database.Int 1; "job_id" := Database.Int 1;
               "status" := Database.Text "cancelled";
               "created_at" := Database.Text "2024-05-03 09:00:00" ]} ]} in
  let w := Database.with_applications (Database.Table apps 3) Demo.world0 in
  match (Database.find_application 1 1 w).1 with
  | Database.Ok (Some ex) => ex !! "id"
  | _ => None
  end = Some (Database.Int 2).
Proof. cbv zeta. by_evaluation. Qed.
